(** * Leaderboard aggregation backend: adapters, masking, freshness cache

    A shallow embedding of [src/server.py] (the caching variant) and
    [src/api/index.py] (the stateless variant).  Python values coming out of
    [response.json()] are modelled by the type [json]; exceptions by the
    error monad [result]; the Mongo collection [leaderboard_cache] by a
    finite map from site ids to cache records.

    Modelling conventions
    - a Python [str] is the list of its code points ([pystr]); [lit] embeds
      the ASCII literals of the source;
    - a JSON [int] is a [Z].  A JSON [float] is carried by the rational it
      was written as, and whatever reads it sees the binary64 number nearest
      to it ([to_double]); a float the code computes is stored by its exact
      value.  Infinities, NaN and magnitudes beyond the binary64 range are
      outside the model;
    - an instant rendered by [isoformat()] is kept as the instant itself;
    - the message texts of exceptions raised by the interpreter and by the
      HTTP client are representative, no property depends on them;
    - the store answers every operation: failures of the database driver
      are outside the model. *)

From Stdlib Require Import ZArith QArith Qround Qpower Qabs List String Ascii Lia Lqa Permutation Sorted.
From stdpp Require Import base option list gmap pretty.

Set Warnings "-register-all".

Local Open Scope string_scope.
Local Open Scope list_scope.
Local Open Scope Z_scope.

(** ** Python strings *)

Abbreviation pystr := (list N).

Definition lit (s : string) : pystr :=
  List.map N_of_ascii (list_ascii_of_string s).

Definition asterisk : N := 42%N.
Definition question_mark : N := 63%N.

(** ** Values produced by [response.json()] *)

Inductive json : Type :=
| JNull
| JBool (b : bool)
| JInt (z : Z)
| JFloat (q : Q)
| JStr (s : pystr)
| JList (l : list json)
| JDict (d : list (pystr * json)).

(** ** Exceptions and the error monad *)

Inductive exn : Type :=
| HTTPException (status_code : Z) (detail : pystr)
| PyExc (cls : string) (msg : pystr).

Inductive result (A : Type) : Type :=
| Ok (a : A)
| Raise (e : exn).
Arguments Ok {A} a.
Arguments Raise {A} e.

#[global] Instance result_bind : MBind result := fun A B k m =>
  match m with
  | Ok a => k a
  | Raise e => Raise e
  end.

(** [try: body / except Exception as e: handler e]. *)
Definition try_except {A} (body : result A) (handler : exn -> result A) : result A :=
  match body with
  | Ok a => Ok a
  | Raise e => handler e
  end.

(** [for x in l: ...] with a body that may raise: the results are collected
    in order and the first exception aborts the loop. *)
Fixpoint for_each {A B} (f : A -> result B) (l : list A) : result (list B) :=
  match l with
  | [] => Ok []
  | x :: l' =>
      y ← f x;
      ys ← for_each f l';
      Ok (y :: ys)
  end.

(** [str(e)]: Starlette renders an [HTTPException] as ["<status>: <detail>"];
    any other exception as its message. *)
Definition str_exn (e : exn) : pystr :=
  match e with
  | HTTPException c d => lit (pretty c) ++ lit ": " ++ d
  | PyExc _ m => m
  end.

Definition TypeError (m : string) : exn := PyExc "TypeError" (lit m).
Definition AttributeError (m : string) : exn := PyExc "AttributeError" (lit m).
Definition KeyError (k : pystr) : exn := PyExc "KeyError" k.
Definition ValueError (m : string) : exn := PyExc "ValueError" (lit m).

(** ** Python primitives used by the adapters *)

Definition pystr_eqb (a b : pystr) : bool := bool_decide (a = b).

Fixpoint assoc (d : list (pystr * json)) (k : pystr) : option json :=
  match d with
  | [] => None
  | (k', v) :: d' => if pystr_eqb k' k then Some v else assoc d' k
  end.

(** [x.get(key, default)]: only a dict has the method. *)
Definition py_get (x : json) (key : string) (dflt : json) : result json :=
  match x with
  | JDict d => Ok (default dflt (assoc d (lit key)))
  | _ => Raise (AttributeError "object has no attribute 'get'")
  end.

(** *** Floats

    Round to the nearest integer, ties to even. *)
Definition round_half_even (x : Q) : Z :=
  let f := Qfloor x in
  match (x - inject_Z f ?= 1 # 2)%Q with
  | Lt => f
  | Gt => f + 1
  | Eq => if Z.even f then f else f + 1
  end.

(** The exponent of the last place of the binary64 format at magnitude [a].
    For [2^e <= a < 2^(e+1)] the integer part of [a * 2^1127] has binary
    logarithm [e + 1127], and a significand of 53 bits ends at [e - 52];
    below [2^-1022] the format keeps the exponent -1074. *)
Definition ulp_exp (a : Q) : Z :=
  Z.max (Z.log2 (Qfloor (a * 2 ^ 1127)) - 1179) (-1074).

Definition nearest_pos (a : Q) : Q :=
  let u := ulp_exp a in
  (inject_Z (round_half_even (a * 2 ^ (- u))) * 2 ^ u)%Q.

(** The value of the Python [float] read from the number [q]: the binary64
    number nearest to [q], ties to the even significand. *)
Definition to_double (q : Q) : Q :=
  Qred (if Qle_bool 0 q then nearest_pos q else - nearest_pos (- q)).
Arguments to_double : simpl never.

(** Truth value of a Python object, as tested by [if x:]. *)
Definition py_truthy (x : json) : bool :=
  match x with
  | JNull => false
  | JBool b => b
  | JInt z => negb (z =? 0)
  | JFloat q => negb (Qeq_bool (to_double q) 0)
  | JStr s => negb (length s =? 0)%nat
  | JList l => negb (length l =? 0)%nat
  | JDict d => negb (length d =? 0)%nat
  end.

(** The numeric value of an [int], [float] or [bool]; other objects have
    none and do not order against numbers.  Python compares an [int] with a
    [float] by their exact values. *)
Definition num_val (x : json) : option Q :=
  match x with
  | JBool b => Some (inject_Z (if b then 1 else 0))
  | JInt z => Some (inject_Z z)
  | JFloat q => Some (to_double q)
  | _ => None
  end.

(** The decimal with two places nearest to [x], ties to the even digit. *)
Definition round_decimal2 (x : Q) : Q :=
  round_half_even (x * inject_Z 100) # 100.

(** [round(x, 2)] on a float: CPython rounds the exact value of the double
    to two places and returns the double nearest to that decimal. *)
Definition round2 (q : Q) : Q :=
  to_double (round_decimal2 (to_double q)).
Arguments round2 : simpl never.

(** [round(x, 2)]: an [int] (or [bool]) comes back as an [int], a [float]
    as a [float]; anything else has no [__round__]. *)
Definition py_round2 (x : json) : result json :=
  match x with
  | JBool b => Ok (JInt (if b then 1 else 0))
  | JInt z => Ok (JInt z)
  | JFloat q => Ok (JFloat (round2 q))
  | _ => Raise (TypeError "type doesn't define __round__ method")
  end.

(** Text-to-number conversions of the Python runtime, used by [float(s)]
    and [int(s)] on a string; [None] is a [ValueError]. *)
Record parsers : Type := {
  float_of_str : pystr -> option Q;
  int_of_str : pystr -> option Z;
}.

Definition py_float (P : parsers) (x : json) : result Q :=
  match x with
  | JBool b => Ok (inject_Z (if b then 1 else 0))
  | JInt z => Ok (to_double (inject_Z z))
  | JFloat q => Ok (to_double q)
  | JStr s =>
      match float_of_str P s with
      | Some q => Ok (to_double q)
      | None => Raise (ValueError "could not convert string to float")
      end
  | _ => Raise (TypeError "float() argument must be a string or a real number")
  end.

Definition Qtruncate (q : Q) : Z :=
  if Qle_bool 0 q then Qfloor q else Qceiling q.

Definition py_int (P : parsers) (x : json) : result Z :=
  match x with
  | JBool b => Ok (if b then 1 else 0)
  | JInt z => Ok z
  | JFloat q => Ok (Qtruncate (to_double q))
  | JStr s =>
      match int_of_str P s with
      | Some z => Ok z
      | None => Raise (ValueError "invalid literal for int()")
      end
  | _ => Raise (TypeError "int() argument must be a string or a real number")
  end.

(** Iterating a Python object: a list yields its elements, a dict its keys,
    a string its characters; nothing else out of JSON is iterable. *)
Definition py_iter (x : json) : result (list json) :=
  match x with
  | JList l => Ok l
  | JDict d => Ok (List.map (fun kv => JStr (fst kv)) d)
  | JStr s => Ok (List.map (fun c => JStr [c]) s)
  | _ => Raise (TypeError "object is not iterable")
  end.

(** [x[:n]] followed by iteration: lists and strings slice, a dict does not
    take a slice as a key, other objects are not subscriptable. *)
Definition py_slice_iter (x : json) (n : nat) : result (list json) :=
  match x with
  | JList l => Ok (take n l)
  | JStr s => Ok (List.map (fun c => JStr [c]) (take n s))
  | _ => Raise (TypeError "object is not subscriptable by a slice")
  end.

(** [x[key]] with a string key. *)
Definition py_index (x : json) (key : string) : result json :=
  match x with
  | JDict d =>
      match assoc d (lit key) with
      | Some v => Ok v
      | None => Raise (KeyError (lit key))
      end
  | _ => Raise (TypeError "indices must be integers or the object is not subscriptable")
  end.

(** *** [sorted(data, key=lambda x: x.get(k, 0), reverse=True)]

    The key function runs on every element before any comparison.  Python's
    sort is stable, also under [reverse=True]: entries with equal keys keep
    their input order. *)
Fixpoint insert_desc (x : Q * json) (l : list (Q * json)) : list (Q * json) :=
  match l with
  | [] => [x]
  | y :: l' =>
      if Qle_bool (fst y) (fst x) then x :: y :: l'
      else y :: insert_desc x l'
  end.

Definition sort_desc (l : list (Q * json)) : list (Q * json) :=
  foldr insert_desc [] l.

Fixpoint all_num (ks : list json) : option (list Q) :=
  match ks with
  | [] => Some []
  | k :: ks' =>
      match num_val k, all_num ks' with
      | Some q, Some qs => Some (q :: qs)
      | _, _ => None
      end
  end.

(** Keys that are not all numbers: with at most one element no comparison
    is made and the input comes back as it is.  Otherwise the model raises
    the [TypeError] of an unordered comparison.  (Keys that Python can order
    among themselves, all strings say, would sort, and the adapters then
    fail with a [TypeError] at [round(key, 2)] on the first entry; the two
    differ in the message text only.) *)
Definition py_sorted_desc (data : json) (key : string) : result (list json) :=
  xs ← py_iter data;
  ks ← for_each (fun x => py_get x key (JInt 0)) xs;
  match all_num ks with
  | Some qs => Ok (List.map snd (sort_desc (combine qs xs)))
  | None =>
      if (length xs <=? 1)%nat then Ok xs
      else Raise (TypeError "'<' not supported between instances")
  end.

(** ** Identity masking ([sanitize_username], [mask_username]) *)

Definition is_surrogate (c : N) : bool :=
  ((55296 <=? c) && (c <=? 57343))%N.

(** [username.encode('utf-8', errors='replace').decode('utf-8')]: a code
    point UTF-8 cannot encode (a lone surrogate) becomes ['?'], every other
    one survives the round trip.  An object without [encode] raises inside
    the [try] and the bare [except] answers ["Unknown"]. *)
Definition sanitize_username (username : json) : pystr :=
  match username with
  | JStr s => List.map (fun c => if is_surrogate c then question_mark else c) s
  | _ => lit "Unknown"
  end.

(** [s[:n]] on a string, with Python's reading of a negative bound. *)
Definition py_prefix (s : pystr) (n : Z) : pystr :=
  if 0 <=? n then take (Z.to_nat n) s
  else take (Z.to_nat (Z.of_nat (length s) + n)) s.

(** ["*" * n]: empty for [n <= 0]. *)
Definition py_repeat (c : N) (n : Z) : pystr := replicate (Z.to_nat n) c.

Definition mask_username (username : json) (visible_chars : Z) : pystr :=
  let username := sanitize_username username in
  if Z.of_nat (length username) <=? visible_chars then username
  else py_prefix username visible_chars
       ++ py_repeat asterisk (Z.min (Z.of_nat (length username) - visible_chars) 8).

Definition default_visible_chars : Z := 2.

(** ** UTC date-times ([datetime.datetime] with [tzinfo=timezone.utc]) *)

Record datetime : Type := {
  year : Z; month : Z; day : Z;
  hour : Z; minute : Z; second : Z; microsecond : Z;
}.

Definition is_leap (y : Z) : bool :=
  ((y mod 4 =? 0) && negb (y mod 100 =? 0)) || (y mod 400 =? 0).

Definition days_in_month (y m : Z) : Z :=
  if m =? 2 then (if is_leap y then 29 else 28)
  else if (m =? 4) || (m =? 6) || (m =? 9) || (m =? 11) then 30
  else 31.

Definition days_before_year (y : Z) : Z :=
  let p := y - 1 in p * 365 + p / 4 - p / 100 + p / 400.

Fixpoint days_before_month_nat (y : Z) (m : nat) : Z :=
  match m with
  | O => 0
  | S m' => days_before_month_nat y m' + days_in_month y (Z.of_nat m)
  end.

Definition days_before_month (y m : Z) : Z :=
  days_before_month_nat y (Z.to_nat (m - 1)).

(** Proleptic Gregorian ordinal: 1 January of year 1 is day 1. *)
Definition toordinal (d : datetime) : Z :=
  days_before_year (year d) + days_before_month (year d) (month d) + day d.

(** Microseconds since the start of day 0; [a - b] on two date-times is the
    [timedelta] of [micros a - micros b] microseconds. *)
Definition micros (d : datetime) : Z :=
  ((toordinal d * 86400 + hour d * 3600 + minute d * 60 + second d) * 1000000)
  + microsecond d.

Definition valid_datetime (d : datetime) : bool :=
  (1 <=? year d) && (year d <=? 9999) &&
  (1 <=? month d) && (month d <=? 12) &&
  (1 <=? day d) && (day d <=? days_in_month (year d) (month d)) &&
  (0 <=? hour d) && (hour d <=? 23) &&
  (0 <=? minute d) && (minute d <=? 59) &&
  (0 <=? second d) && (second d <=? 59) &&
  (0 <=? microsecond d) && (microsecond d <=? 999999).

(** [d.replace(year=y, month=m, day=dd)]: the time of day is kept; a date
    that does not exist is a [ValueError]. *)
Definition replace_date (d : datetime) (y m dd : Z) : result datetime :=
  let d' := {| year := y; month := m; day := dd;
               hour := hour d; minute := minute d; second := second d;
               microsecond := microsecond d |} in
  if valid_datetime d' then Ok d'
  else Raise (ValueError "date value out of range").

(** [d - timedelta(seconds=1)], by borrowing. *)
Definition minus_one_second (d : datetime) : result datetime :=
  let mk y m dd h mi s :=
    Ok {| year := y; month := m; day := dd; hour := h; minute := mi;
          second := s; microsecond := microsecond d |} in
  if 0 <? second d then
    mk (year d) (month d) (day d) (hour d) (minute d) (second d - 1)
  else if 0 <? minute d then
    mk (year d) (month d) (day d) (hour d) (minute d - 1) 59
  else if 0 <? hour d then
    mk (year d) (month d) (day d) (hour d - 1) 59 59
  else if 1 <? day d then
    mk (year d) (month d) (day d - 1) 23 59 59
  else if 1 <? month d then
    mk (year d) (month d - 1) (days_in_month (year d) (month d - 1)) 23 59 59
  else if 1 <? year d then
    mk (year d - 1) 12 31 23 59 59
  else Raise (PyExc "OverflowError" (lit "date value out of range")).

(** An instant as the adapters obtain it: a calendar date-time, or a POSIX
    timestamp in seconds handed to [datetime.fromtimestamp(_, tz=utc)]. *)
Inductive instant : Type :=
| AtDatetime (d : datetime)
| AtEpoch (seconds : Q).

(** [datetime.fromtimestamp(t, tz=timezone.utc)] accepts the timestamps of
    the years 1 to 9999. *)
Definition fromtimestamp (t : Q) : result instant :=
  if Qle_bool (inject_Z (-62135596800)) t && negb (Qle_bool (inject_Z 253402300800) t)
  then Ok (AtEpoch t)
  else Raise (ValueError "year is out of range").

(** ** Static configuration ([API_CONFIG]) *)

Record prize_tier : Type := { place : Z; amount : Z }.

Record site_config : Type := {
  cfg_prize_pool : Z;
  cfg_currency : pystr;
  cfg_prizes : list prize_tier;
}.

Definition tier (p a : Z) : prize_tier := {| place := p; amount := a |}.

Definition clash_config : site_config := {|
  cfg_prize_pool := 700;
  cfg_currency := lit "gems";
  cfg_prizes := [tier 1 380; tier 2 160; tier 3 80; tier 4 50;
                 tier 5 15; tier 6 10; tier 7 5];
|}.

Definition bsite_config : site_config := {|
  cfg_prize_pool := 800;
  cfg_currency := lit "usd";
  cfg_prizes := [tier 1 400; tier 2 200; tier 3 100; tier 4 50;
                 tier 5 30; tier 6 15];
|}.

Definition csbattle_config : site_config := {|
  cfg_prize_pool := 600;
  cfg_currency := lit "coins";
  cfg_prizes := [tier 1 300; tier 2 150; tier 3 80; tier 4 40;
                 tier 5 20; tier 6 10];
|}.

Definition skinfans_config : site_config := {|
  cfg_prize_pool := 500;
  cfg_currency := lit "coins";
  cfg_prizes := [tier 1 300; tier 2 120; tier 3 50; tier 4 20; tier 5 10];
|}.

(** The entries of [API_CONFIG] that the process environment may override
    and that decide a branch of the adapters.  [csbattle_end_date] is what
    [datetime.strptime(end_date, "%Y-%m-%d %H:%M:%S")] makes of the
    configured text, [None] when it does not parse. *)
Record environ : Type := {
  csbattle_affiliate_id : pystr;
  csbattle_end_date : option datetime;
  skinfans_token : pystr;
}.

Definition default_environ : environ := {|
  csbattle_affiliate_id := lit "361eff9a-d63b-4f19-9b31-883c960c020d";
  csbattle_end_date :=
    Some {| year := 2026; month := 2; day := 18; hour := 20; minute := 30;
            second := 0; microsecond := 0 |};
  skinfans_token := lit "eb46a5130b38ecd87c8a3b3206f2c7ae";
|}.

(** The inner loop of the tier-table adapters:
    [prize = 0; for p in prizes: if p["place"] == rank: prize = p["amount"]; break]. *)
Fixpoint tier_prize (prizes : list prize_tier) (rank : Z) : Z :=
  match prizes with
  | [] => 0
  | p :: prizes' => if place p =? rank then amount p else tier_prize prizes' rank
  end.

(** ** Normalized leaderboard *)

Record user_entry : Type := {
  rank : json;
  username : json;
  avatar : json;
  wagered : json;
  prize : json;
}.

Record snapshot : Type := {
  site_id : pystr;
  site_name : pystr;
  users : list user_entry;
  prize_pool : json;
  currency : pystr;
  prizes : list prize_tier;
  countdown_end : option instant;
  status : json;
  message : option json;
  last_updated : option datetime;
}.

Definition set_last_updated (d : snapshot) (t : datetime) : snapshot :=
  {| site_id := site_id d; site_name := site_name d; users := users d;
     prize_pool := prize_pool d; currency := currency d; prizes := prizes d;
     countdown_end := countdown_end d; status := status d;
     message := message d; last_updated := Some t |}.

(** The dict every adapter returns when it has no entries to show. *)
Definition empty_snapshot (id name : string) (config : site_config)
    (st : string) (msg : json) : snapshot :=
  {| site_id := lit id; site_name := lit name; users := [];
     prize_pool := JInt (cfg_prize_pool config);
     currency := cfg_currency config; prizes := cfg_prizes config;
     countdown_end := None; status := JStr (lit st);
     message := Some msg; last_updated := None |}.

(** ** The outbound HTTP call ([httpx.AsyncClient(timeout=30.0)]) *)

Record response : Type := {
  status_code : Z;
  body : option json;   (* [None]: the body is not JSON *)
}.

Inductive outcome : Type :=
| Replied (r : response)
| TimedOut (msg : pystr)
| TransportFailed (msg : pystr).

Definition http_request (o : outcome) : result response :=
  match o with
  | Replied r => Ok r
  | TimedOut m => Raise (PyExc "TimeoutException" m)
  | TransportFailed m => Raise (PyExc "TransportError" m)
  end.

Definition raise_for_status (r : response) : result unit :=
  if (200 <=? status_code r) && (status_code r <=? 299) then Ok tt
  else Raise (PyExc "HTTPStatusError" (lit "error response " ++ lit (pretty (status_code r)))).

Definition response_json (r : response) : result json :=
  match body r with
  | Some j => Ok j
  | None => Raise (PyExc "JSONDecodeError" (lit "Expecting value"))
  end.

(** What one request to the service finds outside the process: the clock
    readings of [datetime.now(timezone.utc)], in call order, and what the
    provider does with the outbound call. *)
Record world : Type := {
  t_request : datetime;   (* read by the facade *)
  t_fetch : datetime;     (* read by the adapter when it starts *)
  t_done : datetime;      (* read by the adapter when it builds its result *)
  outbound : outcome;
}.

(** ** Normalization shared by the two variants

    The [try] bodies of an adapter are the same text in [server.py] and
    [api/index.py] up to the [last_updated] key, which only the stateless
    variant sets; [lu] is that key. *)

Definition enumerate {A} (l : list A) : list (nat * A) :=
  combine (seq 0 (length l)) l.

Definition active : json := JStr (lit "active").

(** Provider A, one turn of [for i, user in enumerate(sorted_users[:10])]. *)
Definition clash_entry (iu : nat * json) : result user_entry :=
  let i := Z.of_nat (fst iu) in
  let user := snd iu in
  let prize := tier_prize (cfg_prizes clash_config) (i + 1) in
  name ← py_get user "name" (JStr (lit "Unknown"));
  av ← py_get user "avatar" (JStr []);
  w ← py_get user "wagered" (JInt 0);
  w' ← py_round2 w;
  Ok {| rank := JInt (i + 1);
        username := JStr (mask_username name default_visible_chars);
        avatar := av; wagered := w'; prize := JInt prize |}.

(** [end_of_month] of Provider A. *)
Definition clash_end_of_month (now : datetime) : result datetime :=
  if month now =? 12 then
    d ← replace_date now (year now + 1) 1 1; minus_one_second d
  else
    d ← replace_date now (year now) (month now + 1) 1; minus_one_second d.

Definition clash_try (now : datetime) (o : outcome) (lu : option datetime)
    : result snapshot :=
  response ← http_request o;
  raise_for_status response;;
  data ← response_json response;
  sorted_users ← py_sorted_desc data "wagered";
  users ← for_each clash_entry (enumerate (take 10 sorted_users));
  end_of_month ← clash_end_of_month now;
  Ok {| site_id := lit "clash"; site_name := lit "Clash.gg"; users := users;
        prize_pool := JInt (cfg_prize_pool clash_config);
        currency := cfg_currency clash_config;
        prizes := cfg_prizes clash_config;
        countdown_end := Some (AtDatetime end_of_month);
        status := active; message := None; last_updated := lu |}.

(** Provider B: [prize_lookup], a dict keyed by the provider's places. *)
Definition hashable (k : json) : bool :=
  match k with
  | JList _ | JDict _ => false
  | _ => true
  end.

Definition key_eqb (a b : json) : bool :=
  match a, b with
  | JNull, JNull => true
  | JStr s, JStr s' => pystr_eqb s s'
  | _, _ =>
      match num_val a, num_val b with
      | Some x, Some y => Qeq_bool x y
      | _, _ => false
      end
  end.

(** A comprehension inserts in order, so the last entry of a key wins. *)
Fixpoint lookup_last (lk : list (json * json)) (k : json) : option json :=
  match lk with
  | [] => None
  | (k', v) :: lk' =>
      match lookup_last lk' k with
      | Some v' => Some v'
      | None => if key_eqb k' k then Some v else None
      end
  end.

Definition reward_pair (r : json) : result (json * json) :=
  k ← py_index r "place";
  v ← py_index r "winnings";
  if hashable k then Ok (k, v) else Raise (TypeError "unhashable type").

Definition prize_lookup_get (lk : list (json * json)) (k dflt : json) : result json :=
  if hashable k then Ok (default dflt (lookup_last lk k))
  else Raise (TypeError "unhashable type").

Definition bsite_entry (prize_lookup : list (json * json)) (user : json)
    : result user_entry :=
  rank ← py_get user "rank" (JInt 0);
  name ← py_get user "username" (JStr (lit "Unknown"));
  av ← py_get user "avatar" (JStr []);
  w ← py_get user "wager" (JInt 0);
  w' ← py_round2 w;
  pr ← prize_lookup_get prize_lookup rank (JInt 0);
  Ok {| rank := rank; username := name; avatar := av; wagered := w'; prize := pr |}.

(** [try: ... except: pass] around a computation of [countdown_end]. *)
Definition or_none {A} (m : result A) : option A :=
  match m with
  | Ok a => Some a
  | Raise _ => None
  end.

Definition bsite_normalize (P : parsers) (data : json) (lu : option datetime)
    : result snapshot :=
  wagers ← py_get data "wagers" (JList []);
  leaderboard ← py_get data "leaderboard" (JDict []);
  leaderboard_rewards ← py_get leaderboard "leaderboardRewards" (JList []);
  current_entry ← py_get data "currentEntry" (JDict []);
  rewards ← py_iter leaderboard_rewards;
  prize_lookup ← for_each reward_pair rewards;
  ws ← py_slice_iter wagers 10;
  users ← for_each (bsite_entry prize_lookup) ws;
  end_ ← py_get current_entry "end" JNull;
  let countdown_end :=
    if py_truthy end_ then
      or_none (e ← py_index current_entry "end";
               ms ← py_int P e;
               fromtimestamp (to_double (inject_Z ms / inject_Z 1000)))
    else None in
  leaderboard' ← py_get data "leaderboard" (JDict []);
  lconfig ← py_get leaderboard' "config" (JDict []);
  pool ← py_get lconfig "value" (JInt (cfg_prize_pool bsite_config));
  st ← py_get current_entry "status" active;
  Ok {| site_id := lit "bsite"; site_name := lit "B.site"; users := users;
        prize_pool := pool;
        currency := cfg_currency bsite_config;
        prizes := cfg_prizes bsite_config;
        countdown_end := countdown_end;
        status := st; message := None; last_updated := lu |}.

(** Provider C, one turn of [for i, user in enumerate(sorted_users[:10])]. *)
Definition csbattle_entry (iu : nat * json) : result user_entry :=
  let i := Z.of_nat (fst iu) in
  let user := snd iu in
  let prize := tier_prize (cfg_prizes csbattle_config) (i + 1) in
  name ← py_get user "username" (JStr (lit "Unknown"));
  let username := sanitize_username name in
  av ← py_get user "avatar" (JStr []);
  w ← py_get user "wager" (JInt 0);
  w' ← py_round2 w;
  Ok {| rank := JInt (i + 1); username := JStr username;
        avatar := av; wagered := w'; prize := JInt prize |}.

Definition csbattle_try (E : environ) (o : outcome) (lu : option datetime)
    : result snapshot :=
  response ← http_request o;
  raise_for_status response;;
  data ← response_json response;
  users_data ← match data with
               | JDict _ => py_get data "users" data
               | _ => Ok data
               end;
  sorted_users ← py_sorted_desc users_data "wager";
  users ← for_each csbattle_entry (enumerate (take 10 sorted_users));
  Ok {| site_id := lit "csbattle"; site_name := lit "CSBattle"; users := users;
        prize_pool := JInt (cfg_prize_pool csbattle_config);
        currency := cfg_currency csbattle_config;
        prizes := cfg_prizes csbattle_config;
        countdown_end := AtDatetime <$> csbattle_end_date E;
        status := active; message := None; last_updated := lu |}.

(** What a loop with a conditional [users.append(...)] leaves in [users]. *)
Fixpoint appended {A} (l : list (option A)) : list A :=
  match l with
  | [] => []
  | Some x :: l' => x :: appended l'
  | None :: l' => appended l'
  end.

(** Provider D, one turn of [for i, place in enumerate(places[:10])]:
    [None] when the place has no user and nothing is appended. *)
Definition skinfans_place (P : parsers) (ip : nat * json)
    : result (option user_entry) :=
  let i := Z.of_nat (fst ip) in
  let place := snd ip in
  payout ← py_get place "payout" (JInt 0);
  prize ← py_float P payout;
  user_data ← py_get place "user" (JDict []);
  if py_truthy user_data then
    name ← py_get user_data "name" (JStr (lit "Unknown"));
    av ← py_get user_data "avatar" (JStr []);
    w ← py_get user_data "wagered" (JInt 0);
    wq ← py_float P w;
    Ok (Some {| rank := JInt (i + 1);
                username := JStr (mask_username name default_visible_chars);
                avatar := av; wagered := JFloat (round2 wq);
                prize := JFloat prize |})
  else Ok None.

Definition timestamp_arg (x : json) : result Q :=
  match num_val x with
  | Some q => Ok q
  | None => Raise (TypeError "an integer is required")
  end.

(** [data.get("response", {}).get("data", data).get("race", {})] *)
Definition skinfans_race (data : json) : result json :=
  resp ← py_get data "response" (JDict []);
  response_data ← py_get resp "data" data;
  py_get response_data "race" (JDict []).

Definition skinfans_try (P : parsers) (o : outcome) (lu : option datetime)
    : result snapshot :=
  response ← http_request o;
  raise_for_status response;;
  data ← response_json response;
  race ← skinfans_race data;
  places ← py_get race "places" (JList []);
  ps ← py_slice_iter places 10;
  emitted ← for_each (skinfans_place P) (enumerate ps);
  let users := appended emitted in
  ends_at ← py_get race "ends_at" JNull;
  let countdown_end :=
    if py_truthy ends_at then or_none (t ← timestamp_arg ends_at; fromtimestamp t)
    else None in
  payout ← py_get race "payout" (JInt (cfg_prize_pool skinfans_config));
  pool ← py_float P payout;
  act ← py_get race "active" JNull;
  Ok {| site_id := lit "skinfans"; site_name := lit "Skin.fans"; users := users;
        prize_pool := JFloat pool;
        currency := cfg_currency skinfans_config;
        prizes := cfg_prizes skinfans_config;
        countdown_end := countdown_end;
        status := JStr (lit (if py_truthy act then "active" else "ended"));
        message := None; last_updated := lu |}.

Definition valid_sites : list pystr :=
  [lit "clash"; lit "bsite"; lit "csbattle"; lit "skinfans"].

(** [', '.join(l)] *)
Fixpoint join_comma (l : list pystr) : pystr :=
  match l with
  | [] => []
  | [x] => x
  | x :: l' => x ++ lit ", " ++ join_comma l'
  end.

Definition invalid_site : exn :=
  HTTPException 404 (lit "Invalid site. Valid sites: " ++ join_comma valid_sites).

(** A value of the dict [get_all_leaderboards] returns: an adapter's
    snapshot, or the record written by the [except] branch. *)
Record failure_record : Type := {
  failed_site_id : pystr;
  error : pystr;
  failed_status : pystr;
}.

Inductive board : Type :=
| Snapshot (d : snapshot)
| Failure (f : failure_record).

(** [try: results[site_id] = <r> except Exception as e: results[site_id] =
    {"site_id": site_id, "error": str(e), "status": "error"}] *)
Definition or_failure (site_id : pystr) (r : result snapshot) : board :=
  match r with
  | Ok data => Snapshot data
  | Raise e => Failure {| failed_site_id := site_id; error := str_exn e;
                          failed_status := lit "error" |}
  end.

(** ** The caching variant, [server.py] *)
Module Server.
Section Adapters.
Variable P : parsers.
Variable E : environ.

Definition fetch_clash_data (w : world) : result snapshot :=
  try_except (clash_try (t_fetch w) (outbound w) None)
    (fun e => Raise (HTTPException 500
                       (lit "Failed to fetch Clash.gg data: " ++ str_exn e))).

Definition bsite_try (o : outcome) : result snapshot :=
  response ← http_request o;
  data ← response_json response;
  maintenance ← py_get data "maintenance" JNull;
  if py_truthy maintenance then
    msg ← py_get data "msg"
            (JStr (lit "B.site is currently under maintenance. Please check back later."));
    Ok (empty_snapshot "bsite" "B.site" bsite_config "maintenance" msg)
  else if negb (status_code response =? 200) then
    Raise (HTTPException (status_code response)
             (lit "B.site API error: " ++ lit (pretty (status_code response))))
  else
    err ← py_get data "error" JNull;
    if py_truthy err && negb (py_truthy maintenance) then
      Raise (HTTPException 500 (lit "B.site API returned an error"))
    else bsite_normalize P data None.

(** [except HTTPException: raise] comes before [except Exception]. *)
Definition fetch_bsite_data (w : world) : result snapshot :=
  try_except (bsite_try (outbound w))
    (fun e =>
       match e with
       | HTTPException _ _ => Raise e
       | PyExc _ _ =>
           Ok (empty_snapshot "bsite" "B.site" bsite_config "error"
                 (JStr (lit "B.site is temporarily unavailable. Please try again later.")))
       end).

Definition fetch_csbattle_data (w : world) : result snapshot :=
  if negb (py_truthy (JStr (csbattle_affiliate_id E))) then
    Ok (empty_snapshot "csbattle" "CSBattle" csbattle_config "not_configured"
          (JStr (lit "CSBattle API not configured.")))
  else
    try_except (csbattle_try E (outbound w) None)
      (fun e => Ok (empty_snapshot "csbattle" "CSBattle" csbattle_config "error"
                      (JStr (str_exn e)))).

Definition fetch_skinfans_data (w : world) : result snapshot :=
  if negb (py_truthy (JStr (skinfans_token E))) then
    Ok (empty_snapshot "skinfans" "Skin.fans" skinfans_config "not_configured"
          (JStr (lit "Skin.fans API not configured.")))
  else
    try_except (skinfans_try P (outbound w) None)
      (fun e => Ok (empty_snapshot "skinfans" "Skin.fans" skinfans_config "error"
                      (JStr (str_exn e)))).

(** *** Freshness cache and facade *)

Definition CACHE_DURATION_MINUTES : Z := 5.

(** A document of the collection [leaderboard_cache], as [update_one]
    writes it; the collection is keyed by [site_id]. *)
Record cache_record : Type := {
  doc_data : snapshot;
  doc_last_updated : datetime;
}.

(** [db] is [None] when [MONGO_URL] is not set.  [adapter_calls] is a
    ghost log of the adapter invocations, oldest first. *)
Record state : Type := {
  db : option (gmap pystr cache_record);
  adapter_calls : list pystr;
}.

Definition fetch_functions (site_id : pystr) : option (world -> result snapshot) :=
  if pystr_eqb site_id (lit "clash") then Some fetch_clash_data
  else if pystr_eqb site_id (lit "bsite") then Some fetch_bsite_data
  else if pystr_eqb site_id (lit "csbattle") then Some fetch_csbattle_data
  else if pystr_eqb site_id (lit "skinfans") then Some fetch_skinfans_data
  else None.

(** The first half of [get_cached_or_fetch]: the cached document when it
    is fresh at [now], with [last_updated] copied from the document. *)
Definition cache_lookup (site_id : pystr) (now : datetime) (st : state)
    : option snapshot :=
  coll ← db st;
  cached ← coll !! site_id;
  let last_updated := doc_last_updated cached in
  if micros now - micros last_updated <? CACHE_DURATION_MINUTES * 60 * 1000000
  then Some (set_last_updated (doc_data cached) last_updated)
  else None.

Definition cache_update (site_id : pystr) (data : snapshot) (now : datetime)
    (st : state) : state :=
  {| db := (fun coll => <[site_id := {| doc_data := data; doc_last_updated := now |}]> coll)
             <$> db st;
     adapter_calls := adapter_calls st |}.

Definition cache_delete (site_id : pystr) (st : state) : state :=
  {| db := (fun coll => delete site_id coll) <$> db st;
     adapter_calls := adapter_calls st |}.

Definition log_call (site_id : pystr) (st : state) : state :=
  {| db := db st; adapter_calls := adapter_calls st ++ [site_id] |}.

Definition get_cached_or_fetch (site_id : pystr) (w : world) (st : state)
    : result snapshot * state :=
  let now := t_request w in
  match cache_lookup site_id now st with
  | Some data => (Ok data, st)
  | None =>
      match fetch_functions site_id with
      | None => (Raise (HTTPException 404 (lit "Unknown site: " ++ site_id)), st)
      | Some fetch =>
          let st := log_call site_id st in
          match fetch w with
          | Raise e => (Raise e, st)
          | Ok data =>
              let data := set_last_updated data now in
              (Ok data, cache_update site_id data now st)
          end
      end
  end.

Definition get_leaderboard (site_id : pystr) (w : world) (st : state)
    : result snapshot * state :=
  if negb (bool_decide (site_id ∈ valid_sites)) then (Raise invalid_site, st)
  else get_cached_or_fetch site_id w st.

(** [for site_id in sites: try: ... except Exception as e: ...]; each
    source is resolved in its own world. *)
Fixpoint resolve_each (sites : list pystr) (ws : pystr -> world) (st : state)
    : list (pystr * board) * state :=
  match sites with
  | [] => ([], st)
  | site_id :: sites' =>
      let (r, st1) := get_cached_or_fetch site_id (ws site_id) st in
      let (rest, st2) := resolve_each sites' ws st1 in
      ((site_id, or_failure site_id r) :: rest, st2)
  end.

Definition get_all_leaderboards (ws : pystr -> world) (st : state)
    : result (list (pystr * board)) * state :=
  let (results, st') := resolve_each valid_sites ws st in
  (Ok results, st').

Definition refresh_leaderboard (site_id : pystr) (w : world) (st : state)
    : result (pystr * snapshot) * state :=
  if negb (bool_decide (site_id ∈ valid_sites)) then (Raise invalid_site, st)
  else
    let st := cache_delete site_id st in
    match get_cached_or_fetch site_id w st with
    | (Ok data, st') =>
        (Ok (lit "Refreshed " ++ site_id ++ lit " leaderboard", data), st')
    | (Raise e, st') => (Raise e, st')
    end.
End Adapters.
End Server.

(** ** The stateless variant, [api/index.py] *)
Module ApiIndex.
Section Adapters.
Variable P : parsers.
Variable E : environ.

Definition error_snapshot (id name : string) (config : site_config)
    (msg : pystr) (t : datetime) : snapshot :=
  set_last_updated (empty_snapshot id name config "error" (JStr msg)) t.

Definition fetch_clash_data (w : world) : result snapshot :=
  try_except (clash_try (t_fetch w) (outbound w) (Some (t_fetch w)))
    (fun e => Ok (error_snapshot "clash" "Clash.gg" clash_config
                    (str_exn e) (t_done w))).

Definition bsite_try (w : world) : result snapshot :=
  response ← http_request (outbound w);
  data ← response_json response;
  maintenance ← py_get data "maintenance" JNull;
  if py_truthy maintenance then
    msg ← py_get data "msg" (JStr (lit "B.site is currently under maintenance."));
    Ok (set_last_updated
          (empty_snapshot "bsite" "B.site" bsite_config "maintenance" msg)
          (t_done w))
  else bsite_normalize P data (Some (t_done w)).

Definition fetch_bsite_data (w : world) : result snapshot :=
  try_except (bsite_try w)
    (fun e => Ok (error_snapshot "bsite" "B.site" bsite_config
                    (lit "B.site is temporarily unavailable.") (t_done w))).

Definition fetch_csbattle_data (w : world) : result snapshot :=
  try_except (csbattle_try E (outbound w) (Some (t_done w)))
    (fun e => Ok (error_snapshot "csbattle" "CSBattle" csbattle_config
                    (str_exn e) (t_done w))).

Definition fetch_skinfans_data (w : world) : result snapshot :=
  try_except (skinfans_try P (outbound w) (Some (t_done w)))
    (fun e => Ok (error_snapshot "skinfans" "Skin.fans" skinfans_config
                    (str_exn e) (t_done w))).

Definition fetch_functions (site_id : pystr) : option (world -> result snapshot) :=
  if pystr_eqb site_id (lit "clash") then Some fetch_clash_data
  else if pystr_eqb site_id (lit "bsite") then Some fetch_bsite_data
  else if pystr_eqb site_id (lit "csbattle") then Some fetch_csbattle_data
  else if pystr_eqb site_id (lit "skinfans") then Some fetch_skinfans_data
  else None.

Definition get_leaderboard (site_id : pystr) (w : world) : result snapshot :=
  if negb (bool_decide (site_id ∈ valid_sites)) then Raise invalid_site
  else
    match fetch_functions site_id with
    | Some fetch => fetch w
    | None => Raise (KeyError site_id)
    end.

Definition fetch_or_record (ws : pystr -> world)
    (sf : pystr * (world -> result snapshot)) : pystr * board :=
  let (site_id, fetch_func) := sf in
  (site_id, or_failure site_id (fetch_func (ws site_id))).

Definition fetch_table : list (pystr * (world -> result snapshot)) :=
  [(lit "clash", fetch_clash_data); (lit "bsite", fetch_bsite_data);
   (lit "csbattle", fetch_csbattle_data); (lit "skinfans", fetch_skinfans_data)].

Definition get_all_leaderboards (ws : pystr -> world)
    : result (list (pystr * board)) :=
  Ok (List.map (fetch_or_record ws) fetch_table).
End Adapters.
End ApiIndex.

(** * Reference notions and sample inputs *)

(** Following the spec's words for Provider A: an instant of the last
    second of the UTC month of [now]. *)
Definition last_instant_of_month (now d : datetime) : Prop :=
  year d = year now /\ month d = month now /\
  day d = days_in_month (year now) (month now) /\
  hour d = 23 /\ minute d = 59 /\ second d = 59.

Definition no_parsers : parsers :=
  {| float_of_str := fun _ => None; int_of_str := fun _ => None |}.

Definition at_time (y m d h mi s : Z) : datetime :=
  {| year := y; month := m; day := d; hour := h; minute := mi; second := s;
     microsecond := 0 |}.

(** A request made on 15 February 2026 at 13:45:10 UTC. *)
Definition sample_world (o : outcome) : world :=
  {| t_request := at_time 2026 2 15 13 45 10;
     t_fetch := at_time 2026 2 15 13 45 10;
     t_done := at_time 2026 2 15 13 45 11;
     outbound := o |}.

Definition timed_out : outcome := TimedOut (lit "timed out").

Definition ok_reply (data : json) : outcome :=
  Replied {| status_code := 200; body := Some data |}.


(** The complete failure shape of an adapter: status ["error"], a message,
    no users, and the static fields of the source. *)
Definition error_shaped (config : site_config) (d : snapshot) : Prop :=
  status d = JStr (lit "error") /\
  (exists m, message d = Some (JStr m)) /\
  users d = [] /\
  prize_pool d = JInt (cfg_prize_pool config) /\
  currency d = cfg_currency config /\
  prizes d = cfg_prizes config.

(** An adapter [fetch] absorbs its [try] block: what the block returns is
    returned, what it raises becomes the failure shape. *)
Definition absorbs (config : site_config) (try_block fetch : result snapshot) : Prop :=
  (forall d, try_block = Ok d -> fetch = Ok d) /\
  (forall e, try_block = Raise e ->
     exists d, fetch = Ok d /\ error_shaped config d).

(** The outbound call timed out, broke in transport, or brought a body
    that is not JSON. *)
Definition call_failed (o : outcome) : Prop :=
  (exists m, o = TimedOut m) \/ (exists m, o = TransportFailed m) \/
  (exists c, o = Replied {| status_code := c; body := None |}).


Definition returns_error (config : site_config) (fetch : result snapshot) : Prop :=
  exists d, fetch = Ok d /\ error_shaped config d.


(** Rank values that are integers in strictly increasing order (and so
    pairwise distinct). *)
Definition ranks_increasing (us : list user_entry) : Prop :=
  exists zs, List.map rank us = List.map JInt zs /\ StronglySorted Z.lt zs.

(** The place carries a user object that [if user_data:] accepts. *)
Definition has_user (place : json) : bool :=
  match py_get place "user" (JDict []) with
  | Ok user_data => py_truthy user_data
  | Raise _ => false
  end.

(** The 1-based raw position of an enumerated item, as a rank. *)
Definition position_rank {A} (ix : nat * A) : json :=
  JInt (Z.of_nat (fst ix) + 1).

Definition dict (kvs : list (string * json)) : json :=
  JDict (List.map (fun kv => (lit (fst kv), snd kv)) kvs).

Definition str (s : string) : json := JStr (lit s).

(** A Provider D reply with three places, the second without a user. *)
Definition skinfans_three_places : json :=
  dict [("response",
     dict [("data",
       dict [("race",
         dict [("active", JBool true);
               ("places",
                JList [dict [("payout", JInt 300);
                             ("user", dict [("name", str "Alexander");
                                            ("wagered", JInt 900)])];
                       dict [("payout", JInt 120)];
                       dict [("payout", JInt 50);
                             ("user", dict [("name", str "Bo");
                                            ("wagered", JInt 400)])]])])])])].

(** A Provider B reply whose two wagers carry no [rank]. *)
Definition bsite_unranked : json :=
  dict [("wagers",
         JList [dict [("username", str "ann"); ("wager", JInt 50)];
                dict [("username", str "bob"); ("wager", JInt 70)]])].


Definition ended : json := JStr (lit "ended").


(** The sort key of a raw entry, [x.get(key, 0)], when it is a number. *)
Definition wager_key (key : string) (x : json) : option Q :=
  match py_get x key (JInt 0) with
  | Ok v => num_val v
  | Raise _ => None
  end.

Definition wager_of (key : string) (x : json) : Q :=
  default 0%Q (wager_key key x).

Definition desc_by_wager (key : string) (a b : json) : Prop :=
  (wager_of key b <= wager_of key a)%Q.

Definition wagered_value (u : user_entry) : Q :=
  default 0%Q (num_val (wagered u)).

Definition desc_by_wagered (u v : user_entry) : Prop :=
  (wagered_value v <= wagered_value u)%Q.

Definition rank_of_index (i : nat) : json := JInt (Z.of_nat i + 1).

Definition player (name : string) (w : Z) : json :=
  dict [("name", str name); ("wagered", JInt w)].

(** Fifteen raw entries of Provider A with distinct wagered amounts. *)
Definition fifteen_entries : list json :=
  [player "p01" 120; player "p02" 990; player "p03" 45; player "p04" 300;
   player "p05" 720; player "p06" 15; player "p07" 610; player "p08" 880;
   player "p09" 5; player "p10" 430; player "p11" 260; player "p12" 770;
   player "p13" 95; player "p14" 540; player "p15" 350].


Definition pair_desc (a b : Q * json) : Prop := (fst b <= fst a)%Q.


(** Five minutes, in microseconds. *)
Definition freshness_window : Z := 5 * 60 * 1000000.

(** The site has a cache document and it is fresh at [now]. *)
Definition fresh_record (st : Server.state) (site_id : pystr) (now : datetime)
    (rec : Server.cache_record) : Prop :=
  exists coll, Server.db st = Some coll /\ coll !! site_id = Some rec /\
    micros now - micros (Server.doc_last_updated rec) < freshness_window.

(** No document, a stale one, or no store at all. *)
Definition cache_miss (st : Server.state) (site_id : pystr) (now : datetime) : Prop :=
  Server.db st = None \/
  exists coll, Server.db st = Some coll /\
    (coll !! site_id = None \/
     exists rec, coll !! site_id = Some rec /\
       freshness_window <= micros now - micros (Server.doc_last_updated rec)).

(** The state after a live fetch that returned [data] at [now]. *)
Definition after_fetch (st : Server.state) (site_id : pystr) (data : snapshot)
    (now : datetime) : Server.state :=
  {| Server.db :=
       (fun coll => <[site_id := {| Server.doc_data := set_last_updated data now;
                                    Server.doc_last_updated := now |}]> coll)
         <$> Server.db st;
     Server.adapter_calls := Server.adapter_calls st ++ [site_id] |}.

Definition empty_store : Server.state :=
  {| Server.db := Some ∅; Server.adapter_calls := [] |}.

Definition no_store : Server.state :=
  {| Server.db := None; Server.adapter_calls := [] |}.


Definition is_failure (b : board) : bool :=
  match b with
  | Failure _ => true
  | Snapshot _ => false
  end.

Definition count_failures (results : list (pystr * board)) : nat :=
  length (List.filter (fun sb => is_failure (snd sb)) results).

Definition count_snapshots (results : list (pystr * board)) : nat :=
  length (List.filter (fun sb => negb (is_failure (snd sb))) results).

(** A failure record is keyed by its own site and has status ["error"]. *)
Definition well_keyed (sb : pystr * board) : Prop :=
  match snd sb with
  | Snapshot _ => True
  | Failure f => failed_site_id f = fst sb /\ failed_status f = lit "error"
  end.

(** The cache document of a site, if any. *)
Definition doc_of (st : Server.state) (site_id : pystr) : option Server.cache_record :=
  coll ← Server.db st; coll !! site_id.

(** One world per source: Provider A times out, the others answer. *)
Definition one_failing (site_id : pystr) : world :=
  if pystr_eqb site_id (lit "clash") then sample_world timed_out
  else if pystr_eqb site_id (lit "bsite") then sample_world (ok_reply bsite_unranked)
  else if pystr_eqb site_id (lit "csbattle") then sample_world (ok_reply (JList []))
  else sample_world (ok_reply skinfans_three_places).


(** A second request, 3 minutes 50 seconds after [sample_world], that would
    find the provider answering. *)
Definition later_world : world :=
  {| t_request := at_time 2026 2 15 13 49 0;
     t_fetch := at_time 2026 2 15 13 49 0;
     t_done := at_time 2026 2 15 13 49 1;
     outbound := ok_reply (JList []) |}.

Definition timeout_snapshot : snapshot :=
  empty_snapshot "csbattle" "CSBattle" csbattle_config "error" (JStr (lit "timed out")).


Definition raises {A} (r : result A) : bool :=
  match r with
  | Raise _ => true
  | Ok _ => false
  end.

(** A table of four adapters for the stateless variant in which Provider C
    has been replaced by one that raises. *)
Definition table_with_failing_csbattle : list (pystr * (world -> result snapshot)) :=
  [(lit "clash", ApiIndex.fetch_clash_data);
   (lit "bsite", ApiIndex.fetch_bsite_data no_parsers);
   (lit "csbattle", fun _ => Raise (PyExc "RuntimeError" (lit "boom")));
   (lit "skinfans", ApiIndex.fetch_skinfans_data no_parsers)].


(** No code point of the string is a surrogate: the string encodes to
    UTF-8 as it is. *)
Definition no_surrogates (s : pystr) : Prop :=
  Forall (fun c => is_surrogate c = false) s.

(** A display name that shows at most [visible] characters: everything
    after them is an asterisk, and there are at most 8 of those. *)
Definition masked_shape (visible : nat) (s : pystr) : Prop :=
  Forall (fun c => c = asterisk) (drop visible s) /\
  (length s <= visible + 8)%nat /\
  no_surrogates s.


(** The snapshot names its source and carries the source's configured
    currency and prize tiers. *)
Definition carries_static (id name : string) (config : site_config)
    (d : snapshot) : Prop :=
  site_id d = lit id /\ site_name d = lit name /\
  currency d = cfg_currency config /\ prizes d = cfg_prizes config.

Definition masked_user (u : user_entry) : Prop :=
  exists s, username u = JStr s /\ masked_shape 2 s.

Definition clean_user (u : user_entry) : Prop :=
  exists s, username u = JStr s /\ no_surrogates s.


(** The computation raises nothing but interpreter and client exceptions:
    no [HTTPException] comes out of it. *)
Definition py_only {A} (m : result A) : Prop :=
  forall c t, m <> Raise (HTTPException c t).

Definition with_outbound (w : world) (o : outcome) : world :=
  {| t_request := t_request w; t_fetch := t_fetch w; t_done := t_done w;
     outbound := o |}.

(** Provider B down for maintenance, answering 503 with its error flag set. *)
Definition bsite_maintenance_reply : outcome :=
  Replied {| status_code := 503;
             body := Some (dict [("maintenance", JBool true);
                                 ("error", JBool true);
                                 ("msg", str "back soon")]) |}.


Definition affiliate (name : string) (w : Z) : json :=
  dict [("username", str name); ("wager", JInt w)].

(** Eight raw entries of Provider C, wrapped the way the provider may. *)
Definition eight_affiliates : list json :=
  [affiliate "a1" 40; affiliate "a2" 10; affiliate "a3" 90; affiliate "a4" 70;
   affiliate "a5" 20; affiliate "a6" 60; affiliate "a7" 30; affiliate "a8" 80].

Definition wrapped_affiliates : list (pystr * json) :=
  [(lit "total", JInt 8); (lit "users", JList eight_affiliates)].


(** Every cache document sits under the id of a known site, holds a
    snapshot of that site, and the snapshot's [last_updated] is the
    document's. *)
Definition store_consistent (st : Server.state) : Prop :=
  forall s rec, doc_of st s = Some rec ->
    s ∈ valid_sites /\
    site_id (Server.doc_data rec) = s /\
    last_updated (Server.doc_data rec) = Some (Server.doc_last_updated rec).

(** The lookup for [s] at the clock of its own request misses. *)
Definition misses (ws : pystr -> world) (st : Server.state) (s : pystr) : bool :=
  match Server.cache_lookup s (t_request (ws s)) st with
  | None => true
  | Some _ => false
  end.

(** A store holding one fresh document of Provider C. *)
Definition store_with_timeout : Server.state :=
  after_fetch empty_store (lit "csbattle") timeout_snapshot
    (at_time 2026 2 15 13 45 10).


(** [float(place.get("payout", 0))] *)
Definition place_payout (P : parsers) (place : json) : result Q :=
  payout ← py_get place "payout" (JInt 0); py_float P payout.

(** Text-to-number conversions that read a few decimal literals. *)
Definition sample_parsers : parsers :=
  {| float_of_str := fun s =>
       if pystr_eqb s (lit "120.5") then Some (241 # 2)%Q
       else if pystr_eqb s (lit "1000") then Some (1000 # 1)%Q
       else None;
     int_of_str := fun s =>
       if pystr_eqb s (lit "1000") then Some 1000 else None |}.

(** A Provider D reply whose payouts are strings, with a race payout. *)
Definition skinfans_string_payouts : json :=
  dict [("race",
         dict [("payout", str "1000");
               ("places",
                JList [dict [("payout", str "120.5");
                             ("user", dict [("name", str "Casey");
                                            ("wagered", JInt 10)])]])])].


(** The entries of a list whose wager is [q], in list order. *)
Definition with_wager (key : string) (q : Q) (l : list json) : list json :=
  List.filter (fun x => Qeq_bool (wager_of key x) q) l.

(** Three raw entries of Provider A, two of them tied. *)
Definition tied_entries : list json :=
  [player "first" 50; player "top" 90; player "second" 50].

(** Raw entries of Provider A, one of them with a wager that is no number. *)
Definition entries_with_null_wager : list json :=
  [player "p1" 10; dict [("name", str "p2"); ("wagered", JNull)]; player "p3" 30].

(** Two snapshots that agree on everything but [last_updated]. *)
Definition same_content (a b : snapshot) : Prop :=
  site_id a = site_id b /\ site_name a = site_name b /\ users a = users b /\
  prize_pool a = prize_pool b /\ currency a = currency b /\
  prizes a = prizes b /\ countdown_end a = countdown_end b /\
  status a = status b /\ message a = message b.

(** How a name is displayed when at most two of its characters may show:
    as it is when it has no more, otherwise its first two characters and an
    asterisk for each of the others, 8 at most. *)
Definition masked_display (n : pystr) : pystr :=
  if (length n <=? 2)%nat then n
  else take 2 n ++ replicate (Nat.min (length n - 2) 8) asterisk.

(** The entry [u] displays, masked, the name that [x] has under [key]. *)
Definition shows_masked (key : string) (x : json) (u : user_entry) : Prop :=
  exists name, py_get x key (JStr (lit "Unknown")) = Ok name /\
    username u = JStr (masked_display (sanitize_username name)) /\
    (forall s, name = JStr s -> no_surrogates s ->
               username u = JStr (masked_display s)).

(** The entry [u] displays the name that [x] has under [key] in full. *)
Definition shows_in_full (key : string) (x : json) (u : user_entry) : Prop :=
  exists name, py_get x key (JStr (lit "Unknown")) = Ok name /\
    username u = JStr (sanitize_username name) /\
    (forall s, name = JStr s -> no_surrogates s -> username u = JStr s).

(** Three raw entries of Provider C. *)
Definition three_affiliates : list json :=
  [dict [("username", str "Alexander"); ("wager", JInt 10)];
   dict [("username", str "Bo"); ("wager", JInt 30)];
   dict [("wager", JInt 20)]].

(** [w] is [v] rounded to two decimals.  An [int] (a [bool] as the [int] it
    is) comes back as it is; a [float] becomes the double nearest to a
    decimal with two places that lies within half a hundredth of it. *)
Definition rounded_to_cents (v w : json) : Prop :=
  match v with
  | JBool b => w = JInt (if b then 1 else 0)
  | JInt z => w = JInt z
  | JFloat q =>
      exists k : Z, w = JFloat (to_double (k # 100)) /\
                    (Qabs ((k # 100) - to_double q) <= 1 # 200)%Q
  | _ => False
  end.

(** * Properties *)

(** ** Identity masking *)

Lemma length_sanitize_str (s : pystr) :
  length (sanitize_username (JStr s)) = length s.
Proof. simpl. apply length_map. Qed.

Lemma py_prefix_nonneg (s : pystr) (v : nat) :
  py_prefix s (Z.of_nat v) = take v s.
Proof.
  unfold py_prefix.
  destruct (Z.leb_spec 0 (Z.of_nat v)) as [_|H]; [|lia].
  now rewrite Nat2Z.id.
Qed.

Lemma py_repeat_min (c : N) (n v : nat) :
  (v < n)%nat ->
  py_repeat c (Z.min (Z.of_nat n - Z.of_nat v) 8) = replicate (Nat.min (n - v) 8) c.
Proof.
  intros Hlt. unfold py_repeat. f_equal. lia.
Qed.

(** C4. [mask_username] sanitizes first; a sanitized name of at most
    [visible] characters comes back unchanged, a longer one keeps its first
    [visible] characters followed by one asterisk per remaining character,
    at most 8.  ["Alexander"] gives ["Al*******"], ["Al"] gives ["Al"],
    ["AVeryLongUsernameHere"] gives ["AV"] and exactly 8 asterisks. *)
Theorem mask_username_spec :
  (forall (name : json) (visible : nat),
      let s := sanitize_username name in
      mask_username name (Z.of_nat visible) =
        if (length s <=? visible)%nat then s
        else take visible s ++ replicate (Nat.min (length s - visible) 8) asterisk)
  /\ (forall name : json,
        let s := sanitize_username name in
        (2 < length s)%nat ->
        length (mask_username name default_visible_chars) = Nat.min (length s) 10)
  /\ mask_username (JStr (lit "Alexander")) 2 = lit "Al*******"
  /\ mask_username (JStr (lit "Al")) 2 = lit "Al"
  /\ mask_username (JStr (lit "AVeryLongUsernameHere")) 2
     = lit "AV" ++ replicate 8 asterisk.
Proof.
  assert (Hgen : forall (name : json) (visible : nat),
             mask_username name (Z.of_nat visible) =
             if (length (sanitize_username name) <=? visible)%nat
             then sanitize_username name
             else take visible (sanitize_username name)
                  ++ replicate (Nat.min (length (sanitize_username name) - visible) 8)
                       asterisk).
  { intros name visible. unfold mask_username.
    set (s := sanitize_username name).
    destruct (Nat.leb_spec (length s) visible) as [Hle|Hgt].
    - destruct (Z.leb_spec (Z.of_nat (length s)) (Z.of_nat visible)); [done|lia].
    - destruct (Z.leb_spec (Z.of_nat (length s)) (Z.of_nat visible)); [lia|].
      now rewrite py_prefix_nonneg, py_repeat_min. }
  split; [exact Hgen|].
  split.
  - intros name s Hlen. unfold default_visible_chars.
    change 2 with (Z.of_nat 2). rewrite Hgen. fold s.
    destruct (Nat.leb_spec (length s) 2); [lia|].
    rewrite length_app, length_take, length_replicate. lia.
  - repeat split; vm_compute; reflexivity.
Qed.

(** A witness of the length bound: a 21-character name masks to 10. *)
Lemma mask_username_spec_witness :
  length (mask_username (JStr (lit "AVeryLongUsernameHere")) default_visible_chars)
  = Nat.min (length (sanitize_username (JStr (lit "AVeryLongUsernameHere")))) 10.
Proof.
  apply (proj1 (proj2 mask_username_spec) (JStr (lit "AVeryLongUsernameHere"))).
  vm_compute. lia.
Defined.

(** ** Provider A: [countdown_end] *)

Lemma days_in_month_pos (y m : Z) : 28 <= days_in_month y m <= 31.
Proof.
  unfold days_in_month.
  destruct (m =? 2); [destruct (is_leap y); lia|].
  destruct ((m =? 4) || (m =? 6) || (m =? 9) || (m =? 11)); lia.
Qed.

Ltac split_valid H :=
  unfold valid_datetime in H; simpl in H;
  repeat (apply andb_prop in H; let H' := fresh H in destruct H as [H H']);
  repeat match goal with
         | h : (_ <=? _) = true |- _ => apply Z.leb_le in h
         end.

(** The adapter computes its countdown for every clock reading Python can
    produce before the last year of the calendar. *)
Lemma clash_end_of_month_total (now : datetime) :
  valid_datetime now = true -> year now < 9999 ->
  exists d, clash_end_of_month now = Ok d.
Proof.
  intros Hv Hy. split_valid Hv.
  unfold clash_end_of_month, replace_date.
  destruct (Z.eqb_spec (month now) 12) as [Hm|Hm].
  - set (d' := {| year := year now + 1 |}).
    assert (Hd' : valid_datetime d' = true).
    { unfold valid_datetime, d'; simpl.
      pose proof (days_in_month_pos (year now + 1) 1).
      repeat (apply andb_true_intro; split); apply Z.leb_le; lia. }
    rewrite Hd'. simpl. unfold minus_one_second, d'; simpl.
    destruct (Z.ltb_spec 0 (second now)); [eexists; reflexivity|].
    destruct (Z.ltb_spec 0 (minute now)); [eexists; reflexivity|].
    destruct (Z.ltb_spec 0 (hour now)); [eexists; reflexivity|].
    simpl. destruct (Z.ltb_spec 1 (year now + 1)); [eexists; reflexivity|lia].
  - set (d' := {| year := year now |}).
    assert (Hd' : valid_datetime d' = true).
    { unfold valid_datetime, d'; simpl.
      pose proof (days_in_month_pos (year now) (month now + 1)).
      repeat (apply andb_true_intro; split); apply Z.leb_le; lia. }
    rewrite Hd'. simpl. unfold minus_one_second, d'; simpl.
    destruct (Z.ltb_spec 0 (second now)); [eexists; reflexivity|].
    destruct (Z.ltb_spec 0 (minute now)); [eexists; reflexivity|].
    destruct (Z.ltb_spec 0 (hour now)); [eexists; reflexivity|].
    simpl. destruct (Z.ltb_spec 1 (month now + 1)); [eexists; reflexivity|lia].
Qed.

Lemma days_before_month_succ (y m : Z) :
  2 <= m -> days_before_month y m = days_before_month y (m - 1) + days_in_month y (m - 1).
Proof.
  intros Hm. unfold days_before_month.
  replace (Z.to_nat (m - 1)) with (S (Z.to_nat (m - 1 - 1))) by lia.
  cbn [days_before_month_nat]. f_equal. f_equal. lia.
Qed.

Lemma days_before_year_succ (y : Z) :
  days_before_year (y + 1) = days_before_year y + days_before_month y 12 + 31.
Proof.
  unfold days_before_year, days_before_month.
  change (Z.to_nat (12 - 1)) with 11%nat. cbn [days_before_month_nat Z.of_nat].
  unfold days_in_month, is_leap. simpl Z.eqb. cbn [orb].
  replace (y + 1 - 1) with y by lia.
  destruct (Z.eqb_spec (y mod 4) 0), (Z.eqb_spec (y mod 100) 0),
    (Z.eqb_spec (y mod 400) 0); cbn [andb orb negb];
    Z.to_euclidean_division_equations; lia.
Qed.

(** Borrowing agrees with [timedelta] arithmetic on the microsecond count. *)
Lemma minus_one_second_micros (d d' : datetime) :
  valid_datetime d = true -> minus_one_second d = Ok d' ->
  micros d' = micros d - 1000000.
Proof.
  intros Hv. split_valid Hv. unfold minus_one_second.
  destruct (Z.ltb_spec 0 (second d)); [intros [= <-]; unfold micros, toordinal; simpl; lia|].
  destruct (Z.ltb_spec 0 (minute d)); [intros [= <-]; unfold micros, toordinal; simpl; lia|].
  destruct (Z.ltb_spec 0 (hour d)); [intros [= <-]; unfold micros, toordinal; simpl; lia|].
  destruct (Z.ltb_spec 1 (day d)); [intros [= <-]; unfold micros, toordinal; simpl; lia|].
  destruct (Z.ltb_spec 1 (month d)).
  - intros [= <-]. unfold micros, toordinal; cbn [year month day hour minute second microsecond].
    rewrite (days_before_month_succ (year d) (month d)) by lia. lia.
  - destruct (Z.ltb_spec 1 (year d)); [|discriminate].
    intros [= <-]. unfold micros, toordinal; cbn [year month day hour minute second microsecond].
    pose proof (days_before_year_succ (year d - 1)) as Hy.
    replace (year d - 1 + 1) with (year d) in Hy by lia.
    replace (month d) with 1 by lia.
    change (days_before_month (year d) 1) with 0. lia.
Qed.

(** Away from the first second of a day the countdown lies in the month
    after the current one: [replace] keeps the time of day of [now]. *)
Lemma clash_end_of_month_next_month (now d : datetime) :
  0 < hour now \/ 0 < minute now \/ 0 < second now ->
  clash_end_of_month now = Ok d ->
  day d = 1 /\ ~ last_instant_of_month now d.
Proof.
  intros Ht. unfold clash_end_of_month, replace_date.
  assert (Hday : forall y, days_in_month y (month now) <> 1)
    by (intros y; pose proof (days_in_month_pos y (month now)); lia).
  destruct (month now =? 12);
    match goal with |- context [valid_datetime ?x] => destruct (valid_datetime x) end;
    simpl; try discriminate;
    unfold minus_one_second; simpl;
    destruct (Z.ltb_spec 0 (second now));
    [ | destruct (Z.ltb_spec 0 (minute now));
        [ | destruct (Z.ltb_spec 0 (hour now)); [ | lia ] ] | |
      destruct (Z.ltb_spec 0 (minute now));
        [ | destruct (Z.ltb_spec 0 (hour now)); [ | lia ] ] ];
    intros [= <-]; simpl; (split; [reflexivity|]);
    unfold last_instant_of_month; simpl; intros (_ & _ & Hd & _);
    symmetry in Hd; now apply Hday in Hd.
Qed.

(** C6 (the code departs from the claim). On 15 February 2026 at 13:45:10
    UTC a successful fetch of Provider A sets [countdown_end] to 1 March 2026
    13:45:09, which is not the last instant of February; in December the
    year does roll over, with the same shift (1 January, time of day of the
    request minus one second). *)
Theorem clash_countdown_end_overshoots :
  let now := at_time 2026 2 15 13 45 10 in
  (exists d,
      Server.fetch_clash_data (sample_world (ok_reply (JList []))) = Ok d
      /\ ApiIndex.fetch_clash_data (sample_world (ok_reply (JList [])))
         = Ok (set_last_updated d now)
      /\ countdown_end d = Some (AtDatetime (at_time 2026 3 1 13 45 9))
      /\ ~ last_instant_of_month now (at_time 2026 3 1 13 45 9))
  /\ last_instant_of_month now (at_time 2026 2 28 23 59 59)
  /\ clash_end_of_month (at_time 2026 12 15 13 45 10)
     = Ok (at_time 2027 1 1 13 45 9).
Proof.
  split; [|split].
  - eexists. split; [vm_compute; reflexivity|].
    split; [vm_compute; reflexivity|].
    split; [reflexivity|].
    unfold last_instant_of_month; simpl. intros (_ & H & _). discriminate.
  - unfold last_instant_of_month. vm_compute. repeat split; reflexivity.
  - vm_compute. reflexivity.
Qed.

(** ** Adapters and exceptions *)

Lemma error_shaped_empty (id name : string) (config : site_config) (m : pystr) :
  error_shaped config (empty_snapshot id name config "error" (JStr m)).
Proof. unfold error_shaped; simpl. eauto 10. Qed.

Lemma error_shaped_stamped (config : site_config) (d : snapshot) (t : datetime) :
  error_shaped config d -> error_shaped config (set_last_updated d t).
Proof. unfold error_shaped; simpl. tauto. Qed.

Lemma absorbs_try_except (config : site_config) (body : result snapshot)
    (handler : exn -> snapshot) :
  (forall e, error_shaped config (handler e)) ->
  absorbs config body (try_except body (fun e => Ok (handler e))).
Proof.
  intros Hh. split.
  - intros d ->. reflexivity.
  - intros e ->. simpl. eauto.
Qed.

Lemma absorbs_returns (config : site_config) (body fetch : result snapshot) :
  absorbs config body fetch -> exists d, fetch = Ok d.
Proof.
  intros [Hok Herr]. destruct body as [d|e] eqn:Hb.
  - eauto.
  - destruct (Herr e eq_refl) as (d & -> & _). eauto.
Qed.

Lemma http_request_failed (o : outcome) :
  call_failed o ->
  (exists e, http_request o = Raise e) \/
  (exists r, http_request o = Ok r /\ body r = None).
Proof.
  intros [[m ->]|[[m ->]|[c ->]]]; simpl; eauto.
Qed.

Lemma failed_call_raises {A} (o : outcome)
    (k : response -> json -> result A) (pre : response -> result unit) :
  call_failed o ->
  exists e, (response ← http_request o; pre response;;
             data ← response_json response; k response data) = Raise e.
Proof.
  intros [(e & ->)|(r & -> & Hb)]%http_request_failed; simpl; [eauto|].
  destruct (pre r); simpl; [|eauto].
  unfold response_json. rewrite Hb. simpl. eauto.
Qed.

Lemma clash_try_failed (now : datetime) (o : outcome) (lu : option datetime) :
  call_failed o -> exists e, clash_try now o lu = Raise e.
Proof.
  intros H. unfold clash_try.
  exact (failed_call_raises o _ raise_for_status H).
Qed.

Lemma csbattle_try_failed (E : environ) (o : outcome) (lu : option datetime) :
  call_failed o -> exists e, csbattle_try E o lu = Raise e.
Proof.
  intros H. unfold csbattle_try.
  exact (failed_call_raises o _ raise_for_status H).
Qed.

Lemma skinfans_try_failed (P : parsers) (o : outcome) (lu : option datetime) :
  call_failed o -> exists e, skinfans_try P o lu = Raise e.
Proof.
  intros H. unfold skinfans_try.
  exact (failed_call_raises o _ raise_for_status H).
Qed.

Lemma index_bsite_try_failed (P : parsers) (w : world) :
  call_failed (outbound w) -> exists e, ApiIndex.bsite_try P w = Raise e.
Proof.
  intros H. unfold ApiIndex.bsite_try.
  exact (failed_call_raises (outbound w) _ (fun _ => Ok tt) H).
Qed.

Lemma server_bsite_try_failed (P : parsers) (o : outcome) :
  call_failed o -> exists c m, Server.bsite_try P o = Raise (PyExc c m).
Proof.
  intros [[m ->]|[[m ->]|[c ->]]]; simpl; eauto.
Qed.

(** C1 (counterexample). In the caching variant Provider A's adapter raises
    when the outbound call times out. *)
Lemma server_clash_timeout_raises :
  Server.fetch_clash_data (sample_world timed_out)
  = Raise (HTTPException 500 (lit "Failed to fetch Clash.gg data: timed out"))
  /\ ~ exists d, Server.fetch_clash_data (sample_world timed_out) = Ok d.
Proof.
  split; [vm_compute; reflexivity|].
  intros [d Hd]. vm_compute in Hd. discriminate.
Qed.

(** C1 (amended). In the stateless variant every adapter absorbs every
    failure of its [try] block, and in the caching variant Providers C and D
    do: the adapter returns a snapshot with status ["error"], a message,
    [users = []] and the static prize pool, currency and prizes.  In the
    caching variant Provider A turns every failure into an [HTTPException]
    with status 500, and Provider B re-raises the [HTTPException]s it raises
    itself (a status other than 200, the provider's error flag) and absorbs
    every other failure.  A timeout, a transport error and an unparsable
    body are such failures for every adapter. *)
Theorem adapters_failure_handling (P : parsers) (E : environ) (w : world) :
  let o := outbound w in
  (absorbs clash_config (clash_try (t_fetch w) o (Some (t_fetch w)))
     (ApiIndex.fetch_clash_data w)
   /\ absorbs bsite_config (ApiIndex.bsite_try P w) (ApiIndex.fetch_bsite_data P w)
   /\ absorbs csbattle_config (csbattle_try E o (Some (t_done w)))
        (ApiIndex.fetch_csbattle_data E w)
   /\ absorbs skinfans_config (skinfans_try P o (Some (t_done w)))
        (ApiIndex.fetch_skinfans_data P w))
  /\ ((exists d, Server.fetch_csbattle_data E w = Ok d)
      /\ (exists d, Server.fetch_skinfans_data P E w = Ok d)
      /\ (csbattle_affiliate_id E <> [] ->
          absorbs csbattle_config (csbattle_try E o None)
            (Server.fetch_csbattle_data E w))
      /\ (skinfans_token E <> [] ->
          absorbs skinfans_config (skinfans_try P o None)
            (Server.fetch_skinfans_data P E w)))
  /\ ((forall d, clash_try (t_fetch w) o None = Ok d ->
         Server.fetch_clash_data w = Ok d)
      /\ (forall e, clash_try (t_fetch w) o None = Raise e ->
            Server.fetch_clash_data w
            = Raise (HTTPException 500
                       (lit "Failed to fetch Clash.gg data: " ++ str_exn e))))
  /\ ((forall d, Server.bsite_try P o = Ok d -> Server.fetch_bsite_data P w = Ok d)
      /\ (forall c m, Server.bsite_try P o = Raise (PyExc c m) ->
            returns_error bsite_config (Server.fetch_bsite_data P w))
      /\ (forall c m, Server.bsite_try P o = Raise (HTTPException c m) ->
            Server.fetch_bsite_data P w = Raise (HTTPException c m)))
  /\ (call_failed o ->
      returns_error clash_config (ApiIndex.fetch_clash_data w)
      /\ returns_error bsite_config (ApiIndex.fetch_bsite_data P w)
      /\ returns_error csbattle_config (ApiIndex.fetch_csbattle_data E w)
      /\ returns_error skinfans_config (ApiIndex.fetch_skinfans_data P w)
      /\ returns_error bsite_config (Server.fetch_bsite_data P w)
      /\ (csbattle_affiliate_id E <> [] ->
          returns_error csbattle_config (Server.fetch_csbattle_data E w))
      /\ (skinfans_token E <> [] ->
          returns_error skinfans_config (Server.fetch_skinfans_data P E w))
      /\ exists m, Server.fetch_clash_data w = Raise (HTTPException 500 m)).
Proof.
  intros o.
  assert (HiA : absorbs clash_config (clash_try (t_fetch w) o (Some (t_fetch w)))
                  (ApiIndex.fetch_clash_data w)).
  { apply absorbs_try_except. intros e.
    apply error_shaped_stamped, error_shaped_empty. }
  assert (HiB : absorbs bsite_config (ApiIndex.bsite_try P w)
                  (ApiIndex.fetch_bsite_data P w)).
  { apply absorbs_try_except. intros e.
    apply error_shaped_stamped, error_shaped_empty. }
  assert (HiC : absorbs csbattle_config (csbattle_try E o (Some (t_done w)))
                  (ApiIndex.fetch_csbattle_data E w)).
  { apply absorbs_try_except. intros e.
    apply error_shaped_stamped, error_shaped_empty. }
  assert (HiD : absorbs skinfans_config (skinfans_try P o (Some (t_done w)))
                  (ApiIndex.fetch_skinfans_data P w)).
  { apply absorbs_try_except. intros e.
    apply error_shaped_stamped, error_shaped_empty. }
  assert (HsC : csbattle_affiliate_id E <> [] ->
                absorbs csbattle_config (csbattle_try E o None)
                  (Server.fetch_csbattle_data E w)).
  { intros Hc. unfold Server.fetch_csbattle_data.
    destruct (csbattle_affiliate_id E); [done|]. simpl.
    apply absorbs_try_except. intros e. apply error_shaped_empty. }
  assert (HsD : skinfans_token E <> [] ->
                absorbs skinfans_config (skinfans_try P o None)
                  (Server.fetch_skinfans_data P E w)).
  { intros Hc. unfold Server.fetch_skinfans_data.
    destruct (skinfans_token E); [done|]. simpl.
    apply absorbs_try_except. intros e. apply error_shaped_empty. }
  assert (HsB : forall c m, Server.bsite_try P o = Raise (PyExc c m) ->
                  returns_error bsite_config (Server.fetch_bsite_data P w)).
  { intros c m Hb. unfold Server.fetch_bsite_data. fold o. rewrite Hb. simpl.
    eexists. split; [reflexivity|]. apply error_shaped_empty. }
  assert (HsA : forall e, clash_try (t_fetch w) o None = Raise e ->
                  Server.fetch_clash_data w
                  = Raise (HTTPException 500
                             (lit "Failed to fetch Clash.gg data: " ++ str_exn e))).
  { intros e He. unfold Server.fetch_clash_data. fold o. now rewrite He. }
  repeat apply conj; try assumption;
    try (first [apply HiA | apply HiB | apply HiC | apply HiD]).
  - unfold Server.fetch_csbattle_data.
    match goal with |- context [if ?b then _ else _] => destruct b end; [eauto|].
    destruct (csbattle_try E (outbound w) None); simpl; eauto.
  - unfold Server.fetch_skinfans_data.
    match goal with |- context [if ?b then _ else _] => destruct b end; [eauto|].
    destruct (skinfans_try P (outbound w) None); simpl; eauto.
  - intros d Hd. unfold Server.fetch_clash_data. fold o. now rewrite Hd.
  - intros d Hd. unfold Server.fetch_bsite_data. fold o. now rewrite Hd.
  - intros c m Hb. unfold Server.fetch_bsite_data. fold o. now rewrite Hb.
  - intros Hf. repeat apply conj.
    + destruct (clash_try_failed (t_fetch w) o (Some (t_fetch w)) Hf) as [e He].
      exact (proj2 HiA e He).
    + destruct (index_bsite_try_failed P w Hf) as [e He]. exact (proj2 HiB e He).
    + destruct (csbattle_try_failed E o (Some (t_done w)) Hf) as [e He].
      exact (proj2 HiC e He).
    + destruct (skinfans_try_failed P o (Some (t_done w)) Hf) as [e He].
      exact (proj2 HiD e He).
    + destruct (server_bsite_try_failed P o Hf) as (c & m & He). eauto.
    + intros Hc. destruct (csbattle_try_failed E o None Hf) as [e He].
      exact (proj2 (HsC Hc) e He).
    + intros Hc. destruct (skinfans_try_failed P o None Hf) as [e He].
      exact (proj2 (HsD Hc) e He).
    + destruct (clash_try_failed (t_fetch w) o None Hf) as [e He]. eauto.
Qed.

(** A witness: the timeout of [sample_world], on the default configuration. *)
Lemma adapters_failure_handling_witness :
  returns_error clash_config (ApiIndex.fetch_clash_data (sample_world timed_out))
  /\ returns_error csbattle_config
       (Server.fetch_csbattle_data default_environ (sample_world timed_out)).
Proof.
  pose proof (adapters_failure_handling no_parsers default_environ
                (sample_world timed_out)) as H.
  simpl in H. destruct H as (_ & _ & _ & _ & H).
  assert (Hf : call_failed timed_out) by (left; eexists; reflexivity).
  destruct (H Hf) as (Ha & _ & _ & _ & _ & Hc & _).
  split; [exact Ha|]. apply Hc. discriminate.
Defined.

(** ** Loops of the adapters *)

Lemma bind_Ok {A B} (m : result A) (k : A -> result B) (b : B) :
  m ≫= k = Ok b -> exists a, m = Ok a /\ k a = Ok b.
Proof. destruct m as [a|e]; simpl; [eauto|discriminate]. Qed.

Ltac inv_bind H :=
  repeat (apply bind_Ok in H;
          let a := fresh "a" in
          let Ha := fresh "H" a in
          destruct H as (a & Ha & H)).

Lemma for_each_length {A B} (f : A -> result B) (l : list A) (ys : list B) :
  for_each f l = Ok ys -> length ys = length l.
Proof.
  revert ys. induction l as [|x l IH]; intros ys H; simpl in H.
  - now inversion H.
  - inv_bind H. inversion H; subst. simpl. f_equal. now apply IH.
Qed.

Lemma for_each_Forall2 {A B} (f : A -> result B) (l : list A) (ys : list B) :
  for_each f l = Ok ys -> Forall2 (fun x y => f x = Ok y) l ys.
Proof.
  revert ys. induction l as [|x l IH]; intros ys H; simpl in H.
  - inversion H. constructor.
  - inv_bind H. inversion H; subst. constructor; auto.
Qed.

Lemma for_each_map {A B C} (f : A -> result B) (g : B -> C) (h : A -> C)
    (l : list A) (ys : list B) :
  (forall x y, f x = Ok y -> g y = h x) ->
  for_each f l = Ok ys -> List.map g ys = List.map h l.
Proof.
  intros Hgh H. apply for_each_Forall2 in H.
  induction H as [|x y l ys Hxy _ IH]; simpl; [reflexivity|].
  f_equal; auto.
Qed.

Lemma length_enumerate {A} (l : list A) : length (enumerate l) = length l.
Proof. unfold enumerate. rewrite length_combine, length_seq. lia. Qed.

(** The positions a filter keeps from an enumeration are strictly
    increasing. *)
Lemma kept_positions_sorted {A} (f : nat * A -> bool) (l : list A) (k : nat) :
  let zs := List.map (fun ix => Z.of_nat (fst ix) + 1)
              (List.filter f (combine (seq k (length l)) l)) in
  StronglySorted Z.lt zs /\ Forall (fun z => Z.of_nat k < z) zs.
Proof.
  revert k. induction l as [|x l IH]; intros k; simpl.
  - split; constructor.
  - destruct (IH (S k)) as [Hs Hb].
    assert (Hb' : Forall (fun z => Z.of_nat k < z)
                    (List.map (fun ix => Z.of_nat (fst ix) + 1)
                       (List.filter f (combine (seq (S k) (length l)) l)))).
    { eapply Forall_impl; [exact Hb|]. simpl. intros; lia. }
    destruct (f (k, x)); simpl.
    + split; constructor; auto; try lia.
      eapply Forall_impl; [exact Hb|]. simpl. intros; lia.
    + split; assumption.
Qed.

Lemma positions_increasing {A} (f : nat * A -> bool) (l : list A)
    (us : list user_entry) :
  List.map rank us = List.map position_rank (List.filter f (enumerate l)) ->
  ranks_increasing us.
Proof.
  intros H.
  exists (List.map (fun ix => Z.of_nat (fst ix) + 1) (List.filter f (enumerate l))).
  split.
  - rewrite H, List.map_map. reflexivity.
  - apply (kept_positions_sorted f l 0).
Qed.

Lemma filter_all {A} (l : list A) : List.filter (fun _ => true) l = l.
Proof. induction l; simpl; congruence. Qed.

Lemma try_except_Ok {A} (body : result A) (h : exn -> A) (a : A) :
  try_except body (fun e => Ok (h e)) = Ok a ->
  body = Ok a \/ exists e, body = Raise e /\ a = h e.
Proof.
  destruct body as [b|e]; simpl; intros [= <-]; eauto.
Qed.

Lemma clash_entry_rank (iu : nat * json) (y : user_entry) :
  clash_entry iu = Ok y ->
  rank y = position_rank iu /\
  prize y = JInt (tier_prize (cfg_prizes clash_config) (Z.of_nat (fst iu) + 1)).
Proof.
  unfold clash_entry. intros H. inv_bind H. inversion H; subst. now split.
Qed.

Lemma csbattle_entry_rank (iu : nat * json) (y : user_entry) :
  csbattle_entry iu = Ok y ->
  rank y = position_rank iu /\
  prize y = JInt (tier_prize (cfg_prizes csbattle_config) (Z.of_nat (fst iu) + 1)).
Proof.
  unfold csbattle_entry. intros H. inv_bind H. inversion H; subst. now split.
Qed.

Lemma skinfans_place_inv (P : parsers) (ip : nat * json) (o : option user_entry) :
  skinfans_place P ip = Ok o ->
  (o = None /\ has_user (snd ip) = false) \/
  (exists u, o = Some u /\ has_user (snd ip) = true /\ rank u = position_rank ip).
Proof.
  unfold skinfans_place, has_user. intros H. inv_bind H.
  rewrite Ha1. destruct (py_truthy a1).
  - inv_bind H. inversion H; subst. right. eauto.
  - inversion H; subst. now left.
Qed.

(** The loop of a tier-table adapter ranks its entries 1, 2, ... in order. *)
Lemma tiered_loop_ranks (f : nat * json -> result user_entry)
    (sorted_users : list json) (us : list user_entry) :
  (forall iu y, f iu = Ok y -> rank y = position_rank iu) ->
  for_each f (enumerate (take 10 sorted_users)) = Ok us ->
  (length us <= 10)%nat /\
  length us = Nat.min 10 (length sorted_users) /\
  List.map rank us = List.map position_rank (enumerate (take 10 sorted_users)) /\
  ranks_increasing us.
Proof.
  intros Hf H.
  assert (Hlen : length us = Nat.min 10 (length sorted_users)).
  { apply for_each_length in H. now rewrite length_enumerate, length_take in H. }
  assert (Hr : List.map rank us
               = List.map position_rank (enumerate (take 10 sorted_users))).
  { eapply for_each_map; [|exact H]. exact Hf. }
  repeat split; [lia|exact Hlen|exact Hr|].
  apply (positions_increasing (fun _ => true) (take 10 sorted_users)).
  now rewrite filter_all.
Qed.

(** The loop of Provider D ranks an emitted entry by the raw position of
    its place. *)
Lemma skinfans_loop_ranks (P : parsers) (l : list (nat * json))
    (emitted : list (option user_entry)) :
  for_each (skinfans_place P) l = Ok emitted ->
  List.map rank (appended emitted)
  = List.map position_rank (List.filter (fun ip => has_user (snd ip)) l)
  /\ (length (appended emitted) <= length l)%nat.
Proof.
  revert emitted. induction l as [|ip l IH]; intros emitted H; simpl in H.
  - inversion H; subst. simpl. split; [reflexivity|lia].
  - inv_bind H. inversion H; subst. destruct (IH _ Ha0) as [IHr IHl].
    apply skinfans_place_inv in Ha as [[-> Hu]|(u & -> & Hu & Hr)];
      simpl; rewrite Hu; simpl.
    + split; [exact IHr|lia].
    + split; [now rewrite Hr, IHr|lia].
Qed.

Lemma length_slice_iter (x : json) (n : nat) (l : list json) :
  py_slice_iter x n = Ok l -> (length l <= n)%nat.
Proof.
  destruct x; simpl; intros [= <-];
    rewrite ?length_map, length_take; lia.
Qed.

(** What a successful [try] block of each adapter went through. *)
Lemma clash_try_inv (now : datetime) (o : outcome) (lu : option datetime)
    (d : snapshot) :
  clash_try now o lu = Ok d ->
  exists r data sorted_users eom,
    o = Replied r /\ raise_for_status r = Ok tt /\ body r = Some data /\
    py_sorted_desc data "wagered" = Ok sorted_users /\
    for_each clash_entry (enumerate (take 10 sorted_users)) = Ok (users d) /\
    clash_end_of_month now = Ok eom /\
    countdown_end d = Some (AtDatetime eom) /\
    status d = active /\ message d = None /\ last_updated d = lu /\
    prize_pool d = JInt (cfg_prize_pool clash_config) /\
    currency d = cfg_currency clash_config /\
    prizes d = cfg_prizes clash_config.
Proof.
  unfold clash_try. intros H. inv_bind H. inversion H; subst; simpl.
  destruct o as [r| |m]; simpl in Ha; try discriminate.
  injection Ha as ->. destruct a0.
  unfold response_json in Ha1. destruct (body a) as [j|] eqn:Hb; [|discriminate].
  injection Ha1 as ->.
  exists a, a1, a2, a4. repeat split; auto.
Qed.

Lemma csbattle_try_inv (E : environ) (o : outcome) (lu : option datetime)
    (d : snapshot) :
  csbattle_try E o lu = Ok d ->
  exists sorted_users,
    for_each csbattle_entry (enumerate (take 10 sorted_users)) = Ok (users d)
    /\ status d = active.
Proof.
  unfold csbattle_try. intros H. inv_bind H. inversion H; subst; simpl. eauto.
Qed.

Lemma skinfans_try_inv (P : parsers) (o : outcome) (lu : option datetime)
    (d : snapshot) :
  skinfans_try P o lu = Ok d ->
  exists r data race places ps emitted,
    o = Replied r /\ body r = Some data /\
    skinfans_race data = Ok race /\
    py_get race "places" (JList []) = Ok places /\
    py_slice_iter places 10 = Ok ps /\
    for_each (skinfans_place P) (enumerate ps) = Ok emitted /\
    users d = appended emitted.
Proof.
  unfold skinfans_try. intros H. inv_bind H. inversion H; subst; simpl.
  destruct o as [r| |m]; simpl in Ha; try discriminate.
  injection Ha as ->.
  unfold response_json in Ha1. destruct (body a) as [j|] eqn:Hb; [|discriminate].
  injection Ha1 as ->.
  exists a, a1, a2, a3, a4, a5. repeat split; auto.
Qed.

Lemma bsite_normalize_inv (P : parsers) (data : json) (lu : option datetime)
    (d : snapshot) :
  bsite_normalize P data lu = Ok d ->
  exists wagers prize_lookup ws,
    py_get data "wagers" (JList []) = Ok wagers /\
    py_slice_iter wagers 10 = Ok ws /\
    for_each (bsite_entry prize_lookup) ws = Ok (users d).
Proof.
  unfold bsite_normalize. intros H. inv_bind H. inversion H; subst; simpl.
  eauto 10.
Qed.

(** ** Provider D: ranks *)

Lemma skinfans_try_ranks (P : parsers) (o : outcome) (lu : option datetime)
    (d : snapshot) :
  skinfans_try P o lu = Ok d ->
  exists r data race places ps,
    o = Replied r /\ body r = Some data /\
    skinfans_race data = Ok race /\
    py_get race "places" (JList []) = Ok places /\
    py_slice_iter places 10 = Ok ps /\
    List.map rank (users d)
    = List.map position_rank (List.filter (fun ip => has_user (snd ip)) (enumerate ps))
    /\ (length (users d) <= 10)%nat
    /\ ranks_increasing (users d).
Proof.
  intros H.
  destruct (skinfans_try_inv _ _ _ _ H)
    as (r & data & race & places & ps & emitted & Ho & Hb & Hr & Hp & Hs & Hl & Hu).
  destruct (skinfans_loop_ranks _ _ _ Hl) as [Hranks Hlen].
  rewrite <- Hu in Hranks, Hlen.
  exists r, data, race, places, ps. repeat split; auto.
  - apply length_slice_iter in Hs. rewrite length_enumerate in Hlen. lia.
  - eapply positions_increasing. exact Hranks.
Qed.

Lemma server_skinfans_success (P : parsers) (E : environ) (w : world) (d : snapshot) :
  Server.fetch_skinfans_data P E w = Ok d ->
  status d = active \/ status d = ended ->
  skinfans_try P (outbound w) None = Ok d.
Proof.
  unfold Server.fetch_skinfans_data. intros H Hst.
  destruct (negb _).
  - injection H as <-. simpl in Hst. destruct Hst; discriminate.
  - apply try_except_Ok in H as [H|(e & _ & ->)]; [exact H|].
    simpl in Hst. destruct Hst; discriminate.
Qed.

Lemma index_skinfans_success (P : parsers) (w : world) (d : snapshot) :
  ApiIndex.fetch_skinfans_data P w = Ok d ->
  status d = active \/ status d = ended ->
  skinfans_try P (outbound w) (Some (t_done w)) = Ok d.
Proof.
  unfold ApiIndex.fetch_skinfans_data. intros H Hst.
  apply try_except_Ok in H as [H|(e & _ & ->)]; [exact H|].
  simpl in Hst. destruct Hst; discriminate.
Qed.

(** C2 (counterexample). Three places, the second without a user object:
    the adapter returns two users, ranked 1 and 3. *)
Lemma skinfans_skipped_place_leaves_gap :
  exists d,
    Server.fetch_skinfans_data no_parsers default_environ
      (sample_world (ok_reply skinfans_three_places)) = Ok d
    /\ ApiIndex.fetch_skinfans_data no_parsers
         (sample_world (ok_reply skinfans_three_places))
       = Ok (set_last_updated d (at_time 2026 2 15 13 45 11))
    /\ length (users d) = 2%nat
    /\ List.map rank (users d) = [JInt 1; JInt 3]
    /\ List.map rank (users d) <> [JInt 1; JInt 2].
Proof.
  eexists. split; [vm_compute; reflexivity|].
  split; [vm_compute; reflexivity|].
  split; [reflexivity|]. split; [reflexivity|]. simpl. discriminate.
Qed.

(** C2 (amended). On a successful fetch of Provider D (status ["active"] or
    ["ended"]) an emitted entry is ranked by the 1-based raw position of its
    place among the first 10 places: a place without a user object emits
    nothing and still takes its rank slot.  The ranks are strictly
    increasing, with a gap at every skipped place. *)
Theorem skinfans_rank_is_raw_position (P : parsers) (E : environ) (w : world)
    (d : snapshot) :
  Server.fetch_skinfans_data P E w = Ok d \/ ApiIndex.fetch_skinfans_data P w = Ok d ->
  status d = active \/ status d = ended ->
  exists r data race places ps,
    outbound w = Replied r /\ body r = Some data /\
    skinfans_race data = Ok race /\
    py_get race "places" (JList []) = Ok places /\
    py_slice_iter places 10 = Ok ps /\
    List.map rank (users d)
    = List.map position_rank (List.filter (fun ip => has_user (snd ip)) (enumerate ps))
    /\ (length (users d) <= 10)%nat
    /\ ranks_increasing (users d).
Proof.
  intros [H|H] Hst.
  - eapply skinfans_try_ranks, server_skinfans_success; eassumption.
  - eapply skinfans_try_ranks, index_skinfans_success; eassumption.
Qed.

(** The three sample places: the ranks are the positions of the places that carry a user. *)
Lemma skinfans_rank_is_raw_position_witness :
  exists d,
    Server.fetch_skinfans_data no_parsers default_environ
      (sample_world (ok_reply skinfans_three_places)) = Ok d
    /\ exists r data race places ps,
      outbound (sample_world (ok_reply skinfans_three_places)) = Replied r /\
      body r = Some data /\
      skinfans_race data = Ok race /\
      py_get race "places" (JList []) = Ok places /\
      py_slice_iter places 10 = Ok ps /\
      List.map rank (users d)
      = List.map position_rank
          (List.filter (fun ip => has_user (snd ip)) (enumerate ps))
      /\ (length (users d) <= 10)%nat
      /\ ranks_increasing (users d).
Proof.
  eexists. split; [vm_compute; reflexivity|].
  apply (skinfans_rank_is_raw_position no_parsers default_environ
           (sample_world (ok_reply skinfans_three_places))).
  - left. vm_compute. reflexivity.
  - left. reflexivity.
Defined.

(** ** Size of [users] and order of the ranks *)

Lemma bsite_entry_rank (lk : list (json * json)) (x : json) (u : user_entry) :
  bsite_entry lk x = Ok u -> py_get x "rank" (JInt 0) = Ok (rank u).
Proof.
  unfold bsite_entry. intros H. inv_bind H. inversion H; subst. exact Ha.
Qed.

Lemma bsite_normalize_users (P : parsers) (data : json) (lu : option datetime)
    (d : snapshot) :
  bsite_normalize P data lu = Ok d ->
  (length (users d) <= 10)%nat /\
  forall wagers, py_get data "wagers" (JList []) = Ok (JList wagers) ->
    Forall2 (fun x u => py_get x "rank" (JInt 0) = Ok (rank u))
      (take 10 wagers) (users d).
Proof.
  intros H.
  destruct (bsite_normalize_inv _ _ _ _ H) as (wagers & lk & ws & Hw & Hs & Hl).
  split.
  - apply for_each_length in Hl. apply length_slice_iter in Hs. lia.
  - intros wagers' Hw'. rewrite Hw in Hw'. injection Hw' as ->.
    simpl in Hs. injection Hs as <-.
    apply for_each_Forall2 in Hl.
    eapply Forall2_impl; [exact Hl|]. intros x u. apply bsite_entry_rank.
Qed.

Lemma server_bsite_users (P : parsers) (w : world) (d : snapshot) :
  Server.fetch_bsite_data P w = Ok d -> (length (users d) <= 10)%nat.
Proof.
  unfold Server.fetch_bsite_data. intros H.
  destruct (Server.bsite_try P (outbound w)) as [d'|e] eqn:Hb; simpl in H.
  - injection H as ->. unfold Server.bsite_try in Hb. inv_bind Hb.
    destruct (py_truthy a1).
    + inv_bind Hb. inversion Hb; subst. simpl. lia.
    + destruct (negb _); [discriminate|]. inv_bind Hb.
      destruct (_ && _); [discriminate|].
      now apply bsite_normalize_users in Hb.
  - destruct e; [discriminate|]. injection H as <-. simpl. lia.
Qed.

Lemma index_bsite_users (P : parsers) (w : world) (d : snapshot) :
  ApiIndex.fetch_bsite_data P w = Ok d -> (length (users d) <= 10)%nat.
Proof.
  unfold ApiIndex.fetch_bsite_data. intros H.
  apply try_except_Ok in H as [H|(e & _ & ->)]; [|simpl; lia].
  unfold ApiIndex.bsite_try in H. inv_bind H.
  destruct (py_truthy a1).
  - inv_bind H. inversion H; subst. simpl. lia.
  - now apply bsite_normalize_users in H.
Qed.

Lemma ranks_increasing_nil : ranks_increasing [].
Proof. exists []. split; [reflexivity|constructor]. Qed.

Lemma clash_try_users (now : datetime) (o : outcome) (lu : option datetime)
    (d : snapshot) :
  clash_try now o lu = Ok d ->
  (length (users d) <= 10)%nat /\ ranks_increasing (users d).
Proof.
  intros H.
  destruct (clash_try_inv _ _ _ _ H) as (r & data & su & eom & _ & _ & _ & _ & Hl & _).
  eapply tiered_loop_ranks in Hl; [tauto|].
  intros iu y Hy. now apply clash_entry_rank in Hy.
Qed.

Lemma csbattle_try_users (E : environ) (o : outcome) (lu : option datetime)
    (d : snapshot) :
  csbattle_try E o lu = Ok d ->
  (length (users d) <= 10)%nat /\ ranks_increasing (users d).
Proof.
  intros H. destruct (csbattle_try_inv _ _ _ _ H) as (su & Hl & _).
  eapply tiered_loop_ranks in Hl; [tauto|].
  intros iu y Hy. now apply csbattle_entry_rank in Hy.
Qed.

Lemma skinfans_try_users (P : parsers) (o : outcome) (lu : option datetime)
    (d : snapshot) :
  skinfans_try P o lu = Ok d ->
  (length (users d) <= 10)%nat /\ ranks_increasing (users d).
Proof.
  intros H.
  destruct (skinfans_try_ranks _ _ _ _ H)
    as (? & ? & ? & ? & ? & _ & _ & _ & _ & _ & _ & Hlen & Hinc).
  now split.
Qed.

Lemma no_users_ok : (length (@nil user_entry) <= 10)%nat /\ ranks_increasing [].
Proof. split; [simpl; lia|apply ranks_increasing_nil]. Qed.

(** C3 (counterexample). Provider B's ranks are the provider's: two wagers
    without a [rank] field both come out with rank 0. *)
Lemma bsite_ranks_not_unique :
  exists d,
    Server.fetch_bsite_data no_parsers (sample_world (ok_reply bsite_unranked)) = Ok d
    /\ ApiIndex.fetch_bsite_data no_parsers (sample_world (ok_reply bsite_unranked))
       = Ok (set_last_updated d (at_time 2026 2 15 13 45 11))
    /\ List.map rank (users d) = [JInt 0; JInt 0]
    /\ ~ NoDup (List.map rank (users d))
    /\ ~ ranks_increasing (users d).
Proof.
  eexists. split; [vm_compute; reflexivity|].
  split; [vm_compute; reflexivity|].
  split; [reflexivity|]. split.
  - simpl. intros Hn. apply NoDup_cons in Hn as [Hn _]. apply Hn. left.
  - intros (zs & Hz & Hs). simpl in Hz.
    destruct zs as [|a [|b [|c zs]]]; try discriminate.
    injection Hz as <- <-.
    apply StronglySorted_inv in Hs as [_ Hs].
    apply Forall_cons in Hs as [Hs _]. lia.
Qed.

(** C3 (amended). Every snapshot an adapter returns has at most 10 users.
    For Providers A, C and D the rank values are pairwise distinct and
    strictly increasing.  Provider B copies each rank from the [rank] field
    of the provider's entry (0 when the field is missing), whatever it is. *)
Theorem users_bounded_ranks_increasing (P : parsers) (E : environ) (w : world)
    (d : snapshot) :
  (Server.fetch_clash_data w = Ok d \/ ApiIndex.fetch_clash_data w = Ok d \/
   Server.fetch_csbattle_data E w = Ok d \/ ApiIndex.fetch_csbattle_data E w = Ok d \/
   Server.fetch_skinfans_data P E w = Ok d \/ ApiIndex.fetch_skinfans_data P w = Ok d ->
   (length (users d) <= 10)%nat /\ ranks_increasing (users d))
  /\ (Server.fetch_bsite_data P w = Ok d \/ ApiIndex.fetch_bsite_data P w = Ok d ->
      (length (users d) <= 10)%nat)
  /\ (forall data lu wagers,
        bsite_normalize P data lu = Ok d ->
        py_get data "wagers" (JList []) = Ok (JList wagers) ->
        Forall2 (fun x u => py_get x "rank" (JInt 0) = Ok (rank u))
          (take 10 wagers) (users d)).
Proof.
  split; [|split].
  - intros [H|[H|[H|[H|[H|H]]]]].
    + unfold Server.fetch_clash_data in H.
      destruct (clash_try (t_fetch w) (outbound w) None) eqn:Ht; [|discriminate].
      injection H as ->. eapply clash_try_users; eassumption.
    + apply try_except_Ok in H as [H|(e & _ & ->)]; [|apply no_users_ok].
      eapply clash_try_users; eassumption.
    + unfold Server.fetch_csbattle_data in H.
      destruct (negb _); [injection H as <-; apply no_users_ok|].
      apply try_except_Ok in H as [H|(e & _ & ->)]; [|apply no_users_ok].
      eapply csbattle_try_users; eassumption.
    + apply try_except_Ok in H as [H|(e & _ & ->)]; [|apply no_users_ok].
      eapply csbattle_try_users; eassumption.
    + unfold Server.fetch_skinfans_data in H.
      destruct (negb _); [injection H as <-; apply no_users_ok|].
      apply try_except_Ok in H as [H|(e & _ & ->)]; [|apply no_users_ok].
      eapply skinfans_try_users; eassumption.
    + apply try_except_Ok in H as [H|(e & _ & ->)]; [|apply no_users_ok].
      eapply skinfans_try_users; eassumption.
  - intros [H|H]; [eapply server_bsite_users|eapply index_bsite_users]; eassumption.
  - intros data lu wagers H.
    exact (proj2 (bsite_normalize_users P data lu d H) wagers).
Qed.

(** The three sample places of Provider D: two users, ranks increasing. *)
Lemma users_bounded_ranks_increasing_witness :
  exists d,
    Server.fetch_skinfans_data no_parsers default_environ
      (sample_world (ok_reply skinfans_three_places)) = Ok d
    /\ (length (users d) <= 10)%nat /\ ranks_increasing (users d).
Proof.
  eexists. split; [vm_compute; reflexivity|].
  apply (users_bounded_ranks_increasing no_parsers default_environ
           (sample_world (ok_reply skinfans_three_places))).
  do 4 right. left. vm_compute. reflexivity.
Defined.

(** ** Floats: the nearest double and rounding to two decimals *)

Lemma round_half_even_bounds (x : Q) :
  Qfloor x <= round_half_even x <= Qfloor x + 1.
Proof.
  unfold round_half_even.
  destruct (x - inject_Z (Qfloor x) ?= 1 # 2)%Q; [destruct (Z.even _)| |]; lia.
Qed.

Lemma round_half_even_mono (x y : Q) :
  (x <= y)%Q -> round_half_even x <= round_half_even y.
Proof.
  intros Hxy.
  pose proof (Qfloor_resp_le _ _ Hxy) as Hf.
  destruct (Z.eq_dec (Qfloor x) (Qfloor y)) as [Heq|Hne].
  - unfold round_half_even. rewrite <- Heq.
    assert (Hr : (x - inject_Z (Qfloor x) <= y - inject_Z (Qfloor x))%Q).
    { apply Qplus_le_l. exact Hxy. }
    destruct (Qcompare_spec (x - inject_Z (Qfloor x)) (1 # 2)) as [Hx|Hx|Hx];
      destruct (Qcompare_spec (y - inject_Z (Qfloor x)) (1 # 2)) as [Hy|Hy|Hy];
      try (destruct (Z.even (Qfloor x)); lia); exfalso; lra.
  - pose proof (round_half_even_bounds x). pose proof (round_half_even_bounds y).
    lia.
Qed.

#[global] Instance round_half_even_proper : Proper (Qeq ==> eq) round_half_even.
Proof.
  intros x y Hxy. apply Z.le_antisymm; apply round_half_even_mono; rewrite Hxy; apply Qle_refl.
Qed.

Lemma round_half_even_int (z : Z) : round_half_even (inject_Z z) = z.
Proof.
  unfold round_half_even. rewrite Qfloor_Z.
  assert (Hc : (inject_Z z - inject_Z z ?= 1 # 2)%Q = Lt).
  { apply (proj1 (Qlt_alt _ _)). lra. }
  now rewrite Hc.
Qed.

(** *** Powers of two *)

Lemma pow2_pos (k : Z) : (0 < 2 ^ k)%Q.
Proof. apply Qpower_0_lt. reflexivity. Qed.

Lemma pow2_add (j k : Z) : (2 ^ (j + k) == 2 ^ j * 2 ^ k)%Q.
Proof. apply Qpower_plus. discriminate. Qed.

Lemma pow2_le (j k : Z) : j <= k -> (2 ^ j <= 2 ^ k)%Q.
Proof. intros H. apply Qpower_le_compat_l; [exact H|discriminate]. Qed.

Lemma pow2_Z (k : Z) : 0 <= k -> (2 ^ k == inject_Z (2 ^ k))%Q.
Proof. intros H. now rewrite (Zpower_Qpower 2 k H). Qed.

Lemma pow2_cancel (k : Z) : (2 ^ (- k) * 2 ^ k == 1)%Q.
Proof. rewrite <- pow2_add. now replace (- k + k) with 0 by lia. Qed.

Lemma scale_back (a : Q) (k : Z) : (a * 2 ^ (- k) * 2 ^ k == a)%Q.
Proof. rewrite <- Qmult_assoc, pow2_cancel. ring. Qed.

(** *** The exponent of the last place *)

#[global] Instance ulp_exp_proper : Proper (Qeq ==> eq) ulp_exp.
Proof. intros x y Hxy. unfold ulp_exp. now rewrite Hxy. Qed.

Lemma ulp_exp_mono (a b : Q) : (a <= b)%Q -> ulp_exp a <= ulp_exp b.
Proof.
  intros Hab. unfold ulp_exp.
  assert (Qfloor (a * 2 ^ 1127) <= Qfloor (b * 2 ^ 1127)).
  { apply Qfloor_resp_le. apply Qmult_le_compat_r; [exact Hab|]. apply Qlt_le_weak, pow2_pos. }
  pose proof (Z.log2_le_mono _ _ H). lia.
Qed.

Lemma ulp_exp_min (a : Q) : -1074 <= ulp_exp a.
Proof. unfold ulp_exp. lia. Qed.

Lemma ulp_exp_upper (a : Q) : (a < 2 ^ (ulp_exp a + 53))%Q.
Proof.
  set (n := Qfloor (a * 2 ^ 1127)).
  assert (Hn : n + 1 <= 2 ^ (Z.log2 n + 1)).
  { destruct (Z.le_gt_cases n 0) as [Hle|Hgt].
    - rewrite (Z.log2_nonpos n Hle). simpl. lia.
    - pose proof (Z.log2_spec n Hgt). lia. }
  assert (Hu : Z.log2 n + 1 <= ulp_exp a + 53 + 1127).
  { unfold ulp_exp. fold n. lia. }
  assert (Ha : (a * 2 ^ 1127 < 2 ^ (ulp_exp a + 53 + 1127))%Q).
  { eapply Qlt_le_trans; [apply (Qlt_floor (a * 2 ^ 1127))|]. fold n.
    eapply Qle_trans; [|apply (pow2_le _ _ Hu)].
    rewrite pow2_Z by (pose proof (Z.log2_nonneg n); lia).
    rewrite <- Zle_Qle. exact Hn. }
  rewrite pow2_add in Ha.
  apply Qmult_lt_r in Ha; [exact Ha|apply pow2_pos].
Qed.

Lemma ulp_exp_lower (a : Q) : -1074 < ulp_exp a -> (2 ^ (ulp_exp a + 52) <= a)%Q.
Proof.
  intros Hu.
  set (n := Qfloor (a * 2 ^ 1127)).
  assert (Hl : ulp_exp a = Z.log2 n - 1179) by (unfold ulp_exp in *; fold n in Hu |- *; lia).
  assert (Hn : 0 < n).
  { destruct (Z.le_gt_cases n 0) as [Hle|Hgt]; [|lia].
    rewrite (Z.log2_nonpos n Hle) in Hl. lia. }
  pose proof (Z.log2_spec n Hn) as [Hlo _].
  assert (Ha : (2 ^ (ulp_exp a + 52 + 1127) <= a * 2 ^ 1127)%Q).
  { eapply Qle_trans; [|apply (Qfloor_le (a * 2 ^ 1127))]. fold n.
    replace (ulp_exp a + 52 + 1127) with (Z.log2 n) by lia.
    rewrite pow2_Z by apply Z.log2_nonneg.
    rewrite <- Zle_Qle. exact Hlo. }
  rewrite pow2_add in Ha.
  apply Qmult_le_r in Ha; [exact Ha|apply pow2_pos].
Qed.

(** *** Rounding to the nearest double *)

#[global] Instance nearest_pos_proper : Proper (Qeq ==> Qeq) nearest_pos.
Proof. intros x y Hxy. unfold nearest_pos. now rewrite Hxy. Qed.

Lemma nearest_pos_nonneg (a : Q) : (0 <= a)%Q -> (0 <= nearest_pos a)%Q.
Proof.
  intros Ha. unfold nearest_pos.
  apply Qmult_le_0_compat; [|apply Qlt_le_weak, pow2_pos].
  change 0%Q with (inject_Z 0). rewrite <- Zle_Qle.
  rewrite <- (round_half_even_int 0). apply round_half_even_mono.
  apply Qmult_le_0_compat; [exact Ha|apply Qlt_le_weak, pow2_pos].
Qed.

Lemma nearest_pos_upper (a : Q) : (nearest_pos a <= 2 ^ (ulp_exp a + 53))%Q.
Proof.
  unfold nearest_pos. rewrite pow2_add, (Qmult_comm (2 ^ ulp_exp a)).
  apply Qmult_le_compat_r; [|apply Qlt_le_weak, pow2_pos].
  rewrite (pow2_Z 53) by lia. rewrite <- Zle_Qle.
  rewrite <- (round_half_even_int (2 ^ 53)). apply round_half_even_mono.
  rewrite <- (pow2_Z 53) by lia.
  apply Qlt_le_weak.
  apply (Qmult_lt_r _ _ (2 ^ ulp_exp a)); [apply pow2_pos|].
  rewrite scale_back, <- pow2_add, Z.add_comm. apply ulp_exp_upper.
Qed.

Lemma nearest_pos_lower (a : Q) :
  -1074 < ulp_exp a -> (2 ^ (ulp_exp a + 52) <= nearest_pos a)%Q.
Proof.
  intros Hu. unfold nearest_pos. rewrite pow2_add, (Qmult_comm (2 ^ ulp_exp a)).
  apply Qmult_le_compat_r; [|apply Qlt_le_weak, pow2_pos].
  rewrite (pow2_Z 52) by lia. rewrite <- Zle_Qle.
  rewrite <- (round_half_even_int (2 ^ 52)). apply round_half_even_mono.
  rewrite <- (pow2_Z 52) by lia.
  apply (Qmult_le_r _ _ (2 ^ ulp_exp a)); [apply pow2_pos|].
  rewrite scale_back, <- pow2_add, Z.add_comm. now apply ulp_exp_lower.
Qed.

Lemma nearest_pos_mono (a b : Q) :
  (a <= b)%Q -> (nearest_pos a <= nearest_pos b)%Q.
Proof.
  intros Hab.
  pose proof (ulp_exp_mono a b Hab) as Hu.
  destruct (Z.eq_dec (ulp_exp a) (ulp_exp b)) as [Heq|Hne].
  - unfold nearest_pos. rewrite Heq.
    apply Qmult_le_compat_r; [|apply Qlt_le_weak, pow2_pos].
    rewrite <- Zle_Qle. apply round_half_even_mono.
    apply Qmult_le_compat_r; [exact Hab|apply Qlt_le_weak, pow2_pos].
  - pose proof (ulp_exp_min a).
    eapply Qle_trans; [apply nearest_pos_upper|].
    eapply Qle_trans; [|apply nearest_pos_lower; lia].
    apply pow2_le. lia.
Qed.

Lemma to_double_eq (q : Q) :
  (to_double q == if Qle_bool 0 q then nearest_pos q else - nearest_pos (- q))%Q.
Proof. unfold to_double. apply Qred_correct. Qed.

#[global] Instance to_double_proper : Proper (Qeq ==> eq) to_double.
Proof.
  intros x y Hxy. unfold to_double. apply Qred_complete.
  assert (Hb : Qle_bool 0 x = Qle_bool 0 y).
  { apply eq_true_iff_eq. rewrite !Qle_bool_iff. now rewrite Hxy. }
  rewrite Hb. destruct (Qle_bool 0 y); now rewrite Hxy.
Qed.

#[global] Instance to_double_proper_Qeq : Proper (Qeq ==> Qeq) to_double.
Proof. intros x y Hxy. now rewrite (to_double_proper x y Hxy). Qed.

Lemma to_double_nonneg (q : Q) : (0 <= q)%Q -> (to_double q == nearest_pos q)%Q.
Proof.
  intros H. rewrite to_double_eq. apply Qle_bool_iff in H. now rewrite H.
Qed.

Lemma to_double_neg (q : Q) : (q < 0)%Q -> (to_double q == - nearest_pos (- q))%Q.
Proof.
  intros H. rewrite to_double_eq.
  destruct (Qle_bool 0 q) eqn:Hb; [|reflexivity].
  apply Qle_bool_iff in Hb. lra.
Qed.

Lemma to_double_mono (x y : Q) : (x <= y)%Q -> (to_double x <= to_double y)%Q.
Proof.
  intros Hxy.
  destruct (Qlt_le_dec x 0) as [Hx|Hx]; destruct (Qlt_le_dec y 0) as [Hy|Hy].
  - rewrite (to_double_neg x Hx), (to_double_neg y Hy).
    apply Qopp_le_compat. apply nearest_pos_mono. lra.
  - rewrite (to_double_neg x Hx), (to_double_nonneg y Hy).
    pose proof (nearest_pos_nonneg (- x)). pose proof (nearest_pos_nonneg y). lra.
  - lra.
  - rewrite (to_double_nonneg x Hx), (to_double_nonneg y Hy). now apply nearest_pos_mono.
Qed.

Lemma nearest_pos_zero : (nearest_pos 0 == 0)%Q.
Proof. reflexivity. Qed.

Lemma to_double_opp (q : Q) : (to_double (- q) == - to_double q)%Q.
Proof.
  destruct (Qlt_le_dec q 0) as [Hq|Hq].
  - rewrite (to_double_neg q Hq), to_double_nonneg by lra. ring.
  - destruct (Qlt_le_dec 0 q) as [Hp|Hz].
    + rewrite (to_double_nonneg q Hq), to_double_neg by lra.
      now rewrite Qopp_involutive.
    + assert (Hq0 : (q == 0)%Q) by lra.
      rewrite Hq0. reflexivity.
Qed.

(** A mantissa of at most 53 bits over an exponent of at least -1074 is a
    double: rounding leaves it as it is. *)
Lemma nearest_pos_exact_lt (m u : Z) :
  0 <= m < 2 ^ 53 -> -1074 <= u ->
  (nearest_pos (inject_Z m * 2 ^ u) == inject_Z m * 2 ^ u)%Q.
Proof.
  intros Hm Hu.
  set (r := (inject_Z m * 2 ^ u)%Q).
  assert (Hfl : Qfloor (r * 2 ^ 1127) = m * 2 ^ (u + 1127)).
  { assert (He : (r * 2 ^ 1127 == inject_Z (m * 2 ^ (u + 1127)))%Q).
    { unfold r. rewrite inject_Z_mult, <- (pow2_Z (u + 1127)) by lia.
      rewrite pow2_add. ring. }
    rewrite He. apply Qfloor_Z. }
  assert (Hu' : ulp_exp r <= u).
  { unfold ulp_exp. rewrite Hfl.
    destruct (Z.eq_dec m 0) as [->|Hm0].
    - rewrite Z.mul_0_l. simpl. lia.
    - rewrite Z.log2_mul_pow2 by lia.
      assert (Z.log2 m < 53) by (apply Z.log2_lt_pow2; lia). lia. }
  unfold nearest_pos. set (u' := ulp_exp r) in *.
  assert (Hs : (r * 2 ^ (- u') == inject_Z (m * 2 ^ (u - u')))%Q).
  { unfold r. rewrite inject_Z_mult, <- (pow2_Z (u - u')) by lia.
    rewrite <- Qmult_assoc, <- pow2_add. now replace (u + - u') with (u - u') by lia. }
  rewrite Hs, round_half_even_int.
  rewrite inject_Z_mult, <- (pow2_Z (u - u')) by lia.
  rewrite <- Qmult_assoc, <- pow2_add.
  unfold r. now replace (u - u' + u') with u by lia.
Qed.

Lemma nearest_pos_exact (m u : Z) :
  0 <= m <= 2 ^ 53 -> -1074 <= u ->
  (nearest_pos (inject_Z m * 2 ^ u) == inject_Z m * 2 ^ u)%Q.
Proof.
  intros Hm Hu.
  destruct (Z.eq_dec m (2 ^ 53)) as [->|Hne].
  - assert (He : (inject_Z (2 ^ 53) * 2 ^ u == inject_Z (2 ^ 52) * 2 ^ (u + 1))%Q).
    { rewrite pow2_add. change (inject_Z (2 ^ 53)) with (inject_Z (2 ^ 52) * 2)%Q.
      change (2 ^ 1)%Q with 2%Q. ring. }
    rewrite He. apply nearest_pos_exact_lt; lia.
  - apply nearest_pos_exact_lt; lia.
Qed.

Lemma mantissa_bounds (a : Q) :
  (0 <= a)%Q -> 0 <= round_half_even (a * 2 ^ (- ulp_exp a)) <= 2 ^ 53.
Proof.
  intros Ha. split.
  - rewrite <- (round_half_even_int 0) at 1. apply round_half_even_mono.
    apply Qmult_le_0_compat; [exact Ha|apply Qlt_le_weak, pow2_pos].
  - rewrite <- (round_half_even_int (2 ^ 53)). apply round_half_even_mono.
    rewrite <- (pow2_Z 53) by lia.
    apply Qlt_le_weak.
    apply (Qmult_lt_r _ _ (2 ^ ulp_exp a)); [apply pow2_pos|].
    rewrite scale_back, <- pow2_add, Z.add_comm. apply ulp_exp_upper.
Qed.

Lemma nearest_pos_idem (a : Q) :
  (0 <= a)%Q -> (nearest_pos (nearest_pos a) == nearest_pos a)%Q.
Proof.
  intros Ha. unfold nearest_pos at 2 3.
  apply nearest_pos_exact; [now apply mantissa_bounds|apply ulp_exp_min].
Qed.

Lemma to_double_canonical (q : Q) : Qred (to_double q) = to_double q.
Proof. unfold to_double. apply Qred_complete, Qred_correct. Qed.

Lemma to_double_idem (q : Q) : to_double (to_double q) = to_double q.
Proof.
  transitivity (Qred (to_double (to_double q))); [symmetry; apply to_double_canonical|].
  transitivity (Qred (to_double q)); [|apply to_double_canonical].
  apply Qred_complete.
  destruct (Qlt_le_dec q 0) as [Hq|Hq].
  - rewrite (to_double_neg q Hq), to_double_opp.
    pose proof (nearest_pos_nonneg (- q)) as Hn.
    rewrite to_double_nonneg by (apply Hn; lra).
    rewrite nearest_pos_idem by lra. reflexivity.
  - pose proof (nearest_pos_nonneg q Hq) as Hn.
    rewrite (to_double_nonneg q Hq), (to_double_nonneg _ Hn), nearest_pos_idem by exact Hq.
    reflexivity.
Qed.

Lemma to_double_int (z : Z) :
  - 2 ^ 53 <= z <= 2 ^ 53 -> (to_double (inject_Z z) == inject_Z z)%Q.
Proof.
  intros Hz.
  assert (Hp : forall n, 0 <= n <= 2 ^ 53 -> (to_double (inject_Z n) == inject_Z n)%Q).
  { intros n Hn. rewrite to_double_nonneg by (change 0%Q with (inject_Z 0); rewrite <- Zle_Qle; lia).
    pose proof (nearest_pos_exact n 0 Hn ltac:(lia)) as He.
    change (2 ^ 0)%Q with 1%Q in He. rewrite Qmult_1_r in He. exact He. }
  destruct (Z.le_gt_cases 0 z) as [Hz0|Hz0].
  - apply Hp. lia.
  - replace z with (- (- z)) by lia. rewrite inject_Z_opp, to_double_opp.
    rewrite Hp by lia. reflexivity.
Qed.

(** From 2^53 on every double is an integer. *)
Lemma nearest_pos_large (a : Q) :
  (0 <= a)%Q -> (2 ^ 53 <= nearest_pos a)%Q -> exists z, (nearest_pos a == inject_Z z)%Q.
Proof.
  intros Ha Hl.
  pose proof (mantissa_bounds a Ha) as [Hm0 Hm].
  destruct (Z.le_gt_cases 0 (ulp_exp a)) as [Hu|Hu].
  - exists (round_half_even (a * 2 ^ (- ulp_exp a)) * 2 ^ ulp_exp a).
    unfold nearest_pos. rewrite inject_Z_mult, <- (pow2_Z (ulp_exp a)) by lia. reflexivity.
  - exfalso. unfold nearest_pos in Hl.
    assert (H1 : (inject_Z (round_half_even (a * 2 ^ (- ulp_exp a))) * 2 ^ ulp_exp a
                  <= 2 ^ 53 * 2 ^ ulp_exp a)%Q).
    { apply Qmult_le_compat_r; [|apply Qlt_le_weak, pow2_pos].
      rewrite (pow2_Z 53) by lia. now rewrite <- Zle_Qle. }
    assert (H2 : (2 ^ 53 * 2 ^ ulp_exp a < 2 ^ 53)%Q).
    { rewrite <- pow2_add. apply Qpower_lt_compat_l; [lia|reflexivity]. }
    lra.
Qed.

Lemma to_double_large (q : Q) :
  (2 ^ 53 <= to_double q \/ to_double q <= - 2 ^ 53)%Q ->
  exists z, (to_double q == inject_Z z)%Q.
Proof.
  intros H. assert (Hp : (0 < 2 ^ 53)%Q) by apply pow2_pos.
  destruct (Qlt_le_dec q 0) as [Hq|Hq].
  - pose proof (to_double_neg q Hq) as He.
    pose proof (nearest_pos_nonneg (- q)) as Hn.
    destruct (nearest_pos_large (- q)) as [z Hz]; [lra| |].
    + destruct H as [H|H]; lra.
    + exists (- z). rewrite He, Hz, inject_Z_opp. reflexivity.
  - pose proof (to_double_nonneg q Hq) as He.
    pose proof (nearest_pos_nonneg q Hq) as Hn.
    destruct (nearest_pos_large q Hq) as [z Hz].
    + destruct H as [H|H]; lra.
    + exists z. now rewrite He.
Qed.

(** *** [round(x, 2)] on a float *)

#[global] Instance round_decimal2_proper : Proper (Qeq ==> eq) round_decimal2.
Proof. intros x y Hxy. unfold round_decimal2. now rewrite Hxy. Qed.

#[global] Instance round_decimal2_proper_Qeq : Proper (Qeq ==> Qeq) round_decimal2.
Proof. intros x y Hxy. now rewrite (round_decimal2_proper x y Hxy). Qed.

Lemma round_decimal2_mono (x y : Q) :
  (x <= y)%Q -> (round_decimal2 x <= round_decimal2 y)%Q.
Proof.
  intros Hxy. unfold round_decimal2.
  assert (H : round_half_even (x * inject_Z 100) <= round_half_even (y * inject_Z 100)).
  { apply round_half_even_mono. apply Qmult_le_compat_r; [exact Hxy|]. discriminate. }
  unfold Qle; simpl. lia.
Qed.

Lemma round_decimal2_int (z : Z) : (round_decimal2 (inject_Z z) == inject_Z z)%Q.
Proof.
  unfold round_decimal2.
  rewrite <- inject_Z_mult, round_half_even_int.
  unfold Qeq, inject_Z; simpl. lia.
Qed.

Lemma round2_mono (x y : Q) :
  (to_double x <= to_double y)%Q -> (round2 x <= round2 y)%Q.
Proof. intros H. unfold round2. now apply to_double_mono, round_decimal2_mono. Qed.

Lemma round2_is_double (q : Q) : to_double (round2 q) = round2 q.
Proof. unfold round2. apply to_double_idem. Qed.

Lemma round2_of_int (z : Z) :
  (to_double (inject_Z z) == inject_Z z)%Q ->
  (to_double (round_decimal2 (inject_Z z)) == inject_Z z)%Q.
Proof. intros H. now rewrite round_decimal2_int. Qed.

Lemma round2_large (q : Q) :
  (2 ^ 53 <= to_double q \/ to_double q <= - 2 ^ 53)%Q -> (round2 q == to_double q)%Q.
Proof.
  intros H. destruct (to_double_large q H) as [z Hz].
  unfold round2. rewrite Hz, round_decimal2_int, <- Hz. now rewrite to_double_idem.
Qed.

Lemma round2_ge_int (z : Z) (q : Q) :
  (inject_Z z <= to_double q)%Q -> (inject_Z z <= round2 q)%Q.
Proof.
  intros Hz.
  destruct (Qlt_le_dec (to_double q) (2 ^ 53)) as [Hlt|Hge];
    [destruct (Qlt_le_dec (- 2 ^ 53) (to_double q)) as [Hgt|Hle]|].
  - set (z' := Z.max z (- 2 ^ 53)).
    assert (Hz' : (inject_Z z' <= to_double q)%Q).
    { unfold z'. destruct (Z.max_spec z (- 2 ^ 53)) as [[_ ->]|[_ ->]]; [|exact Hz].
      apply Qlt_le_weak. exact Hgt. }
    assert (Hb : - 2 ^ 53 <= z' <= 2 ^ 53).
    { split; [unfold z'; lia|].
      apply Qlt_le_weak in Hlt. rewrite (pow2_Z 53) in Hlt by lia.
      rewrite Zle_Qle. exact (Qle_trans _ _ _ Hz' Hlt). }
    eapply Qle_trans; [|unfold round2; apply to_double_mono, round_decimal2_mono, Hz'].
    rewrite round_decimal2_int, (to_double_int z' Hb).
    rewrite <- Zle_Qle. unfold z'. lia.
  - rewrite round2_large by (right; exact Hle). exact Hz.
  - rewrite round2_large by (left; exact Hge). exact Hz.
Qed.

Lemma round2_le_int (z : Z) (q : Q) :
  (to_double q <= inject_Z z)%Q -> (round2 q <= inject_Z z)%Q.
Proof.
  intros Hz.
  destruct (Qlt_le_dec (to_double q) (2 ^ 53)) as [Hlt|Hge];
    [destruct (Qlt_le_dec (- 2 ^ 53) (to_double q)) as [Hgt|Hle]|].
  - set (z' := Z.min z (2 ^ 53)).
    assert (Hz' : (to_double q <= inject_Z z')%Q).
    { unfold z'. destruct (Z.min_spec z (2 ^ 53)) as [[_ ->]|[_ ->]]; [exact Hz|].
      apply Qlt_le_weak. rewrite <- (pow2_Z 53) by lia. exact Hlt. }
    assert (Hb : - 2 ^ 53 <= z' <= 2 ^ 53).
    { split; [|unfold z'; lia].
      apply Qlt_le_weak in Hgt. rewrite (pow2_Z 53) in Hgt by lia.
      rewrite <- inject_Z_opp in Hgt.
      rewrite Zle_Qle. exact (Qle_trans _ _ _ Hgt Hz'). }
    eapply Qle_trans; [unfold round2; apply to_double_mono, round_decimal2_mono, Hz'|].
    rewrite round_decimal2_int, (to_double_int z' Hb).
    rewrite <- Zle_Qle. unfold z'. lia.
  - rewrite round2_large by (right; exact Hle). exact Hz.
  - rewrite round2_large by (left; exact Hge). exact Hz.
Qed.

(** The doubles read from a few numbers: 0.1 is not a double, 0.5 is, and
    above [2^53] only every other integer is. *)
Example to_double_samples :
  to_double (1 # 10) = (3602879701896397 # 36028797018963968)%Q /\
  to_double (1 # 2) = (1 # 2)%Q /\
  to_double (inject_Z (2 ^ 53 + 1)) = inject_Z (2 ^ 53) /\
  to_double (inject_Z (2 ^ 53 + 3)) = inject_Z (2 ^ 53 + 4) /\
  to_double (2675 # 1000) = (3011782250804019 # 1125899906842624)%Q.
Proof. repeat split; vm_compute; reflexivity. Qed.

(** [round(x, 2)] at the decimals that lie half way between two neighbours
    when read exactly, but not as doubles. *)
Example round2_of_near_ties :
  round2 (2675 # 1000) = to_double (267 # 100) /\
  round2 (2665 # 1000) = to_double (267 # 100) /\
  round2 (1015 # 1000) = to_double (101 # 100) /\
  round2 (- 2675 # 1000) = to_double (- 267 # 100) /\
  round2 (1 # 8) = to_double (12 # 100) /\
  to_double (267 # 100) <> to_double (268 # 100).
Proof. repeat split; try (vm_compute; reflexivity). vm_compute. discriminate. Qed.

Lemma round_half_even_near (x : Q) :
  (Qabs (inject_Z (round_half_even x) - x) <= 1 # 2)%Q.
Proof.
  apply Qabs_Qle_condition.
  pose proof (Qfloor_le x) as Hlo. pose proof (Qlt_floor x) as Hhi.
  rewrite inject_Z_plus in Hhi. change (inject_Z 1) with 1%Q in Hhi.
  unfold round_half_even.
  destruct (Qcompare_spec (x - inject_Z (Qfloor x)) (1 # 2)) as [He|Hl|Hg];
    [destruct (Z.even (Qfloor x))| |];
    rewrite ?inject_Z_plus; change (inject_Z 1) with 1%Q; split; lra.
Qed.

Lemma round_decimal2_near (x : Q) :
  exists k : Z, round_decimal2 x = k # 100 /\ (Qabs ((k # 100) - x) <= 1 # 200)%Q.
Proof.
  exists (round_half_even (x * inject_Z 100)). split; [reflexivity|].
  pose proof (round_half_even_near (x * inject_Z 100)) as H.
  apply Qabs_Qle_condition in H. apply Qabs_Qle_condition.
  set (k := round_half_even (x * inject_Z 100)) in *.
  assert (Hk : (k # 100 == inject_Z k * (1 # 100))%Q).
  { unfold Qeq, Qmult, inject_Z; simpl. lia. }
  rewrite Hk. change (inject_Z 100) with 100%Q in H. split; lra.
Qed.

Lemma py_round2_cents (v w : json) : py_round2 v = Ok w -> rounded_to_cents v w.
Proof.
  destruct v as [|b|z|q| | |]; simpl; intros H; try discriminate;
    injection H as <-; try reflexivity.
  destruct (round_decimal2_near (to_double q)) as (k & Hk & Hnear).
  exists k. split; [|exact Hnear]. unfold round2. now rewrite Hk.
Qed.

(** What [round(v, 2)] returns carries the value the order of the output is
    judged by: the number itself for an [int], the rounded double for a
    [float]. *)
Lemma py_round2_value (v w : json) :
  py_round2 v = Ok w ->
  (exists z, num_val v = Some (inject_Z z) /\ num_val w = Some (inject_Z z)) \/
  (exists q, num_val v = Some (to_double q) /\ num_val w = Some (round2 q)).
Proof.
  destruct v as [|b|z|q| | |]; simpl; intros H; try discriminate;
    injection H as <-; cbn [num_val].
  - left. eexists. split; reflexivity.
  - left. eexists. split; reflexivity.
  - right. exists q. split; [reflexivity|]. now rewrite round2_is_double.
Qed.

(** Rounding keeps the order of the wagers, also between an [int] and a
    [float]. *)
Lemma py_round2_order (v1 v2 w1 w2 : json) (k1 k2 : Q) :
  num_val v1 = Some k1 -> num_val v2 = Some k2 -> (k2 <= k1)%Q ->
  py_round2 v1 = Ok w1 -> py_round2 v2 = Ok w2 ->
  (default 0%Q (num_val w2) <= default 0%Q (num_val w1))%Q.
Proof.
  intros Hk1 Hk2 Hle Hr1 Hr2.
  destruct (py_round2_value v1 w1 Hr1) as [(z1 & Hv1 & ->)|(q1 & Hv1 & ->)];
    destruct (py_round2_value v2 w2 Hr2) as [(z2 & Hv2 & ->)|(q2 & Hv2 & ->)];
    rewrite Hk1 in Hv1; rewrite Hk2 in Hv2;
    injection Hv1 as ->; injection Hv2 as ->; cbn [default]; unfold id.
  - exact Hle.
  - now apply round2_le_int.
  - now apply round2_ge_int.
  - now apply round2_mono.
Qed.

(** ** Sorting by wager, descending *)

Lemma insert_desc_perm (x : Q * json) (l : list (Q * json)) :
  Permutation (insert_desc x l) (x :: l).
Proof.
  induction l as [|y l IH]; simpl; [reflexivity|].
  destruct (Qle_bool (fst y) (fst x)); [reflexivity|].
  rewrite IH. apply perm_swap.
Qed.

Lemma sort_desc_perm (l : list (Q * json)) : Permutation (sort_desc l) l.
Proof.
  induction l as [|x l IH]; simpl; [reflexivity|].
  rewrite insert_desc_perm. now rewrite IH.
Qed.

Lemma insert_desc_sorted (x : Q * json) (l : list (Q * json)) :
  StronglySorted pair_desc l -> StronglySorted pair_desc (insert_desc x l).
Proof.
  induction l as [|y l IH]; intros Hs; simpl.
  - repeat constructor.
  - apply StronglySorted_inv in Hs as [Hs Hy].
    destruct (Qle_bool (fst y) (fst x)) eqn:Hc.
    + apply Qle_bool_iff in Hc.
      constructor; [constructor; assumption|].
      constructor; [exact Hc|].
      eapply Forall_impl; [exact Hy|]. unfold pair_desc. intros z Hz.
      eapply Qle_trans; eassumption.
    + assert (Hlt : (fst x < fst y)%Q).
      { apply Qnot_le_lt. intros Hle. apply Qle_bool_iff in Hle. congruence. }
      constructor; [auto|].
      eapply Permutation_Forall; [symmetry; apply insert_desc_perm|].
      constructor; [|exact Hy]. unfold pair_desc. now apply Qlt_le_weak.
Qed.

Lemma sort_desc_sorted (l : list (Q * json)) : StronglySorted pair_desc (sort_desc l).
Proof.
  induction l as [|x l IH]; simpl; [constructor|].
  now apply insert_desc_sorted.
Qed.

Lemma strongly_sorted_transfer {A B} (R : A -> A -> Prop) (R' : B -> B -> Prop)
    (T : A -> B -> Prop) (l : list A) (l' : list B) :
  (forall a b a' b', R a b -> T a a' -> T b b' -> R' a' b') ->
  Forall2 T l l' -> StronglySorted R l -> StronglySorted R' l'.
Proof.
  intros HT H2. induction H2 as [|a a' l l' Ha H2 IH]; intros Hs.
  - constructor.
  - apply StronglySorted_inv in Hs as [Hs Hall].
    constructor; [auto|].
    clear IH Hs. induction H2 as [|b b' l l' Hb H2 IH]; [constructor|].
    apply Forall_cons in Hall as [Hab Hall].
    constructor; [eapply HT; eassumption|auto].
Qed.

Lemma strongly_sorted_take {A} (R : A -> A -> Prop) (n : nat) (l : list A) :
  StronglySorted R l -> StronglySorted R (take n l).
Proof.
  intros Hs. revert n. induction Hs as [|x l Hs IH Hx]; intros [|n]; simpl;
    try constructor; auto.
  apply Forall_take. exact Hx.
Qed.

Lemma keys_numeric (key : string) (l : list json) :
  Forall (fun x => wager_key key x <> None) l ->
  exists ks qs,
    for_each (fun x => py_get x key (JInt 0)) l = Ok ks /\
    all_num ks = Some qs /\
    Forall2 (fun q x => wager_key key x = Some q) qs l.
Proof.
  induction 1 as [|x l Hx _ (ks & qs & Hk & Hq & H2)].
  - exists [], []. repeat split; constructor.
  - unfold wager_key in Hx.
    destruct (py_get x key (JInt 0)) as [v|e] eqn:Hv; [|done].
    destruct (num_val v) as [q|] eqn:Hn; [|done].
    exists (v :: ks), (q :: qs). simpl. rewrite Hv. simpl. rewrite Hk. simpl.
    rewrite Hn, Hq. repeat split.
    constructor; [|exact H2]. unfold wager_key. now rewrite Hv.
Qed.

Lemma snd_combine_Forall2 {A B} (T : A -> B -> Prop) (qs : list A) (l : list B) :
  Forall2 T qs l ->
  List.map snd (combine qs l) = l /\
  Forall (fun p => T (fst p) (snd p)) (combine qs l).
Proof.
  induction 1 as [|q x qs l Hqx _ [IH1 IH2]]; simpl.
  - split; [reflexivity|constructor].
  - split; [now f_equal|]. constructor; assumption.
Qed.

(** On a list of entries with numeric keys the sort succeeds, permutes its
    input and puts the larger wager first. *)
Lemma py_sorted_desc_numeric (key : string) (l : list json) :
  Forall (fun x => wager_key key x <> None) l ->
  exists sorted_users,
    py_sorted_desc (JList l) key = Ok sorted_users /\
    Permutation sorted_users l /\
    StronglySorted (desc_by_wager key) sorted_users /\
    Forall (fun x => wager_key key x <> None) sorted_users.
Proof.
  intros Hl. destruct (keys_numeric key l Hl) as (ks & qs & Hk & Hq & H2).
  destruct (snd_combine_Forall2 _ _ _ H2) as [Hsnd Hinv].
  set (ps := sort_desc (combine qs l)).
  assert (Hperm : Permutation (List.map snd ps) l).
  { transitivity (List.map snd (combine qs l)); [|now rewrite Hsnd].
    apply Permutation_map, sort_desc_perm. }
  assert (Hinv' : Forall (fun p => wager_key key (snd p) = Some (fst p)) ps).
  { eapply Permutation_Forall; [symmetry; apply sort_desc_perm|exact Hinv]. }
  exists (List.map snd ps). unfold py_sorted_desc. simpl. rewrite Hk. simpl.
  rewrite Hq. repeat split; [exact Hperm| |].
  - pose proof (sort_desc_sorted (combine qs l)) as Hs. fold ps in Hs.
    clear -Hs Hinv'. induction Hs as [|p ps Hs IH Hp]; simpl; [constructor|].
    apply Forall_cons in Hinv' as [Hp' Hinv'].
    constructor; [auto|].
    clear IH Hs. induction ps as [|p2 ps IH]; simpl; [constructor|].
    apply Forall_cons in Hp as [Hpp Hp].
    apply Forall_cons in Hinv' as [Hp2 Hinv'].
    constructor; [|auto].
    unfold desc_by_wager, wager_of. rewrite Hp', Hp2. exact Hpp.
  - eapply Permutation_Forall; [symmetry; exact Hperm|exact Hl].
Qed.

(** ** Provider A: top ten *)

Lemma clash_entry_numeric (i : nat) (x : json) :
  wager_key "wagered" x <> None ->
  exists u, clash_entry (i, x) = Ok u /\
    (exists v, py_get x "wagered" (JInt 0) = Ok v /\ py_round2 v = Ok (wagered u) /\
               rounded_to_cents v (wagered u)) /\
    exists name, py_get x "name" (JStr (lit "Unknown")) = Ok name /\
                 username u = JStr (mask_username name default_visible_chars).
Proof.
  unfold wager_key. intros Hq.
  destruct x as [| | | | | |d]; try done.
  unfold clash_entry.
  cbn [fst snd py_get] in *. cbn [mbind result_bind].
  destruct (default (JInt 0) (assoc d (lit "wagered"))) as [|b|z|q| | |] eqn:Hw;
    try done; cbn [py_round2 mbind result_bind];
    eexists; (split; [reflexivity|]); cbn [wagered username];
    (split; [eexists; split; [reflexivity|split; [reflexivity|]]|eauto]);
    now apply py_round2_cents.
Qed.

(** The order of the raw wagers is the order of the rounded ones. *)
Lemma rounded_order (key : string) (a b : json) (wa wb : json) :
  desc_by_wager key a b ->
  (exists v, py_get a key (JInt 0) = Ok v /\ py_round2 v = Ok wa /\
             rounded_to_cents v wa) ->
  (exists v, py_get b key (JInt 0) = Ok v /\ py_round2 v = Ok wb /\
             rounded_to_cents v wb) ->
  (default 0%Q (num_val wb) <= default 0%Q (num_val wa))%Q.
Proof.
  unfold desc_by_wager, wager_of, wager_key.
  intros Hab (va & Hva & Hra & _) (vb & Hvb & Hrb & _). rewrite Hva, Hvb in Hab.
  destruct (num_val va) as [ka|] eqn:Hka.
  2: { destruct va; try discriminate. }
  destruct (num_val vb) as [kb|] eqn:Hkb.
  2: { destruct vb; try discriminate. }
  exact (py_round2_order va vb wa wb ka kb Hka Hkb Hab Hra Hrb).
Qed.

Lemma map_seq_take {B} (h : nat -> B) (n m : nat) :
  (n <= m)%nat -> List.map h (seq 0 n) = take n (List.map h (seq 0 m)).
Proof.
  intros Hnm. change (List.map h) with (fmap (M := list) h).
  rewrite <- fmap_take, take_seq. now rewrite Nat.min_l.
Qed.

Lemma clash_prize_table :
  List.map (fun i => JInt (tier_prize (cfg_prizes clash_config) (Z.of_nat i + 1))) (seq 0 10)
  = List.map JInt [380; 160; 80; 50; 15; 10; 5; 0; 0; 0].
Proof. reflexivity. Qed.

Lemma clash_tier_amount (t : prize_tier) :
  t ∈ cfg_prizes clash_config ->
  tier_prize (cfg_prizes clash_config) (place t) = amount t.
Proof.
  unfold clash_config. cbn [cfg_prizes]. rewrite !elem_of_cons, elem_of_nil.
  intros [->|[->|[->|[->|[->|[->|[->|[]]]]]]]]; reflexivity.
Qed.

Lemma clash_loop_total (l : list json) (k : nat) :
  Forall (fun x => wager_key "wagered" x <> None) l ->
  exists us,
    for_each clash_entry (combine (seq k (length l)) l) = Ok us /\
    Forall2 (fun x u =>
               (exists v, py_get x "wagered" (JInt 0) = Ok v /\
                          py_round2 v = Ok (wagered u) /\
                          rounded_to_cents v (wagered u)) /\
               exists name, py_get x "name" (JStr (lit "Unknown")) = Ok name /\
                            username u = JStr (mask_username name default_visible_chars))
      l us.
Proof.
  intros H. revert k. induction H as [|x l Hx _ IH]; intros k.
  - exists []. split; [reflexivity|constructor].
  - destruct (clash_entry_numeric k x Hx) as (u & Hu & Hp).
    destruct (IH (S k)) as (us & Hus & H2).
    exists (u :: us). cbn [length seq combine for_each].
    rewrite Hu. cbn [mbind result_bind]. rewrite Hus. cbn [mbind result_bind].
    split; [reflexivity|]. constructor; assumption.
Qed.

Lemma map_fst_enumerate {A} (l : list A) :
  List.map fst (enumerate l) = seq 0 (length l).
Proof.
  unfold enumerate. generalize 0%nat.
  induction l as [|x l IH]; intros k; simpl; [reflexivity|]. now rewrite IH.
Qed.

Lemma clash_tier_beyond (k : Z) :
  8 <= k -> tier_prize (cfg_prizes clash_config) k = 0.
Proof.
  intros Hk. unfold clash_config, tier. cbn [cfg_prizes tier_prize place amount].
  repeat match goal with
         | |- context [?a =? k] => destruct (Z.eqb_spec a k); [lia|]
         end.
  reflexivity.
Qed.

Lemma lookup_map_seq {A B} (g : A -> B) (h : nat -> B) (l : list A) (i : nat) (x : A) :
  List.map g l = List.map h (seq 0 (length l)) ->
  l !! i = Some x -> g x = h i.
Proof.
  assert (Hgen : forall k, List.map g l = List.map h (seq k (length l)) ->
                           l !! i = Some x -> g x = h (k + i)%nat).
  { revert i. induction l as [|y l IH]; intros i k H Hi; [done|].
    simpl in H. injection H as Hy Hl. destruct i as [|i]; simpl in Hi.
    - injection Hi as <-. now rewrite Nat.add_0_r.
    - rewrite <- Nat.add_succ_comm. now apply IH. }
  exact (Hgen 0%nat).
Qed.

Lemma raise_for_status_2xx (r : response) :
  200 <= status_code r <= 299 -> raise_for_status r = Ok tt.
Proof.
  intros [H1 H2]. unfold raise_for_status.
  destruct (Z.leb_spec 200 (status_code r)); [|lia].
  destruct (Z.leb_spec (status_code r) 299); [reflexivity|lia].
Qed.

Lemma clash_try_top_ten (now : datetime) (r : response) (l : list json)
    (lu : option datetime) :
  200 <= status_code r <= 299 -> body r = Some (JList l) ->
  Forall (fun x => wager_key "wagered" x <> None) l ->
  valid_datetime now = true -> year now < 9999 ->
  exists sorted_users us eom,
    clash_try now (Replied r) lu
    = Ok {| site_id := lit "clash"; site_name := lit "Clash.gg"; users := us;
            prize_pool := JInt (cfg_prize_pool clash_config);
            currency := cfg_currency clash_config;
            prizes := cfg_prizes clash_config;
            countdown_end := Some (AtDatetime eom);
            status := active; message := None; last_updated := lu |} /\
    py_sorted_desc (JList l) "wagered" = Ok sorted_users /\
    for_each clash_entry (enumerate (take 10 sorted_users)) = Ok us /\
    clash_end_of_month now = Ok eom.
Proof.
  intros Hst Hb Hl Hv Hy.
  destruct (py_sorted_desc_numeric "wagered" l Hl) as (su & Hsort & _ & _ & Hnum).
  destruct (clash_loop_total (take 10 su) 0 (Forall_take _ _ _ Hnum)) as (us & Hus & _).
  destruct (clash_end_of_month_total now Hv Hy) as (eom & Heom).
  exists su, us, eom. repeat split; auto.
  unfold clash_try. cbn [http_request mbind result_bind].
  rewrite (raise_for_status_2xx r Hst). cbn [mbind result_bind].
  unfold response_json. rewrite Hb. cbn [mbind result_bind].
  rewrite Hsort. cbn [mbind result_bind].
  fold (enumerate (take 10 su)) in Hus. rewrite Hus. cbn [mbind result_bind].
  rewrite Heom. reflexivity.
Qed.

(** C5. On a successful fetch of Provider A the raw entries are sorted by
    wagered amount, descending, the first 10 are kept, ranked 1..N by sort
    position, each wager is what [round(_, 2)] makes of the raw one (an
    [int] as it is, a [float] as the double of the decimal with two places
    nearest to it), and the prizes are, by rank, 380, 160, 80, 50, 15, 10
    and 5: the amount of the configured tier of that place, and 0 beyond
    the 7 tiers.  With 15 raw entries the snapshot has exactly 10 users,
    ranks 1 to 10, wagers in descending order, and the prize of rank 8
    is 0. *)
Theorem clash_top_ten (w : world) (r : response) (l : list json) :
  outbound w = Replied r ->
  200 <= status_code r <= 299 -> body r = Some (JList l) ->
  Forall (fun x => wager_key "wagered" x <> None) l ->
  valid_datetime (t_fetch w) = true -> year (t_fetch w) < 9999 ->
  exists d sorted_users,
    Server.fetch_clash_data w = Ok d /\
    ApiIndex.fetch_clash_data w = Ok (set_last_updated d (t_fetch w)) /\
    status d = active /\
    Permutation sorted_users l /\
    StronglySorted (desc_by_wager "wagered") sorted_users /\
    Forall2 (fun x u =>
               (exists v, py_get x "wagered" (JInt 0) = Ok v /\
                          py_round2 v = Ok (wagered u) /\
                          rounded_to_cents v (wagered u)) /\
               exists name, py_get x "name" (JStr (lit "Unknown")) = Ok name /\
                            username u = JStr (mask_username name default_visible_chars))
      (take 10 sorted_users) (users d) /\
    length (users d) = Nat.min 10 (length l) /\
    List.map rank (users d) = List.map rank_of_index (seq 0 (length (users d))) /\
    List.map prize (users d)
    = take (length (users d)) (List.map JInt [380; 160; 80; 50; 15; 10; 5; 0; 0; 0]) /\
    (forall u t, u ∈ users d -> t ∈ cfg_prizes clash_config ->
                 rank u = JInt (place t) -> prize u = JInt (amount t)) /\
    ranks_increasing (users d) /\
    StronglySorted desc_by_wagered (users d) /\
    (forall i u, users d !! i = Some u -> (7 <= i)%nat -> prize u = JInt 0) /\
    (length l = 15%nat ->
     length (users d) = 10%nat /\
     List.map rank (users d)
     = List.map JInt [1; 2; 3; 4; 5; 6; 7; 8; 9; 10] /\
     List.map prize (users d)
     = List.map JInt [380; 160; 80; 50; 15; 10; 5; 0; 0; 0] /\
     exists u8, users d !! 7%nat = Some u8 /\ rank u8 = JInt 8 /\ prize u8 = JInt 0).
Proof.
  intros Ho Hst Hb Hl Hv Hy.
  destruct (py_sorted_desc_numeric "wagered" l Hl) as (su & Hsort & Hperm & Hsorted & Hnum).
  destruct (clash_try_top_ten (t_fetch w) r l None Hst Hb Hl Hv Hy)
    as (su' & us & eom & Htry & Hsort' & Hus & _).
  destruct (clash_try_top_ten (t_fetch w) r l (Some (t_fetch w)) Hst Hb Hl Hv Hy)
    as (su2 & us2 & eom2 & Htry2 & Hsort2 & Hus2 & Heom2).
  rewrite Hsort in Hsort', Hsort2. injection Hsort' as <-. injection Hsort2 as <-.
  rewrite Hus in Hus2. injection Hus2 as <-.
  destruct (clash_try_top_ten (t_fetch w) r l None Hst Hb Hl Hv Hy)
    as (_ & _ & eom3 & _ & _ & _ & Heom3).
  assert (eom2 = eom) as ->.
  { destruct (clash_try_inv _ _ _ _ Htry) as (_ & _ & _ & e & _ & _ & _ & _ & _ & He & Hc & _).
    simpl in Hc. rewrite Heom2 in He. injection He as ->. now injection Hc. }
  clear eom3 Heom3.
  destruct (tiered_loop_ranks clash_entry su us) as (Hle & Hlen & Hranks & Hinc);
    [intros iu y Hy'; now apply clash_entry_rank in Hy'|exact Hus|].
  assert (Hlen' : length us = Nat.min 10 (length l)).
  { rewrite Hlen. now rewrite (Permutation_length Hperm). }
  assert (Hrk : List.map rank us = List.map rank_of_index (seq 0 (length us))).
  { rewrite Hranks. rewrite Hlen, <- (length_take su 10) at 1.
    rewrite <- map_fst_enumerate, List.map_map. reflexivity. }
  assert (Hpz : List.map prize us
                = List.map (fun i => JInt (tier_prize (cfg_prizes clash_config)
                                             (Z.of_nat i + 1)))
                    (seq 0 (length us))).
  { rewrite (for_each_map clash_entry prize
               (fun iu => JInt (tier_prize (cfg_prizes clash_config)
                                  (Z.of_nat (fst iu) + 1))) _ _
               (fun iu y Hy' => proj2 (clash_entry_rank iu y Hy')) Hus).
    rewrite Hlen, <- (length_take su 10) at 1.
    rewrite <- map_fst_enumerate, List.map_map. reflexivity. }
  assert (Hamounts : List.map prize us
                     = take (length us)
                         (List.map JInt [380; 160; 80; 50; 15; 10; 5; 0; 0; 0])).
  { rewrite Hpz, <- clash_prize_table. apply map_seq_take. lia. }
  destruct (clash_loop_total (take 10 su) 0 (Forall_take _ _ _ Hnum)) as (us' & Hus' & H2).
  fold (enumerate (take 10 su)) in Hus'. rewrite Hus in Hus'. injection Hus' as <-.
  assert (Hbeyond : forall i u, us !! i = Some u -> (7 <= i)%nat -> prize u = JInt 0).
  { intros i u Hi H7. rewrite (lookup_map_seq _ _ _ _ _ Hpz Hi).
    f_equal. apply clash_tier_beyond. lia. }
  exists {| site_id := lit "clash"; site_name := lit "Clash.gg"; users := us;
            prize_pool := JInt (cfg_prize_pool clash_config);
            currency := cfg_currency clash_config;
            prizes := cfg_prizes clash_config;
            countdown_end := Some (AtDatetime eom);
            status := active; message := None; last_updated := None |}, su.
  cbn [users status].
  split; [unfold Server.fetch_clash_data; rewrite Ho, Htry; reflexivity|].
  split; [unfold ApiIndex.fetch_clash_data; rewrite Ho, Htry2; reflexivity|].
  repeat split; auto.
  - intros u t Hu Ht Hr.
    apply list_elem_of_lookup in Hu as [i Hi].
    pose proof (lookup_map_seq rank rank_of_index us i u Hrk Hi) as Hri.
    rewrite Hr in Hri. unfold rank_of_index in Hri. injection Hri as Hpl.
    rewrite (lookup_map_seq _ _ _ _ _ Hpz Hi), <- Hpl.
    f_equal. now apply clash_tier_amount.
  - eapply strongly_sorted_transfer;
      [|exact H2|apply strongly_sorted_take; exact Hsorted].
    unfold desc_by_wagered, wagered_value.
    intros a b a' b' Hab [Ha _] [Hb' _]. exact (rounded_order _ _ _ _ _ Hab Ha Hb').
  - lia.
  - rewrite Hrk. replace (length us) with 10%nat by lia. reflexivity.
  - rewrite Hamounts. replace (length us) with 10%nat by lia. reflexivity.
  - assert (Hlt : (7 < length us)%nat) by lia.
    destruct (lookup_lt_is_Some_2 us 7 Hlt) as [u8 Hu8].
    exists u8. split; [exact Hu8|]. split.
    + exact (lookup_map_seq rank rank_of_index us 7 u8 Hrk Hu8).
    + apply (Hbeyond 7%nat u8 Hu8). lia.
Qed.

(** The fifteen sample entries: ten users, ranks 1 to 10, the seven tier
    amounts and then no prize from rank 8 on. *)
Lemma clash_top_ten_witness :
  exists d,
    Server.fetch_clash_data (sample_world (ok_reply (JList fifteen_entries))) = Ok d
    /\ length (users d) = 10%nat
    /\ List.map rank (users d) = List.map JInt [1; 2; 3; 4; 5; 6; 7; 8; 9; 10]
    /\ List.map prize (users d) = List.map JInt [380; 160; 80; 50; 15; 10; 5; 0; 0; 0]
    /\ StronglySorted desc_by_wagered (users d)
    /\ exists u8, users d !! 7%nat = Some u8 /\ rank u8 = JInt 8 /\ prize u8 = JInt 0.
Proof.
  destruct (clash_top_ten (sample_world (ok_reply (JList fifteen_entries)))
              {| status_code := 200; body := Some (JList fifteen_entries) |}
              fifteen_entries)
    as (d & su & Hs & _ & _ & _ & _ & _ & _ & _ & _ & _ & _ & Hdesc & _ & H15).
  - reflexivity.
  - simpl. lia.
  - reflexivity.
  - unfold fifteen_entries. repeat constructor; vm_compute; discriminate.
  - reflexivity.
  - simpl. lia.
  - exists d. destruct (H15 eq_refl) as (Hlen & Hr & Hp & Hu8). tauto.
Defined.

(** Wagers written as floats come out as the doubles that [round(_, 2)]
    gives: 2.675 and 1.015 are read as doubles just below the half-way
    point and round down. *)
Example clash_float_wagers :
  exists d,
    Server.fetch_clash_data
      (sample_world (ok_reply (JList [dict [("name", str "ann"); ("wagered", JFloat (1015 # 1000))];
                                      dict [("name", str "bob"); ("wagered", JFloat (2675 # 1000))];
                                      dict [("name", str "cyd"); ("wagered", JInt 2)]])))
    = Ok d /\
    List.map wagered (users d)
    = [JFloat (to_double (267 # 100)); JInt 2; JFloat (to_double (101 # 100))] /\
    List.map prize (users d) = List.map JInt [380; 160; 80].
Proof. eexists. split; [vm_compute; reflexivity|]. split; vm_compute; reflexivity. Qed.

(** ** Freshness cache and facade *)

Lemma fetch_functions_known (P : parsers) (E : environ) (site_id : pystr) :
  site_id ∈ valid_sites -> exists fetch, Server.fetch_functions P E site_id = Some fetch.
Proof.
  unfold valid_sites. rewrite !elem_of_cons, elem_of_nil.
  intros [->|[->|[->|[->|[]]]]]; eexists; reflexivity.
Qed.

Lemma fetch_functions_unknown (P : parsers) (E : environ) (site_id : pystr) :
  site_id ∉ valid_sites -> Server.fetch_functions P E site_id = None.
Proof.
  unfold valid_sites. rewrite !not_elem_of_cons. intros (H1 & H2 & H3 & H4 & _).
  unfold Server.fetch_functions, pystr_eqb.
  rewrite !bool_decide_eq_false_2; done.
Qed.

Lemma cache_lookup_fresh (st : Server.state) (site_id : pystr) (now : datetime)
    (rec : Server.cache_record) :
  fresh_record st site_id now rec ->
  Server.cache_lookup site_id now st
  = Some (set_last_updated (Server.doc_data rec) (Server.doc_last_updated rec)).
Proof.
  intros (coll & Hdb & Hrec & Hlt). unfold Server.cache_lookup.
  rewrite Hdb. simpl. rewrite Hrec. simpl.
  unfold freshness_window in Hlt. unfold Server.CACHE_DURATION_MINUTES.
  destruct (Z.ltb_spec (micros now - micros (Server.doc_last_updated rec))
              (5 * 60 * 1000000)); [reflexivity|lia].
Qed.

Lemma cache_lookup_miss (st : Server.state) (site_id : pystr) (now : datetime) :
  cache_miss st site_id now -> Server.cache_lookup site_id now st = None.
Proof.
  unfold Server.cache_lookup.
  intros [Hdb|(coll & Hdb & [Hrec|(rec & Hrec & Hge)])]; rewrite Hdb; simpl;
    [reflexivity|now rewrite Hrec|].
  rewrite Hrec. simpl.
  unfold freshness_window in Hge. unfold Server.CACHE_DURATION_MINUTES.
  destruct (Z.ltb_spec (micros now - micros (Server.doc_last_updated rec))
              (5 * 60 * 1000000)); [lia|reflexivity].
Qed.

(** Either there is a fresh document or the lookup misses. *)
Lemma fresh_or_miss (st : Server.state) (site_id : pystr) (now : datetime) :
  (exists rec, fresh_record st site_id now rec) \/ cache_miss st site_id now.
Proof.
  unfold fresh_record, cache_miss.
  destruct (Server.db st) as [coll|]; [|now right; left].
  destruct (coll !! site_id) as [rec|] eqn:Hrec; [|right; right; eauto].
  destruct (Z.lt_ge_cases (micros now - micros (Server.doc_last_updated rec))
              freshness_window).
  - left. exists rec, coll. auto.
  - right. right. exists coll. split; [reflexivity|]. right. eauto.
Qed.

Lemma get_cached_or_fetch_miss (P : parsers) (E : environ) (site_id : pystr)
    (w : world) (st : Server.state) (fetch : world -> result snapshot) :
  Server.cache_lookup site_id (t_request w) st = None ->
  Server.fetch_functions P E site_id = Some fetch ->
  Server.get_cached_or_fetch P E site_id w st
  = match fetch w with
    | Ok data => (Ok (set_last_updated data (t_request w)),
                  after_fetch st site_id data (t_request w))
    | Raise e => (Raise e, Server.log_call site_id st)
    end.
Proof.
  intros Hmiss Hf. unfold Server.get_cached_or_fetch. rewrite Hmiss, Hf.
  destruct (fetch w); reflexivity.
Qed.

Lemma same_content_stamped (d : snapshot) (t : datetime) :
  same_content (set_last_updated d t) d /\ last_updated (set_last_updated d t) = Some t.
Proof. unfold same_content. simpl. tauto. Qed.

(** The registry of the caching variant, site by site. *)
Lemma fetch_functions_registry (P : parsers) (E : environ) (s : pystr) :
  s ∈ valid_sites ->
  exists fetch,
    Server.fetch_functions P E s = Some fetch /\
    (s = lit "clash" /\ fetch = Server.fetch_clash_data \/
     s = lit "bsite" /\ fetch = Server.fetch_bsite_data P \/
     s = lit "csbattle" /\ fetch = Server.fetch_csbattle_data E \/
     s = lit "skinfans" /\ fetch = Server.fetch_skinfans_data P E).
Proof.
  unfold valid_sites. rewrite !elem_of_cons, elem_of_nil.
  intros [->|[->|[->|[->|[]]]]]; eexists; (split; [reflexivity|]); auto 6.
Qed.

(** C7. For a known site, [get_cached_or_fetch] returns the cached snapshot
    exactly when a document exists whose age at [now] is under 5 minutes:
    what it returns is the document's snapshot with [last_updated] the
    instant the document was written, and neither the adapter is called nor
    the store written.  Otherwise it calls the adapter registered for the
    site, and what it returns is the adapter's snapshot with [last_updated]
    set to [now], which is also what it upserts as the site's document.
    Without a store every read misses, nothing is written, and the
    adapter's result is still returned. *)
Theorem get_cached_or_fetch_spec (P : parsers) (E : environ) (site_id : pystr)
    (w : world) (st : Server.state) :
  site_id ∈ valid_sites ->
  let now := t_request w in
  let run := Server.get_cached_or_fetch P E site_id w st in
  (forall rec, fresh_record st site_id now rec ->
     run = (Ok (set_last_updated (Server.doc_data rec) (Server.doc_last_updated rec)),
            st) /\
     exists d, run = (Ok d, st) /\
       last_updated d = Some (Server.doc_last_updated rec) /\
       same_content d (Server.doc_data rec))
  /\ (cache_miss st site_id now ->
      exists fetch, Server.fetch_functions P E site_id = Some fetch /\
        (site_id = lit "clash" /\ fetch = Server.fetch_clash_data \/
         site_id = lit "bsite" /\ fetch = Server.fetch_bsite_data P \/
         site_id = lit "csbattle" /\ fetch = Server.fetch_csbattle_data E \/
         site_id = lit "skinfans" /\ fetch = Server.fetch_skinfans_data P E) /\
        Server.adapter_calls (snd run) = Server.adapter_calls st ++ [site_id] /\
        match fetch w with
        | Ok data =>
            run = (Ok (set_last_updated data now), after_fetch st site_id data now) /\
            exists d, fst run = Ok d /\
              last_updated d = Some now /\ same_content d data /\
              (forall coll, Server.db st = Some coll ->
                 Server.db (snd run)
                 = Some (<[site_id := {| Server.doc_data := d;
                                         Server.doc_last_updated := now |}]> coll))
        | Raise e =>
            run = (Raise e, Server.log_call site_id st) /\
            Server.db (snd run) = Server.db st
        end)
  /\ ((exists rec, fresh_record st site_id now rec) <->
      Server.adapter_calls (snd run) = Server.adapter_calls st)
  /\ (Server.db st = None ->
      cache_miss st site_id now /\ Server.db (snd run) = None).
Proof.
  intros Hknown now run.
  destruct (fetch_functions_registry P E site_id Hknown) as (fetch & Hf & Hreg).
  assert (Hhit : forall rec, fresh_record st site_id now rec ->
            run = (Ok (set_last_updated (Server.doc_data rec)
                         (Server.doc_last_updated rec)), st)).
  { intros rec Hrec. unfold run, Server.get_cached_or_fetch.
    fold now. now rewrite (cache_lookup_fresh _ _ _ _ Hrec). }
  assert (Hmiss : cache_miss st site_id now ->
            Server.adapter_calls (snd run) = Server.adapter_calls st ++ [site_id] /\
            match fetch w with
            | Ok data => run = (Ok (set_last_updated data now),
                                after_fetch st site_id data now)
            | Raise e => run = (Raise e, Server.log_call site_id st)
            end).
  { intros Hm. apply cache_lookup_miss in Hm.
    unfold run. rewrite (get_cached_or_fetch_miss P E site_id w st fetch Hm Hf).
    destruct (fetch w); split; reflexivity. }
  split; [|split; [|split]].
  - intros rec Hrec. split; [exact (Hhit rec Hrec)|].
    eexists. split; [exact (Hhit rec Hrec)|].
    destruct (same_content_stamped (Server.doc_data rec) (Server.doc_last_updated rec)).
    split; assumption.
  - intros Hm. exists fetch. split; [exact Hf|]. split; [exact Hreg|].
    destruct (Hmiss Hm) as [Hc Hrun]. split; [exact Hc|].
    destruct (fetch w) as [data|e].
    + split; [exact Hrun|]. exists (set_last_updated data now).
      rewrite Hrun. split; [reflexivity|].
      destruct (same_content_stamped data now) as [Hsame Hlu].
      split; [exact Hlu|]. split; [exact Hsame|].
      intros coll Hcoll. unfold after_fetch. cbn [snd Server.db]. now rewrite Hcoll.
    + split; [exact Hrun|]. now rewrite Hrun.
  - split.
    + intros [rec Hrec]. now rewrite (Hhit rec Hrec).
    + intros Hcalls. destruct (fresh_or_miss st site_id now) as [Hfr|Hm]; [exact Hfr|].
      destruct (Hmiss Hm) as [Hc _]. rewrite Hc in Hcalls.
      apply (f_equal length) in Hcalls. rewrite length_app in Hcalls.
      simpl in Hcalls. lia.
  - intros Hdb. assert (Hm : cache_miss st site_id now) by now left.
    split; [exact Hm|]. destruct (Hmiss Hm) as [_ Hrun].
    destruct (fetch w); rewrite Hrun; simpl; now rewrite Hdb.
Qed.

Lemma csbattle_known : lit "csbattle" ∈ valid_sites.
Proof. unfold valid_sites. rewrite !elem_of_cons. auto. Qed.

(** A hit and a miss.  A request 3 minutes 50 seconds after Provider C's
    timeout was stored gets the stored snapshot back with the instant of
    the write, the store unchanged although the provider would answer now;
    the request that found the store empty called the adapter once and
    returned its snapshot stamped with the request's clock. *)
Lemma get_cached_or_fetch_spec_witness :
  (exists d,
     Server.get_cached_or_fetch no_parsers default_environ (lit "csbattle")
       later_world store_with_timeout = (Ok d, store_with_timeout)
     /\ last_updated d = Some (at_time 2026 2 15 13 45 10)
     /\ status d = JStr (lit "error"))
  /\ (exists d,
        fst (Server.get_cached_or_fetch no_parsers default_environ (lit "csbattle")
               (sample_world timed_out) empty_store) = Ok d
        /\ last_updated d = Some (at_time 2026 2 15 13 45 10)
        /\ same_content d timeout_snapshot)
  /\ Server.adapter_calls
       (snd (Server.get_cached_or_fetch no_parsers default_environ (lit "csbattle")
               (sample_world timed_out) empty_store))
     = [lit "csbattle"].
Proof.
  split; [|split].
  - destruct (get_cached_or_fetch_spec no_parsers default_environ (lit "csbattle")
                later_world store_with_timeout csbattle_known) as (Hhit & _).
    destruct (Hhit {| Server.doc_data :=
                        set_last_updated timeout_snapshot (at_time 2026 2 15 13 45 10);
                      Server.doc_last_updated := at_time 2026 2 15 13 45 10 |})
      as (_ & d & Hrun & Hlu & Hsame).
    + eexists. split; [reflexivity|]. split; [apply lookup_insert_eq|].
      vm_compute. reflexivity.
    + exists d. split; [exact Hrun|]. split; [exact Hlu|].
      destruct Hsame as (_ & _ & _ & _ & _ & _ & _ & Hst & _). exact Hst.
  - destruct (get_cached_or_fetch_spec no_parsers default_environ (lit "csbattle")
                (sample_world timed_out) empty_store csbattle_known)
      as (_ & Hmiss & _).
    destruct Hmiss as (fetch & _ & Hreg & _ & Hrun).
    + right. exists ∅. split; [reflexivity|]. left. apply lookup_empty.
    + destruct Hreg as [[Hs _]|[[Hs _]|[[_ ->]|[Hs _]]]]; try discriminate Hs.
      destruct Hrun as (_ & d & Hd & Hlu & Hsame & _).
      exists d. split; [exact Hd|]. split; [exact Hlu|exact Hsame].
  - destruct (get_cached_or_fetch_spec no_parsers default_environ (lit "csbattle")
                (sample_world timed_out) empty_store csbattle_known)
      as (_ & Hmiss & _).
    destruct Hmiss as (fetch & _ & _ & Hcalls & _).
    + right. exists ∅. split; [reflexivity|]. left. apply lookup_empty.
    + exact Hcalls.
Defined.

Lemma cache_lookup_deleted (site_id : pystr) (now : datetime) (st : Server.state) :
  Server.cache_lookup site_id now (Server.cache_delete site_id st) = None.
Proof.
  unfold Server.cache_lookup, Server.cache_delete. simpl.
  destruct (Server.db st) as [coll|]; simpl; [|reflexivity].
  now rewrite lookup_delete_eq.
Qed.

Lemma invalid_site_detail :
  invalid_site
  = HTTPException 404 (lit "Invalid site. Valid sites: clash, bsite, csbattle, skinfans").
Proof. reflexivity. Qed.

(** C8. [refresh_leaderboard] deletes the site's cache document and then
    resolves: for a known site the adapter is called whatever the cache
    held, also when a document was written at the very instant of the
    request.  For an unknown site it raises the 404 that lists the valid
    ids and leaves the cache as it was. *)
Theorem refresh_leaderboard_spec (P : parsers) (E : environ) (site_id : pystr)
    (w : world) (st : Server.state) :
  let now := t_request w in
  (site_id ∈ valid_sites ->
   exists fetch, Server.fetch_functions P E site_id = Some fetch /\
     Server.adapter_calls (snd (Server.refresh_leaderboard P E site_id w st))
     = Server.adapter_calls st ++ [site_id] /\
     match fetch w with
     | Ok data =>
         Server.refresh_leaderboard P E site_id w st
         = (Ok (lit "Refreshed " ++ site_id ++ lit " leaderboard",
                set_last_updated data now),
            after_fetch (Server.cache_delete site_id st) site_id data now)
     | Raise e =>
         Server.refresh_leaderboard P E site_id w st
         = (Raise e, Server.log_call site_id (Server.cache_delete site_id st))
     end)
  /\ (site_id ∈ valid_sites ->
      forall data,
        let st1 := after_fetch st site_id data now in
        Server.adapter_calls (snd (Server.refresh_leaderboard P E site_id w st1))
        = Server.adapter_calls st1 ++ [site_id])
  /\ (site_id ∉ valid_sites ->
      Server.refresh_leaderboard P E site_id w st
      = (Raise (HTTPException 404
                  (lit "Invalid site. Valid sites: clash, bsite, csbattle, skinfans")),
         st)).
Proof.
  intros now.
  assert (Hknown : forall st0, site_id ∈ valid_sites ->
            exists fetch, Server.fetch_functions P E site_id = Some fetch /\
              Server.adapter_calls (snd (Server.refresh_leaderboard P E site_id w st0))
              = Server.adapter_calls st0 ++ [site_id] /\
              match fetch w with
              | Ok data =>
                  Server.refresh_leaderboard P E site_id w st0
                  = (Ok (lit "Refreshed " ++ site_id ++ lit " leaderboard",
                         set_last_updated data now),
                     after_fetch (Server.cache_delete site_id st0) site_id data now)
              | Raise e =>
                  Server.refresh_leaderboard P E site_id w st0
                  = (Raise e, Server.log_call site_id (Server.cache_delete site_id st0))
              end).
  { intros st0 Hin. destruct (fetch_functions_known P E site_id Hin) as [fetch Hf].
    exists fetch. split; [exact Hf|].
    unfold Server.refresh_leaderboard.
    rewrite (bool_decide_eq_true_2 _ Hin). cbn [negb].
    rewrite (get_cached_or_fetch_miss P E site_id w _ fetch
               (cache_lookup_deleted site_id (t_request w) st0) Hf).
    destruct (fetch w); split; reflexivity. }
  split; [apply Hknown|]. split.
  - intros Hin data st1. destruct (Hknown st1 Hin) as (fetch & _ & Hc & _). exact Hc.
  - intros Hnot. unfold Server.refresh_leaderboard.
    rewrite (bool_decide_eq_false_2 _ Hnot). reflexivity.
Qed.

(** A refresh right after a write at the same instant still calls the adapter. *)
Lemma refresh_leaderboard_spec_witness :
  Server.adapter_calls
    (snd (Server.refresh_leaderboard no_parsers default_environ (lit "csbattle")
            (sample_world timed_out)
            (after_fetch empty_store (lit "csbattle")
               (empty_snapshot "csbattle" "CSBattle" csbattle_config "error"
                  (JStr (lit "timed out")))
               (t_request (sample_world timed_out)))))
  = [lit "csbattle"; lit "csbattle"].
Proof.
  exact (proj1 (proj2 (refresh_leaderboard_spec no_parsers default_environ
                         (lit "csbattle") (sample_world timed_out) empty_store))
           csbattle_known
           (empty_snapshot "csbattle" "CSBattle" csbattle_config "error"
              (JStr (lit "timed out")))).
Defined.

(** C10. After a miss the snapshot the adapter returned is written to the
    cache whatever its status, and a later request for the same site whose
    clock reads less than 5 minutes after the write gets that snapshot back
    without an adapter call; at 5 minutes or more the lookup misses. *)
Theorem failure_snapshot_is_cached (P : parsers) (E : environ) (site_id : pystr)
    (w w' : world) (st : Server.state) (fetch : world -> result snapshot)
    (data : snapshot) :
  Server.db st <> None ->
  cache_miss st site_id (t_request w) ->
  Server.fetch_functions P E site_id = Some fetch ->
  fetch w = Ok data ->
  let now := t_request w in
  let stored := set_last_updated data now in
  let st1 := snd (Server.get_cached_or_fetch P E site_id w st) in
  fst (Server.get_cached_or_fetch P E site_id w st) = Ok stored
  /\ doc_of st1 site_id
     = Some {| Server.doc_data := stored; Server.doc_last_updated := now |}
  /\ (micros (t_request w') - micros now < freshness_window ->
      Server.get_cached_or_fetch P E site_id w' st1 = (Ok stored, st1))
  /\ (freshness_window <= micros (t_request w') - micros now ->
      cache_miss st1 site_id (t_request w')).
Proof.
  intros Hdb Hmiss Hf Hfetch now stored st1.
  assert (Hrun : Server.get_cached_or_fetch P E site_id w st
                 = (Ok stored, after_fetch st site_id data now)).
  { rewrite (get_cached_or_fetch_miss P E site_id w st fetch
               (cache_lookup_miss _ _ _ Hmiss) Hf).
    now rewrite Hfetch. }
  assert (Hst1 : st1 = after_fetch st site_id data now) by (unfold st1; now rewrite Hrun).
  destruct (Server.db st) as [coll|] eqn:Hcoll; [|done].
  assert (Hdoc : doc_of st1 site_id
                 = Some {| Server.doc_data := stored; Server.doc_last_updated := now |}).
  { rewrite Hst1. unfold doc_of, after_fetch. simpl. rewrite Hcoll. simpl.
    apply lookup_insert_eq. }
  assert (Hdb1 : Server.db st1
                 = Some (<[site_id := {| Server.doc_data := stored;
                                         Server.doc_last_updated := now |}]> coll)).
  { rewrite Hst1. unfold after_fetch. simpl. now rewrite Hcoll. }
  split; [now rewrite Hrun|]. split; [exact Hdoc|]. split.
  - intros Hlt. unfold Server.get_cached_or_fetch.
    rewrite (cache_lookup_fresh st1 site_id (t_request w')
               {| Server.doc_data := stored; Server.doc_last_updated := now |}).
    + reflexivity.
    + eexists. split; [exact Hdb1|]. split; [apply lookup_insert_eq|exact Hlt].
  - intros Hge. right. eexists. split; [exact Hdb1|]. right.
    eexists. split; [apply lookup_insert_eq|exact Hge].
Qed.

(** A timeout of Provider C is cached; 3 minutes 50 seconds later it is served from the cache although the provider would answer. *)
Lemma failure_snapshot_is_cached_witness :
  let st1 := snd (Server.get_cached_or_fetch no_parsers default_environ
                    (lit "csbattle") (sample_world timed_out) empty_store) in
  status timeout_snapshot = JStr (lit "error")
  /\ Server.get_cached_or_fetch no_parsers default_environ (lit "csbattle")
       later_world st1
     = (Ok (set_last_updated timeout_snapshot (at_time 2026 2 15 13 45 10)), st1).
Proof.
  intros st1. split; [reflexivity|].
  destruct (failure_snapshot_is_cached no_parsers default_environ (lit "csbattle")
              (sample_world timed_out) later_world empty_store
              (Server.fetch_csbattle_data default_environ) timeout_snapshot)
    as (_ & _ & Hhit & _).
  - discriminate.
  - right. exists ∅. split; [reflexivity|]. left. apply lookup_empty.
  - reflexivity.
  - reflexivity.
  - apply Hhit. vm_compute. reflexivity.
Defined.

(** ** All leaderboards *)

Lemma cache_lookup_local (site_id : pystr) (now : datetime) (st1 st2 : Server.state) :
  doc_of st1 site_id = doc_of st2 site_id ->
  Server.cache_lookup site_id now st1 = Server.cache_lookup site_id now st2.
Proof.
  unfold doc_of, Server.cache_lookup. intros H.
  destruct (Server.db st1) as [c1|], (Server.db st2) as [c2|]; simpl in *.
  - now rewrite H.
  - rewrite H. reflexivity.
  - rewrite <- H. reflexivity.
  - reflexivity.
Qed.

(** A resolution reads the store at its own key only. *)
Lemma get_cached_or_fetch_local (P : parsers) (E : environ) (site_id : pystr)
    (w : world) (st1 st2 : Server.state) :
  doc_of st1 site_id = doc_of st2 site_id ->
  fst (Server.get_cached_or_fetch P E site_id w st1)
  = fst (Server.get_cached_or_fetch P E site_id w st2).
Proof.
  intros H. unfold Server.get_cached_or_fetch.
  rewrite (cache_lookup_local site_id (t_request w) st1 st2 H).
  destruct (Server.cache_lookup site_id (t_request w) st2); [reflexivity|].
  destruct (Server.fetch_functions P E site_id) as [fetch|]; [|reflexivity].
  destruct (fetch w); reflexivity.
Qed.

(** ... and writes it at its own key only. *)
Lemma get_cached_or_fetch_frame (P : parsers) (E : environ) (site_id other : pystr)
    (w : world) (st : Server.state) :
  other <> site_id ->
  doc_of (snd (Server.get_cached_or_fetch P E site_id w st)) other = doc_of st other.
Proof.
  intros Hne. unfold Server.get_cached_or_fetch.
  destruct (Server.cache_lookup site_id (t_request w) st); [reflexivity|].
  destruct (Server.fetch_functions P E site_id) as [fetch|]; [|reflexivity].
  destruct (fetch w); [|reflexivity].
  unfold doc_of, Server.cache_update. simpl.
  destruct (Server.db st) as [coll|]; simpl; [|reflexivity].
  apply lookup_insert_ne. congruence.
Qed.

Lemma resolve_each_independent (P : parsers) (E : environ) (ws : pystr -> world)
    (sites : list pystr) (st st0 : Server.state) :
  NoDup sites ->
  (forall s, s ∈ sites -> doc_of st s = doc_of st0 s) ->
  fst (Server.resolve_each P E sites ws st)
  = List.map (fun s => (s, or_failure s
                             (fst (Server.get_cached_or_fetch P E s (ws s) st0))))
      sites.
Proof.
  intros Hnd. revert st. induction Hnd as [|s sites Hs Hnd IH]; intros st Hdoc.
  - reflexivity.
  - cbn [Server.resolve_each List.map].
    destruct (Server.get_cached_or_fetch P E s (ws s) st) as [r st1] eqn:Hrun.
    specialize (IH st1).
    destruct (Server.resolve_each P E sites ws st1) as [rest st2] eqn:Hrest.
    cbn [fst] in *. f_equal.
    + f_equal. f_equal.
      rewrite <- (get_cached_or_fetch_local P E s (ws s) st st0).
      * now rewrite Hrun.
      * apply Hdoc. left.
    + apply IH. intros s' Hs'.
      assert (Hne : s' <> s) by (intros ->; contradiction).
      replace st1 with (snd (Server.get_cached_or_fetch P E s (ws s) st))
        by now rewrite Hrun.
      rewrite (get_cached_or_fetch_frame P E s s' (ws s) st Hne).
      apply Hdoc. now right.
Qed.

Lemma valid_sites_NoDup : NoDup valid_sites.
Proof. apply (bool_decide_unpack _). vm_compute. exact I. Qed.

Lemma well_keyed_or_failure (s : pystr) (r : result snapshot) :
  well_keyed (s, or_failure s r).
Proof. destruct r; unfold well_keyed; simpl; auto. Qed.

Lemma count_one {A} (p : A -> bool) (l : list A) (bad : A) :
  NoDup l -> bad ∈ l -> p bad = true ->
  (forall s, s ∈ l -> s <> bad -> p s = false) ->
  length (List.filter p l) = 1%nat /\
  length (List.filter (fun s => negb (p s)) l) = (length l - 1)%nat.
Proof.
  intros Hnd Hin Hbad Hothers.
  assert (Hnone : forall l', (forall s, s ∈ l' -> p s = false) ->
            length (List.filter p l') = 0%nat /\
            length (List.filter (fun s => negb (p s)) l') = length l').
  { induction l' as [|x l' IH]; intros Hp; simpl; [auto|].
    rewrite (Hp x) by left. simpl.
    destruct IH as [IH1 IH2]; [intros s Hs; apply Hp; now right|].
    split; [exact IH1|now rewrite IH2]. }
  induction Hnd as [|x l Hx Hnd IH]; [now apply elem_of_nil in Hin|].
  apply elem_of_cons in Hin as [<-|Hin]; simpl.
  - rewrite Hbad. simpl.
    destruct (Hnone l) as [H1 H2].
    { intros s Hs. apply Hothers; [now right|]. intros ->. contradiction. }
    rewrite H1, H2. split; lia.
  - rewrite (Hothers x) by (try left; intros ->; contradiction). simpl.
    destruct IH as [IH1 IH2]; [exact Hin|intros s Hs; apply Hothers; now right|].
    rewrite IH1, IH2. split; [reflexivity|].
    destruct l; [now apply elem_of_nil in Hin|simpl; lia].
Qed.

Lemma count_by_outcome {A} (f : A -> pystr) (g : A -> result snapshot) (l : list A) :
  let results := List.map (fun a => (f a, or_failure (f a) (g a))) l in
  count_failures results = length (List.filter (fun a => raises (g a)) l) /\
  count_snapshots results = length (List.filter (fun a => negb (raises (g a))) l) /\
  List.map fst results = List.map f l /\
  Forall well_keyed results.
Proof.
  unfold count_failures, count_snapshots.
  induction l as [|a l (IH1 & IH2 & IH3 & IH4)]; simpl.
  - repeat split; constructor.
  - destruct (g a) as [d|e]; simpl; rewrite ?IH1, ?IH2, IH3;
      repeat split; constructor; try exact IH4; unfold well_keyed; simpl; auto.
Qed.

Lemma fetch_or_record_eq (ws : pystr -> world)
    (table : list (pystr * (world -> result snapshot))) :
  List.map (ApiIndex.fetch_or_record ws) table
  = List.map (fun sf => (fst sf, or_failure (fst sf) (snd sf (ws (fst sf))))) table.
Proof. apply List.map_ext. intros [s f]. reflexivity. Qed.

(** C9. [get_all_leaderboards] always returns, with one entry per known
    site in the order of the sites.  Each entry is what resolving that site
    alone from the initial state gives: the snapshot, or, when the
    resolution raised [e], the record of site id, [str(e)] and status
    ["error"].  So one failing resolution among the four leaves 3 snapshots
    and 1 error record.  The stateless variant returns, site by site, what
    the site's own adapter returned for that site's request, or the error
    record of what it raised; it wraps each call the same way for any table
    of adapters. *)
Theorem get_all_leaderboards_isolates_failures (P : parsers) (E : environ)
    (ws : pystr -> world) (st : Server.state) :
  let resolve s := fst (Server.get_cached_or_fetch P E s (ws s) st) in
  let results := List.map (fun s => (s, or_failure s (resolve s))) valid_sites in
  fst (Server.get_all_leaderboards P E ws st) = Ok results
  /\ List.map fst results = valid_sites
  /\ length results = 4%nat
  /\ Forall well_keyed results
  /\ count_failures results
     = length (List.filter (fun s => raises (resolve s)) valid_sites)
  /\ (forall bad e,
        bad ∈ valid_sites -> resolve bad = Raise e ->
        (forall s, s ∈ valid_sites -> s <> bad -> exists d, resolve s = Ok d) ->
        count_failures results = 1%nat /\ count_snapshots results = 3%nat /\
        (bad, Failure {| failed_site_id := bad; error := str_exn e;
                         failed_status := lit "error" |}) ∈ results)
  /\ ApiIndex.get_all_leaderboards P E ws
     = Ok [(lit "clash",
            or_failure (lit "clash") (ApiIndex.fetch_clash_data (ws (lit "clash"))));
           (lit "bsite",
            or_failure (lit "bsite") (ApiIndex.fetch_bsite_data P (ws (lit "bsite"))));
           (lit "csbattle",
            or_failure (lit "csbattle")
              (ApiIndex.fetch_csbattle_data E (ws (lit "csbattle"))));
           (lit "skinfans",
            or_failure (lit "skinfans")
              (ApiIndex.fetch_skinfans_data P (ws (lit "skinfans"))))]
  /\ (exists index_results,
        ApiIndex.get_all_leaderboards P E ws = Ok index_results /\
        List.map fst index_results = valid_sites /\
        Forall well_keyed index_results)
  /\ (forall table : list (pystr * (world -> result snapshot)),
        let index_results := List.map (ApiIndex.fetch_or_record ws) table in
        List.map fst index_results = List.map fst table /\
        Forall well_keyed index_results /\
        count_failures index_results
        = length (List.filter (fun sf => raises (snd sf (ws (fst sf)))) table) /\
        count_snapshots index_results
        = length (List.filter (fun sf => negb (raises (snd sf (ws (fst sf))))) table)).
Proof.
  intros resolve results.
  destruct (count_by_outcome (fun s => s) resolve valid_sites) as (Hcf & Hcs & Hk & Hwk).
  fold results in Hcf, Hcs, Hk, Hwk. rewrite List.map_id in Hk.
  assert (Hrun : fst (Server.get_all_leaderboards P E ws st) = Ok results).
  { unfold Server.get_all_leaderboards.
    pose proof (resolve_each_independent P E ws valid_sites st st valid_sites_NoDup
                  (fun s _ => eq_refl)) as Hind.
    destruct (Server.resolve_each P E valid_sites ws st) as [rs st'].
    simpl in *. now rewrite Hind. }
  split; [exact Hrun|]. split; [exact Hk|]. split; [reflexivity|].
  split; [exact Hwk|]. split; [exact Hcf|]. split; [|split; [reflexivity|split]].
  - intros bad e Hbad He Hothers.
    destruct (count_one (fun s => raises (resolve s)) valid_sites bad
                valid_sites_NoDup Hbad) as [H1 H3].
    + now rewrite He.
    + intros s Hs Hne. destruct (Hothers s Hs Hne) as [d ->]. reflexivity.
    + rewrite Hcf, Hcs, H1, H3. repeat split.
      apply list_elem_of_In, in_map_iff. exists bad. rewrite He.
      split; [reflexivity|]. now apply list_elem_of_In.
  - eexists. split; [reflexivity|].
    rewrite (fetch_or_record_eq ws (ApiIndex.fetch_table P E)).
    destruct (count_by_outcome fst (fun sf => snd sf (ws (fst sf)))
                (ApiIndex.fetch_table P E)) as (_ & _ & Hk' & Hwk').
    split; [exact Hk'|exact Hwk'].
  - intros table index_results. unfold index_results.
    rewrite (fetch_or_record_eq ws table).
    destruct (count_by_outcome fst (fun sf => snd sf (ws (fst sf))) table)
      as (Hcf' & Hcs' & Hk' & Hwk').
    repeat split; assumption.
Qed.

(** Provider A times out, the other three answer.  The caching variant
    returns one error record and three snapshots; the stateless variant,
    whose adapter for Provider A returns the failure as a snapshot, returns
    four snapshots, the first with status ["error"]. *)
Lemma get_all_leaderboards_isolates_failures_witness :
  exists results index_results,
    fst (Server.get_all_leaderboards no_parsers default_environ one_failing empty_store)
    = Ok results
    /\ ApiIndex.get_all_leaderboards no_parsers default_environ one_failing
       = Ok index_results
    /\ List.map (fun sb => match snd sb with
                           | Snapshot d => status d
                           | Failure f => JStr (failed_status f)
                           end) index_results
       = [str "error"; str "active"; str "active"; str "active"]
    /\ count_failures results = 1%nat /\ count_snapshots results = 3%nat.
Proof.
  destruct (get_all_leaderboards_isolates_failures no_parsers default_environ
              one_failing empty_store) as (Hrun & _ & _ & _ & _ & Hone & Hidx & _).
  eexists. eexists. split; [exact Hrun|]. split; [exact Hidx|].
  split; [vm_compute; reflexivity|].
  edestruct (Hone (lit "clash")) as (H1 & H3 & _).
  - unfold valid_sites. rewrite !elem_of_cons. left. reflexivity.
  - vm_compute. reflexivity.
  - intros s Hs Hne. unfold valid_sites in Hs. rewrite !elem_of_cons in Hs.
    destruct Hs as [->|[->|[->|[->|Hs]]]].
    + contradiction.
    + eexists. vm_compute. reflexivity.
    + eexists. vm_compute. reflexivity.
    + eexists. vm_compute. reflexivity.
    + now apply elem_of_nil in Hs.
  - split; assumption.
Defined.

(** With Provider C replaced by an adapter that raises, the stateless
    variant returns four entries: three snapshots and one error record. *)
Example index_one_adapter_made_to_fail :
  let results := List.map (ApiIndex.fetch_or_record one_failing)
                   table_with_failing_csbattle in
  List.map fst results = valid_sites
  /\ count_failures results = 1%nat /\ count_snapshots results = 3%nat
  /\ (lit "csbattle",
      Failure {| failed_site_id := lit "csbattle"; error := lit "boom";
                 failed_status := lit "error" |}) ∈ results.
Proof.
  repeat split; try (vm_compute; reflexivity).
  do 2 apply list_elem_of_further. apply list_elem_of_here.
Qed.

(** The statuses a cached failure can carry, on concrete requests. *)
Example cached_statuses :
  (exists d, Server.fetch_csbattle_data default_environ (sample_world timed_out) = Ok d
             /\ status d = JStr (lit "error"))
  /\ (exists d, Server.fetch_bsite_data no_parsers
                  (sample_world (ok_reply (dict [("maintenance", JBool true)]))) = Ok d
                /\ status d = JStr (lit "maintenance"))
  /\ (exists d, Server.fetch_skinfans_data no_parsers
                  {| csbattle_affiliate_id := []; csbattle_end_date := None;
                     skinfans_token := [] |}
                  (sample_world timed_out) = Ok d
                /\ status d = JStr (lit "not_configured")).
Proof.
  repeat split; eexists; (split; [vm_compute; reflexivity|reflexivity]).
Qed.

(** The fifteen sample entries come out by wager, largest first. *)
Example clash_fifteen_sorted :
  exists d,
    Server.fetch_clash_data (sample_world (ok_reply (JList fifteen_entries))) = Ok d
    /\ List.map wagered (users d)
       = List.map JInt [990; 880; 770; 720; 610; 540; 430; 350; 300; 260]
    /\ List.map prize (users d)
       = List.map JInt [380; 160; 80; 50; 15; 10; 5; 0; 0; 0].
Proof.
  eexists. split; [vm_compute; reflexivity|]. split; reflexivity.
Qed.

(** * Further properties of the code *)

(** ** Sanitizing and masking *)

Lemma sanitize_clean_id (s : pystr) :
  no_surrogates s -> sanitize_username (JStr s) = s.
Proof.
  unfold no_surrogates. induction 1 as [|c s Hc _ IH]; simpl in *; [reflexivity|].
  rewrite Hc. now f_equal.
Qed.

Lemma sanitize_no_surrogates (name : json) : no_surrogates (sanitize_username name).
Proof.
  assert (Hu : no_surrogates (lit "Unknown")) by (repeat constructor).
  destruct name; try exact Hu. simpl. unfold no_surrogates.
  induction s as [|c s IH]; simpl; constructor; [|exact IH].
  destruct (is_surrogate c) eqn:Hc; [reflexivity|exact Hc].
Qed.

(** X1. [sanitize_username] returns a string without surrogate code points,
    of the length of its input; it leaves such a string unchanged, so
    sanitizing twice is sanitizing once; anything that is not a string
    becomes ["Unknown"]. *)
Theorem sanitize_username_clean (name : json) :
  no_surrogates (sanitize_username name)
  /\ sanitize_username (JStr (sanitize_username name)) = sanitize_username name
  /\ (forall s, name = JStr s ->
        length (sanitize_username name) = length s /\
        (no_surrogates s -> sanitize_username name = s))
  /\ ((forall s, name <> JStr s) -> sanitize_username name = lit "Unknown").
Proof.
  split; [apply sanitize_no_surrogates|].
  split; [apply sanitize_clean_id, sanitize_no_surrogates|].
  split.
  - intros s ->. split; [apply length_sanitize_str|apply sanitize_clean_id].
  - intros Hn. destruct name; try reflexivity. now destruct (Hn s).
Qed.

(** A lone surrogate between two letters becomes a question mark. *)
Lemma sanitize_username_clean_witness :
  length (sanitize_username (JStr [65; 55296; 66]%N)) = 3%nat
  /\ sanitize_username (JStr [65; 55296; 66]%N) = lit "A?B"
  /\ sanitize_username (JInt 7) = lit "Unknown".
Proof.
  destruct (sanitize_username_clean (JStr [65; 55296; 66]%N)) as (_ & _ & Hs & _).
  destruct (Hs _ eq_refl) as [Hlen _].
  destruct (sanitize_username_clean (JInt 7)) as (_ & _ & _ & Hu).
  split; [exact Hlen|]. split; [reflexivity|].
  apply Hu. intros s. discriminate.
Defined.

Lemma mask_username_nonneg (name : json) (visible : nat) :
  mask_username name (Z.of_nat visible) =
  if (length (sanitize_username name) <=? visible)%nat
  then sanitize_username name
  else take visible (sanitize_username name)
       ++ replicate (Nat.min (length (sanitize_username name) - visible) 8) asterisk.
Proof.
  unfold mask_username. set (s := sanitize_username name).
  destruct (Nat.leb_spec (length s) visible) as [Hle|Hgt].
  - destruct (Z.leb_spec (Z.of_nat (length s)) (Z.of_nat visible)); [done|lia].
  - destruct (Z.leb_spec (Z.of_nat (length s)) (Z.of_nat visible)); [lia|].
    now rewrite py_prefix_nonneg, py_repeat_min.
Qed.

Lemma asterisk_not_surrogate : is_surrogate asterisk = false.
Proof. reflexivity. Qed.

Lemma mask_username_shape (name : json) (visible : nat) :
  masked_shape visible (mask_username name (Z.of_nat visible)).
Proof.
  rewrite mask_username_nonneg.
  pose proof (sanitize_no_surrogates name) as Hs.
  set (s := sanitize_username name) in *.
  destruct (Nat.leb_spec (length s) visible) as [Hle|Hgt]; unfold masked_shape.
  - rewrite drop_ge by lia. repeat split; [constructor|lia|exact Hs].
  - rewrite drop_app_length' by (rewrite length_take; lia).
    rewrite length_app, length_take, length_replicate.
    repeat split; [|lia|].
    + apply Forall_replicate. reflexivity.
    + apply Forall_app. split; [apply Forall_take; exact Hs|].
      apply Forall_replicate, asterisk_not_surrogate.
Qed.

(** X2. For every name and every [visible >= 0] the masked name shows at most
    its first [visible] characters: what follows is asterisks only, at most 8
    of them, so the result is never longer than [visible + 8]; and masking
    a masked name changes nothing. *)
Theorem mask_username_idempotent (name : json) (visible : nat) :
  masked_shape visible (mask_username name (Z.of_nat visible))
  /\ mask_username (JStr (mask_username name (Z.of_nat visible))) (Z.of_nat visible)
     = mask_username name (Z.of_nat visible).
Proof.
  split; [apply mask_username_shape|].
  destruct (mask_username_shape name visible) as (_ & _ & Hclean).
  rewrite (mask_username_nonneg (JStr _)), (sanitize_clean_id _ Hclean).
  rewrite mask_username_nonneg.
  set (s := sanitize_username name).
  destruct (Nat.leb_spec (length s) visible) as [Hle|Hgt].
  - destruct (Nat.leb_spec (length s) visible); [reflexivity|lia].
  - set (m := take visible s ++ replicate (Nat.min (length s - visible) 8) asterisk).
    assert (Hlen : length m = (visible + Nat.min (length s - visible) 8)%nat).
    { unfold m. rewrite length_app, length_take, length_replicate. lia. }
    destruct (Nat.leb_spec (length m) visible); [lia|].
    rewrite Hlen. unfold m. rewrite take_app_length' by (rewrite length_take; lia).
    f_equal. f_equal. lia.
Qed.

(** ** Static fields of a snapshot *)

Lemma carries_static_empty (id name : string) (config : site_config)
    (st : string) (msg : json) :
  carries_static id name config (empty_snapshot id name config st msg).
Proof. repeat split. Qed.

Lemma carries_static_stamped (id name : string) (config : site_config)
    (d : snapshot) (t : datetime) :
  carries_static id name config d ->
  carries_static id name config (set_last_updated d t).
Proof. unfold carries_static; simpl; tauto. Qed.

Lemma clash_try_static (now : datetime) (o : outcome) (lu : option datetime)
    (d : snapshot) :
  clash_try now o lu = Ok d ->
  carries_static "clash" "Clash.gg" clash_config d /\
  prize_pool d = JInt (cfg_prize_pool clash_config) /\ last_updated d = lu.
Proof.
  unfold clash_try. intros H. inv_bind H. inversion H; subst. repeat split.
Qed.

Lemma bsite_normalize_static (P : parsers) (data : json) (lu : option datetime)
    (d : snapshot) :
  bsite_normalize P data lu = Ok d ->
  carries_static "bsite" "B.site" bsite_config d /\ last_updated d = lu /\
  message d = None.
Proof.
  unfold bsite_normalize. intros H. inv_bind H. inversion H; subst. repeat split.
Qed.

Lemma csbattle_try_static (E : environ) (o : outcome) (lu : option datetime)
    (d : snapshot) :
  csbattle_try E o lu = Ok d ->
  carries_static "csbattle" "CSBattle" csbattle_config d /\
  prize_pool d = JInt (cfg_prize_pool csbattle_config) /\ last_updated d = lu /\
  countdown_end d = AtDatetime <$> csbattle_end_date E.
Proof.
  unfold csbattle_try. intros H. inv_bind H. inversion H; subst. repeat split.
Qed.

Lemma skinfans_try_static (P : parsers) (o : outcome) (lu : option datetime)
    (d : snapshot) :
  skinfans_try P o lu = Ok d ->
  carries_static "skinfans" "Skin.fans" skinfans_config d /\ last_updated d = lu /\
  (status d = active \/ status d = ended) /\ message d = None /\
  exists q, prize_pool d = JFloat q.
Proof.
  unfold skinfans_try. intros H. inv_bind H. inversion H; subst.
  cbn [status message prize_pool last_updated].
  repeat split; [|eauto].
  match goal with |- context [py_truthy ?x] => destruct (py_truthy x) end;
    [now left|now right].
Qed.

Lemma server_bsite_try_static (P : parsers) (o : outcome) (d : snapshot) :
  Server.bsite_try P o = Ok d ->
  carries_static "bsite" "B.site" bsite_config d /\ last_updated d = None.
Proof.
  unfold Server.bsite_try. intros H. inv_bind H.
  destruct (py_truthy a1).
  - inv_bind H. inversion H; subst. repeat split.
  - destruct (negb _); [discriminate|]. inv_bind H.
    destruct (_ && _); [discriminate|].
    apply bsite_normalize_static in H. tauto.
Qed.

Lemma index_bsite_try_static (P : parsers) (w : world) (d : snapshot) :
  ApiIndex.bsite_try P w = Ok d ->
  carries_static "bsite" "B.site" bsite_config d /\ last_updated d = Some (t_done w).
Proof.
  unfold ApiIndex.bsite_try. intros H. inv_bind H.
  destruct (py_truthy a1).
  - inv_bind H. inversion H; subst. repeat split.
  - apply bsite_normalize_static in H. tauto.
Qed.

(** X3. Whatever the provider sends, a snapshot returned by an adapter
    carries the adapter's own [site_id] and [site_name] and the configured
    currency and prize tiers; Providers A and C also keep the configured
    prize pool.  The caching variant leaves [last_updated] unset for the
    facade to stamp, the stateless variant sets it from its own clock. *)
Theorem adapters_static_fields (P : parsers) (E : environ) (w : world) (d : snapshot) :
  (Server.fetch_clash_data w = Ok d ->
   carries_static "clash" "Clash.gg" clash_config d /\
   prize_pool d = JInt 700 /\ last_updated d = None)
  /\ (Server.fetch_bsite_data P w = Ok d ->
      carries_static "bsite" "B.site" bsite_config d /\ last_updated d = None)
  /\ (Server.fetch_csbattle_data E w = Ok d ->
      carries_static "csbattle" "CSBattle" csbattle_config d /\
      prize_pool d = JInt 600 /\ last_updated d = None)
  /\ (Server.fetch_skinfans_data P E w = Ok d ->
      carries_static "skinfans" "Skin.fans" skinfans_config d /\
      last_updated d = None)
  /\ (ApiIndex.fetch_clash_data w = Ok d ->
      carries_static "clash" "Clash.gg" clash_config d /\
      prize_pool d = JInt 700 /\
      (last_updated d = Some (t_fetch w) \/ last_updated d = Some (t_done w)))
  /\ (ApiIndex.fetch_bsite_data P w = Ok d ->
      carries_static "bsite" "B.site" bsite_config d /\
      last_updated d = Some (t_done w))
  /\ (ApiIndex.fetch_csbattle_data E w = Ok d ->
      carries_static "csbattle" "CSBattle" csbattle_config d /\
      prize_pool d = JInt 600 /\ last_updated d = Some (t_done w))
  /\ (ApiIndex.fetch_skinfans_data P w = Ok d ->
      carries_static "skinfans" "Skin.fans" skinfans_config d /\
      last_updated d = Some (t_done w)).
Proof.
  repeat apply conj.
  - unfold Server.fetch_clash_data. intros H.
    destruct (clash_try (t_fetch w) (outbound w) None) eqn:Ht; [|discriminate].
    injection H as ->. now apply clash_try_static in Ht.
  - unfold Server.fetch_bsite_data. intros H.
    destruct (Server.bsite_try P (outbound w)) as [d'|e] eqn:Hb; simpl in H.
    + injection H as ->. now apply server_bsite_try_static in Hb.
    + destruct e; [discriminate|]. injection H as <-. repeat split.
  - unfold Server.fetch_csbattle_data. intros H.
    destruct (negb _); [injection H as <-; repeat split|].
    apply try_except_Ok in H as [H|(e & _ & ->)]; [|repeat split].
    apply csbattle_try_static in H. tauto.
  - unfold Server.fetch_skinfans_data. intros H.
    destruct (negb _); [injection H as <-; repeat split|].
    apply try_except_Ok in H as [H|(e & _ & ->)]; [|repeat split].
    apply skinfans_try_static in H. tauto.
  - intros H. apply try_except_Ok in H as [H|(e & _ & ->)].
    + apply clash_try_static in H. destruct H as (? & ? & ->). auto.
    + repeat split. now right.
  - intros H. apply try_except_Ok in H as [H|(e & _ & ->)]; [|repeat split].
    now apply index_bsite_try_static in H.
  - intros H. apply try_except_Ok in H as [H|(e & _ & ->)]; [|repeat split].
    apply csbattle_try_static in H. tauto.
  - intros H. apply try_except_Ok in H as [H|(e & _ & ->)]; [|repeat split].
    apply skinfans_try_static in H. tauto.
Qed.

(** The maintenance reply of Provider B still names the source. *)
Lemma adapters_static_fields_witness :
  exists d,
    Server.fetch_bsite_data no_parsers
      (sample_world (ok_reply (dict [("maintenance", JBool true)]))) = Ok d
    /\ carries_static "bsite" "B.site" bsite_config d /\ last_updated d = None.
Proof.
  eexists. split; [vm_compute; reflexivity|].
  apply (adapters_static_fields no_parsers default_environ
           (sample_world (ok_reply (dict [("maintenance", JBool true)])))).
  vm_compute. reflexivity.
Defined.

(** ** Names in a snapshot *)

Lemma for_each_Forall_out {A B} (f : A -> result B) (Q : B -> Prop)
    (l : list A) (ys : list B) :
  (forall x y, f x = Ok y -> Q y) -> for_each f l = Ok ys -> Forall Q ys.
Proof.
  intros HQ H. apply for_each_Forall2 in H.
  induction H; constructor; eauto.
Qed.

Lemma masked_user_of (u : user_entry) (name : json) :
  username u = JStr (mask_username name default_visible_chars) -> masked_user u.
Proof.
  intros H. eexists. split; [exact H|].
  apply (mask_username_shape name 2).
Qed.

Lemma clash_entry_masked (iu : nat * json) (u : user_entry) :
  clash_entry iu = Ok u -> masked_user u.
Proof.
  unfold clash_entry. intros H. inv_bind H. inversion H; subst.
  eapply masked_user_of. reflexivity.
Qed.

Lemma csbattle_entry_clean (iu : nat * json) (u : user_entry) :
  csbattle_entry iu = Ok u -> clean_user u.
Proof.
  unfold csbattle_entry. intros H. inv_bind H. inversion H; subst.
  eexists. split; [reflexivity|]. apply sanitize_no_surrogates.
Qed.

Lemma skinfans_loop_masked (P : parsers) (l : list (nat * json))
    (emitted : list (option user_entry)) :
  for_each (skinfans_place P) l = Ok emitted -> Forall masked_user (appended emitted).
Proof.
  revert emitted. induction l as [|ip l IH]; intros emitted H; simpl in H.
  - inversion H; subst. constructor.
  - apply bind_Ok in H as (o & Ho & H). apply bind_Ok in H as (em & Hem & H).
    inversion H; subst. specialize (IH _ Hem).
    unfold skinfans_place in Ho. inv_bind Ho.
    match type of Ho with context [py_truthy ?x] => destruct (py_truthy x) end.
    + inv_bind Ho. inversion Ho; subst. simpl. constructor; [|exact IH].
      eapply masked_user_of. reflexivity.
    + inversion Ho; subst. exact IH.
Qed.

Lemma masked_display_eq (name : json) :
  mask_username name default_visible_chars = masked_display (sanitize_username name).
Proof.
  unfold default_visible_chars. change 2 with (Z.of_nat 2).
  apply mask_username_nonneg.
Qed.

Lemma shows_masked_of (key : string) (x : json) (u : user_entry) (name : json) :
  py_get x key (JStr (lit "Unknown")) = Ok name ->
  username u = JStr (mask_username name default_visible_chars) ->
  shows_masked key x u.
Proof.
  intros Hn Hu. exists name. rewrite masked_display_eq in Hu.
  split; [exact Hn|]. split; [exact Hu|].
  intros s -> Hs. now rewrite Hu, sanitize_clean_id.
Qed.

Lemma clash_entry_shows (iu : nat * json) (u : user_entry) :
  clash_entry iu = Ok u -> shows_masked "name" (snd iu) u.
Proof.
  unfold clash_entry. intros H.
  apply bind_Ok in H as (name & Hn & H). inv_bind H. inversion H; subst.
  eapply shows_masked_of; [exact Hn|reflexivity].
Qed.

Lemma csbattle_entry_shows (iu : nat * json) (u : user_entry) :
  csbattle_entry iu = Ok u -> shows_in_full "username" (snd iu) u.
Proof.
  unfold csbattle_entry. intros H.
  apply bind_Ok in H as (name & Hn & H). inv_bind H. inversion H; subst.
  exists name. split; [exact Hn|]. split; [reflexivity|].
  intros s -> Hs. cbn [username]. now rewrite sanitize_clean_id.
Qed.

(** What a loop over [enumerate(l)] establishes between each item and its
    result holds between the items and the results, in order. *)
Lemma for_each_enumerate {B} (f : nat * json -> result B) (R : json -> B -> Prop)
    (l : list json) (ys : list B) :
  (forall iu y, f iu = Ok y -> R (snd iu) y) ->
  for_each f (enumerate l) = Ok ys -> Forall2 R l ys.
Proof.
  intros HR H. apply for_each_Forall2 in H. unfold enumerate in H.
  revert H. generalize 0%nat. revert ys.
  induction l as [|x l IH]; intros ys k H; simpl in H.
  - inversion H. constructor.
  - inversion H as [|? y ? ys' Hy Hrest]; subst.
    constructor; [exact (HR _ _ Hy)|]. exact (IH _ _ Hrest).
Qed.

Lemma skinfans_loop_shows (P : parsers) (l : list (nat * json))
    (emitted : list (option user_entry)) :
  for_each (skinfans_place P) l = Ok emitted ->
  Forall2 (fun ip u => exists user_data,
             py_get (snd ip) "user" (JDict []) = Ok user_data /\
             shows_masked "name" user_data u)
    (List.filter (fun ip => has_user (snd ip)) l) (appended emitted).
Proof.
  revert emitted. induction l as [|ip l IH]; intros emitted H; simpl in H.
  - inversion H; subst. constructor.
  - apply bind_Ok in H as (o & Ho & H). apply bind_Ok in H as (em & Hem & H).
    inversion H; subst. specialize (IH _ Hem).
    unfold skinfans_place in Ho.
    apply bind_Ok in Ho as (payout & _ & Ho). apply bind_Ok in Ho as (pz & _ & Ho).
    apply bind_Ok in Ho as (ud & Hud & Ho).
    cbn [List.filter]. unfold has_user at 1. rewrite Hud.
    destruct (py_truthy ud).
    + apply bind_Ok in Ho as (name & Hn & Ho). inv_bind Ho. inversion Ho; subst.
      simpl. constructor; [|exact IH].
      exists ud. split; [exact Hud|].
      eapply shows_masked_of; [exact Hn|reflexivity].
    + inversion Ho; subst. exact IH.
Qed.

Lemma csbattle_try_raw (E : environ) (o : outcome) (lu : option datetime)
    (d : snapshot) :
  csbattle_try E o lu = Ok d ->
  exists r data users_data sorted_users,
    o = Replied r /\ body r = Some data /\
    match data with
    | JDict _ => py_get data "users" data
    | _ => Ok data
    end = Ok users_data /\
    py_sorted_desc users_data "wager" = Ok sorted_users /\
    for_each csbattle_entry (enumerate (take 10 sorted_users)) = Ok (users d).
Proof.
  unfold csbattle_try. intros H.
  apply bind_Ok in H as (r & Hr & H). apply bind_Ok in H as (? & _ & H).
  apply bind_Ok in H as (data & Hdata & H). apply bind_Ok in H as (ud & Hud & H).
  apply bind_Ok in H as (su & Hsu & H). apply bind_Ok in H as (us & Hus & H).
  inversion H; subst; simpl.
  destruct o as [r'| |m]; simpl in Hr; try discriminate. injection Hr as ->.
  unfold response_json in Hdata. destruct (body r) as [j|] eqn:Hb; [|discriminate].
  injection Hdata as ->.
  exists r, data, ud, su. repeat split; assumption.
Qed.

(** X4. The names in a snapshot of Provider A or D are the provider's names
    masked: of a name of more than two characters the first two show,
    followed by one asterisk per remaining character, 8 at most; entry by
    entry, for Provider A the name of the raw entry at that sort position,
    for Provider D the name in the user object of the place.  The names in
    a snapshot of Provider C are the provider's [username]s, sanitized and
    shown in full.  The only snapshots without this correspondence are
    those of status ["error"] or ["not_configured"], which have no users. *)
Theorem snapshot_usernames (P : parsers) (E : environ) (w : world) (d : snapshot) :
  (Server.fetch_clash_data w = Ok d \/ ApiIndex.fetch_clash_data w = Ok d ->
   Forall masked_user (users d) /\
   ((users d = [] /\ (status d = str "error" \/ status d = str "not_configured")) \/
    exists r data sorted_users,
      outbound w = Replied r /\ body r = Some data /\
      py_sorted_desc data "wagered" = Ok sorted_users /\
      Forall2 (shows_masked "name") (take 10 sorted_users) (users d)))
  /\ (Server.fetch_skinfans_data P E w = Ok d \/ ApiIndex.fetch_skinfans_data P w = Ok d ->
      Forall masked_user (users d) /\
      ((users d = [] /\ (status d = str "error" \/ status d = str "not_configured")) \/
       exists r data race places ps,
         outbound w = Replied r /\ body r = Some data /\
         skinfans_race data = Ok race /\
         py_get race "places" (JList []) = Ok places /\
         py_slice_iter places 10 = Ok ps /\
         Forall2 (fun ip u => exists user_data,
                    py_get (snd ip) "user" (JDict []) = Ok user_data /\
                    shows_masked "name" user_data u)
           (List.filter (fun ip => has_user (snd ip)) (enumerate ps)) (users d)))
  /\ (Server.fetch_csbattle_data E w = Ok d \/ ApiIndex.fetch_csbattle_data E w = Ok d ->
      Forall clean_user (users d) /\
      ((users d = [] /\ (status d = str "error" \/ status d = str "not_configured")) \/
       exists r data users_data sorted_users,
         outbound w = Replied r /\ body r = Some data /\
         match data with
         | JDict _ => py_get data "users" data
         | _ => Ok data
         end = Ok users_data /\
         py_sorted_desc users_data "wager" = Ok sorted_users /\
         Forall2 (shows_in_full "username") (take 10 sorted_users) (users d))).
Proof.
  assert (Hclash : forall lu, clash_try (t_fetch w) (outbound w) lu = Ok d ->
            Forall masked_user (users d) /\
            ((users d = [] /\ (status d = str "error" \/ status d = str "not_configured")) \/
             exists r data sorted_users,
               outbound w = Replied r /\ body r = Some data /\
               py_sorted_desc data "wagered" = Ok sorted_users /\
               Forall2 (shows_masked "name") (take 10 sorted_users) (users d))).
  { intros lu H.
    destruct (clash_try_inv _ _ _ _ H) as (r & data & su & ? & Ho & _ & Hb & Hs & Hl & _).
    split.
    - eapply for_each_Forall_out; [|exact Hl]. apply clash_entry_masked.
    - right. exists r, data, su. repeat split; try assumption.
      eapply for_each_enumerate; [|exact Hl]. apply clash_entry_shows. }
  assert (Hskin : forall lu, skinfans_try P (outbound w) lu = Ok d ->
            Forall masked_user (users d) /\
            ((users d = [] /\ (status d = str "error" \/ status d = str "not_configured")) \/
             exists r data race places ps,
               outbound w = Replied r /\ body r = Some data /\
               skinfans_race data = Ok race /\
               py_get race "places" (JList []) = Ok places /\
               py_slice_iter places 10 = Ok ps /\
               Forall2 (fun ip u => exists user_data,
                          py_get (snd ip) "user" (JDict []) = Ok user_data /\
                          shows_masked "name" user_data u)
                 (List.filter (fun ip => has_user (snd ip)) (enumerate ps)) (users d))).
  { intros lu H.
    destruct (skinfans_try_inv _ _ _ _ H)
      as (r & data & race & places & ps & em & Ho & Hb & Hr & Hp & Hps & Hl & ->).
    split.
    - eapply skinfans_loop_masked. exact Hl.
    - right. exists r, data, race, places, ps. repeat split; try assumption.
      exact (skinfans_loop_shows P _ _ Hl). }
  assert (Hcs : forall lu, csbattle_try E (outbound w) lu = Ok d ->
            Forall clean_user (users d) /\
            ((users d = [] /\ (status d = str "error" \/ status d = str "not_configured")) \/
             exists r data users_data sorted_users,
               outbound w = Replied r /\ body r = Some data /\
               match data with
               | JDict _ => py_get data "users" data
               | _ => Ok data
               end = Ok users_data /\
               py_sorted_desc users_data "wager" = Ok sorted_users /\
               Forall2 (shows_in_full "username") (take 10 sorted_users) (users d))).
  { intros lu H.
    destruct (csbattle_try_raw _ _ _ _ H) as (r & data & ud & su & Ho & Hb & Hud & Hs & Hl).
    split.
    - eapply for_each_Forall_out; [|exact Hl]. apply csbattle_entry_clean.
    - right. exists r, data, ud, su. repeat split; try assumption.
      eapply for_each_enumerate; [|exact Hl]. apply csbattle_entry_shows. }
  assert (Hnone : forall (Q : user_entry -> Prop) (R : Prop) id name cfg st msg,
            d = empty_snapshot id name cfg st msg ->
            st = "error" \/ st = "not_configured" ->
            Forall Q (users d) /\
            ((users d = [] /\ (status d = str "error" \/ status d = str "not_configured"))
             \/ R)).
  { intros Q R id name cfg st' msg -> Hst. split; [constructor|left].
    split; [reflexivity|]. destruct Hst as [-> | ->]; [left|right]; reflexivity. }
  assert (Hnone' : forall (Q : user_entry -> Prop) (R : Prop) id name cfg st msg t,
            d = set_last_updated (empty_snapshot id name cfg st msg) t ->
            st = "error" \/ st = "not_configured" ->
            Forall Q (users d) /\
            ((users d = [] /\ (status d = str "error" \/ status d = str "not_configured"))
             \/ R)).
  { intros Q R id name cfg st' msg t -> Hst. split; [constructor|left].
    split; [reflexivity|]. destruct Hst as [-> | ->]; [left|right]; reflexivity. }
  split; [|split].
  - intros [H|H].
    + unfold Server.fetch_clash_data in H.
      destruct (clash_try (t_fetch w) (outbound w) None) eqn:Ht; [|discriminate].
      injection H as ->. eauto.
    + apply try_except_Ok in H as [H|(e & _ & Hd)]; [eauto|].
      eapply Hnone'; [exact Hd|now left].
  - intros [H|H].
    + unfold Server.fetch_skinfans_data in H.
      destruct (negb _);
        [injection H as H; eapply Hnone; [symmetry; exact H|now right]|].
      apply try_except_Ok in H as [H|(e & _ & Hd)]; [eauto|].
      eapply Hnone; [exact Hd|now left].
    + apply try_except_Ok in H as [H|(e & _ & Hd)]; [eauto|].
      eapply Hnone'; [exact Hd|now left].
  - intros [H|H].
    + unfold Server.fetch_csbattle_data in H.
      destruct (negb _);
        [injection H as H; eapply Hnone; [symmetry; exact H|now right]|].
      apply try_except_Ok in H as [H|(e & _ & Hd)]; [eauto|].
      eapply Hnone; [exact Hd|now left].
    + apply try_except_Ok in H as [H|(e & _ & Hd)]; [eauto|].
      eapply Hnone'; [exact Hd|now left].
Qed.

(** Three entries of Provider C come back by wager with their names in
    full, the missing one as ["Unknown"]; fed to Provider A's adapter, the
    fifteen sample entries come back with two characters showing. *)
Lemma snapshot_usernames_witness :
  (exists d,
     Server.fetch_clash_data (sample_world (ok_reply (JList fifteen_entries))) = Ok d
     /\ Forall masked_user (users d)
     /\ List.map username (users d)
        = [str "p0*"; str "p0*"; str "p1*"; str "p0*"; str "p0*";
           str "p1*"; str "p1*"; str "p1*"; str "p0*"; str "p1*"])
  /\ (exists d,
        Server.fetch_csbattle_data default_environ
          (sample_world (ok_reply (JList three_affiliates))) = Ok d
        /\ Forall clean_user (users d)
        /\ List.map username (users d) = [str "Bo"; str "Unknown"; str "Alexander"]).
Proof.
  split.
  - eexists. split; [vm_compute; reflexivity|]. split; [|vm_compute; reflexivity].
    match goal with
    | |- Forall masked_user (users ?d) =>
        destruct (snapshot_usernames no_parsers default_environ
                    (sample_world (ok_reply (JList fifteen_entries))) d) as (Hc & _)
    end.
    apply Hc. left. vm_compute. reflexivity.
  - eexists. split; [vm_compute; reflexivity|]. split; [|vm_compute; reflexivity].
    match goal with
    | |- Forall clean_user (users ?d) =>
        destruct (snapshot_usernames no_parsers default_environ
                    (sample_world (ok_reply (JList three_affiliates))) d) as (_ & _ & Hc)
    end.
    apply Hc. left. vm_compute. reflexivity.
Defined.

(** ** Provider B: maintenance and errors *)

(** X5. When Provider B's reply is an object with a truthy [maintenance],
    both variants return the maintenance snapshot, with the provider's [msg]
    or the variant's default text, whatever the HTTP status and the [error]
    flag of the reply. *)
Theorem bsite_maintenance_precedence (P : parsers) (w : world) (r : response)
    (kv : list (pystr * json)) :
  outbound w = Replied r -> body r = Some (JDict kv) ->
  py_truthy (default JNull (assoc kv (lit "maintenance"))) = true ->
  Server.fetch_bsite_data P w
  = Ok (empty_snapshot "bsite" "B.site" bsite_config "maintenance"
          (default (JStr (lit "B.site is currently under maintenance. Please check back later."))
             (assoc kv (lit "msg"))))
  /\ ApiIndex.fetch_bsite_data P w
     = Ok (set_last_updated
             (empty_snapshot "bsite" "B.site" bsite_config "maintenance"
                (default (JStr (lit "B.site is currently under maintenance."))
                   (assoc kv (lit "msg"))))
             (t_done w)).
Proof.
  intros Ho Hb Hm. split.
  - unfold Server.fetch_bsite_data, Server.bsite_try. rewrite Ho.
    cbn [http_request mbind result_bind]. unfold response_json. rewrite Hb.
    cbn [mbind result_bind py_get]. rewrite Hm. reflexivity.
  - unfold ApiIndex.fetch_bsite_data, ApiIndex.bsite_try. rewrite Ho.
    cbn [http_request mbind result_bind]. unfold response_json. rewrite Hb.
    cbn [mbind result_bind py_get]. rewrite Hm. reflexivity.
Qed.

Lemma bsite_maintenance_precedence_witness :
  exists d,
    Server.fetch_bsite_data no_parsers (sample_world bsite_maintenance_reply) = Ok d
    /\ status d = JStr (lit "maintenance")
    /\ message d = Some (str "back soon").
Proof.
  destruct (bsite_maintenance_precedence no_parsers
              (sample_world bsite_maintenance_reply)
              {| status_code := 503;
                 body := Some (dict [("maintenance", JBool true);
                                     ("error", JBool true);
                                     ("msg", str "back soon")]) |}
              [(lit "maintenance", JBool true); (lit "error", JBool true);
               (lit "msg", str "back soon")])
    as [Hs _]; [reflexivity..|].
  eexists. split; [exact Hs|]. split; reflexivity.
Defined.

Lemma py_only_ok {A} (a : A) : py_only (Ok a).
Proof. intros c t. discriminate. Qed.

Lemma py_only_pyexc {A} (cls : string) (m : pystr) : py_only (@Raise A (PyExc cls m)).
Proof. intros c t. discriminate. Qed.

Lemma py_only_bind {A B} (m : result A) (k : A -> result B) :
  py_only m -> (forall a, py_only (k a)) -> py_only (m ≫= k).
Proof.
  intros Hm Hk c t. destruct m as [a|e]; simpl; [apply Hk|].
  intros [= ->]. now apply (Hm c t).
Qed.

Lemma py_only_for_each {A B} (f : A -> result B) (l : list A) :
  (forall x, py_only (f x)) -> py_only (for_each f l).
Proof.
  intros Hf. induction l as [|x l IH]; simpl; [apply py_only_ok|].
  apply py_only_bind; [apply Hf|]. intros y.
  apply py_only_bind; [exact IH|]. intros ys. apply py_only_ok.
Qed.

Lemma py_only_get (x : json) (key : string) (dflt : json) : py_only (py_get x key dflt).
Proof. destruct x; simpl; first [apply py_only_ok|apply py_only_pyexc]. Qed.

Lemma py_only_index (x : json) (key : string) : py_only (py_index x key).
Proof.
  destruct x; simpl; try apply py_only_pyexc.
  destruct (assoc d (lit key)); [apply py_only_ok|apply py_only_pyexc].
Qed.

Lemma py_only_iter (x : json) : py_only (py_iter x).
Proof. destruct x; simpl; first [apply py_only_ok|apply py_only_pyexc]. Qed.

Lemma py_only_slice_iter (x : json) (n : nat) : py_only (py_slice_iter x n).
Proof. destruct x; simpl; first [apply py_only_ok|apply py_only_pyexc]. Qed.

Lemma py_only_round2 (x : json) : py_only (py_round2 x).
Proof. destruct x; simpl; first [apply py_only_ok|apply py_only_pyexc]. Qed.

Lemma py_only_lookup (lk : list (json * json)) (k dflt : json) :
  py_only (prize_lookup_get lk k dflt).
Proof.
  unfold prize_lookup_get. destruct (hashable k);
    [apply py_only_ok|apply py_only_pyexc].
Qed.

Ltac py_only_step :=
  first [ apply py_only_ok | apply py_only_pyexc | apply py_only_get
        | apply py_only_index | apply py_only_iter | apply py_only_slice_iter
        | apply py_only_round2 | apply py_only_lookup
        | apply py_only_bind; [|intros ?] ].

Lemma py_only_reward_pair (r : json) : py_only (reward_pair r).
Proof.
  unfold reward_pair. repeat py_only_step.
  destruct (hashable _); py_only_step.
Qed.

Lemma py_only_bsite_entry (lk : list (json * json)) (x : json) :
  py_only (bsite_entry lk x).
Proof. unfold bsite_entry. repeat py_only_step. Qed.

Lemma py_only_bsite_normalize (P : parsers) (data : json) (lu : option datetime) :
  py_only (bsite_normalize P data lu).
Proof.
  unfold bsite_normalize. repeat py_only_step.
  - apply py_only_for_each, py_only_reward_pair.
  - apply py_only_for_each, py_only_bsite_entry.
Qed.

(** X6. In the caching variant Provider B's adapter raises in two cases
    only, both on a reply that is a JSON object without a truthy
    [maintenance]: a status other than 200 raises an [HTTPException] with
    that status, and a status 200 with a truthy [error] raises an
    [HTTPException] with status 500.  Everything else is returned as a
    snapshot. *)
Theorem server_bsite_raises (P : parsers) (w : world) (e : exn) :
  Server.fetch_bsite_data P w = Raise e <->
  exists r kv,
    outbound w = Replied r /\ body r = Some (JDict kv) /\
    py_truthy (default JNull (assoc kv (lit "maintenance"))) = false /\
    ((status_code r <> 200 /\
      e = HTTPException (status_code r)
            (lit "B.site API error: " ++ lit (pretty (status_code r))))
     \/ (status_code r = 200 /\
         py_truthy (default JNull (assoc kv (lit "error"))) = true /\
         e = HTTPException 500 (lit "B.site API returned an error"))).
Proof.
  split.
  - unfold Server.fetch_bsite_data. intros H.
    destruct (Server.bsite_try P (outbound w)) as [d|e'] eqn:Hb; [discriminate|].
    simpl in H. destruct e' as [c t|cls m]; [|discriminate]. injection H as <-.
    unfold Server.bsite_try in Hb.
    destruct (outbound w) as [r|m|m]; try discriminate.
    cbn [http_request mbind result_bind] in Hb.
    unfold response_json in Hb. destruct (body r) as [data|] eqn:Hbody; [|discriminate].
    cbn [mbind result_bind] in Hb.
    destruct data as [| | | | | |kv]; try discriminate.
    cbn [py_get mbind result_bind] in Hb.
    exists r, kv. split; [reflexivity|]. split; [exact Hbody|].
    destruct (py_truthy (default JNull (assoc kv (lit "maintenance")))) eqn:Hm;
      [discriminate|].
    split; [reflexivity|].
    destruct (Z.eqb_spec (status_code r) 200) as [H200|H200]; cbn [negb] in Hb.
    + right. split; [exact H200|].
      destruct (py_truthy (default JNull (assoc kv (lit "error")))) eqn:He;
        cbn [andb negb] in Hb.
      * split; [reflexivity|]. now injection Hb as <- <-.
      * exfalso. exact (py_only_bsite_normalize P (JDict kv) None c t Hb).
    + left. split; [exact H200|]. now injection Hb as <- <-.
  - intros (r & kv & Ho & Hbody & Hm & Hcase).
    unfold Server.fetch_bsite_data, Server.bsite_try. rewrite Ho.
    cbn [http_request mbind result_bind]. unfold response_json. rewrite Hbody.
    cbn [mbind result_bind py_get]. rewrite Hm.
    destruct Hcase as [[H200 ->]|(H200 & He & ->)].
    + destruct (Z.eqb_spec (status_code r) 200); [contradiction|]. reflexivity.
    + rewrite H200. cbn [Z.eqb Pos.eqb negb]. rewrite He. reflexivity.
Qed.

(** A 503 with an empty object as body is raised as a 503. *)
Lemma server_bsite_raises_witness :
  Server.fetch_bsite_data no_parsers
    (sample_world (Replied {| status_code := 503; body := Some (JDict []) |}))
  = Raise (HTTPException 503 (lit "B.site API error: 503")).
Proof.
  apply (proj2 (server_bsite_raises no_parsers
                  (sample_world (Replied {| status_code := 503;
                                            body := Some (JDict []) |}))
                  (HTTPException 503 (lit "B.site API error: 503")))).
  exists {| status_code := 503; body := Some (JDict []) |}, [].
  repeat split. left. split; [discriminate|reflexivity].
Defined.

(** ** Provider C *)

Lemma csbattle_try_wrapper (E : environ) (c : Z) (kv : list (pystr * json))
    (l : list json) (lu : option datetime) :
  assoc kv (lit "users") = Some (JList l) ->
  csbattle_try E (Replied {| status_code := c; body := Some (JDict kv) |}) lu
  = csbattle_try E (Replied {| status_code := c; body := Some (JList l) |}) lu.
Proof.
  intros Hu. unfold csbattle_try. cbn [http_request mbind result_bind].
  change (raise_for_status {| status_code := c; body := Some (JDict kv) |})
    with (raise_for_status {| status_code := c; body := Some (JList l) |}).
  destruct (raise_for_status {| status_code := c; body := Some (JList l) |})
    as [[]|e]; [|reflexivity].
  cbn [mbind result_bind]. unfold response_json. cbn [body mbind result_bind py_get].
  rewrite Hu. reflexivity.
Qed.

(** X7. Provider C may answer with the bare list of entries or with an
    object holding the list under [users]: both variants return the same
    result for the two shapes.  An object without [users] is an empty
    leaderboard when it is empty and a failure otherwise. *)
Theorem csbattle_reply_shapes (E : environ) (w : world) (c : Z)
    (kv : list (pystr * json)) :
  outbound w = Replied {| status_code := c; body := Some (JDict kv) |} ->
  (forall l, assoc kv (lit "users") = Some (JList l) ->
     let w' := with_outbound w (Replied {| status_code := c; body := Some (JList l) |}) in
     Server.fetch_csbattle_data E w = Server.fetch_csbattle_data E w' /\
     ApiIndex.fetch_csbattle_data E w = ApiIndex.fetch_csbattle_data E w')
  /\ (200 <= c <= 299 -> kv = [] ->
      exists d, ApiIndex.fetch_csbattle_data E w = Ok d /\
                users d = [] /\ status d = active)
  /\ (assoc kv (lit "users") = None -> kv <> [] ->
      returns_error csbattle_config (ApiIndex.fetch_csbattle_data E w)).
Proof.
  intros Ho. split; [|split].
  - intros l Hu w'. unfold Server.fetch_csbattle_data, ApiIndex.fetch_csbattle_data.
    unfold w', with_outbound; cbn [outbound t_done]. rewrite Ho.
    now rewrite !(csbattle_try_wrapper E c kv l).
  - intros Hc ->. unfold ApiIndex.fetch_csbattle_data, csbattle_try. rewrite Ho.
    cbn [http_request mbind result_bind].
    rewrite raise_for_status_2xx by exact Hc.
    eexists. split; [reflexivity|]. split; reflexivity.
  - intros Hu Hne. unfold ApiIndex.fetch_csbattle_data.
    assert (Hraise : exists e, csbattle_try E (outbound w) (Some (t_done w)) = Raise e).
    { unfold csbattle_try. rewrite Ho. cbn [http_request mbind result_bind].
      destruct (raise_for_status _) as [[]|e]; cbn [mbind result_bind]; [|eauto].
      unfold response_json. cbn [body mbind result_bind py_get]. rewrite Hu.
      cbn [default]. destruct kv as [|[k v] kv]; [done|].
      unfold py_sorted_desc. cbn. eauto. }
    destruct Hraise as [e ->]. cbn [try_except].
    eexists. split; [reflexivity|].
    apply error_shaped_stamped, error_shaped_empty.
Qed.

(** The eight sample entries, wrapped and bare. *)
Lemma csbattle_reply_shapes_witness :
  let w := sample_world (Replied {| status_code := 200;
                                    body := Some (JDict wrapped_affiliates) |}) in
  let w' := with_outbound w (Replied {| status_code := 200;
                                        body := Some (JList eight_affiliates) |}) in
  Server.fetch_csbattle_data default_environ w
  = Server.fetch_csbattle_data default_environ w'.
Proof.
  intros w w'.
  destruct (csbattle_reply_shapes default_environ w 200 wrapped_affiliates eq_refl)
    as (Hw & _).
  exact (proj1 (Hw eight_affiliates eq_refl)).
Defined.








(** Wagers written as floats are rounded as doubles: 2.665 is read as a
    double just above the half-way point and rounds up, 2.675 just below
    and rounds down. *)
Example csbattle_float_wagers :
  exists d,
    Server.fetch_csbattle_data default_environ
      (sample_world (ok_reply (JList [dict [("username", str "ann"); ("wager", JFloat (2665 # 1000))];
                                      dict [("username", str "bob"); ("wager", JFloat (2675 # 1000))]])))
    = Ok d /\
    List.map wagered (users d)
    = [JFloat (to_double (267 # 100)); JFloat (to_double (267 # 100))] /\
    List.map username (users d) = [str "bob"; str "ann"] /\
    List.map prize (users d) = List.map JInt [300; 150].
Proof. eexists. split; [vm_compute; reflexivity|]. repeat split; vm_compute; reflexivity. Qed.

(** ** The facade of the caching variant *)

Lemma server_clash_raise (w : world) (e : exn) :
  Server.fetch_clash_data w = Raise e -> exists m, e = HTTPException 500 m.
Proof.
  unfold Server.fetch_clash_data.
  destruct (clash_try _ _ _); simpl; [discriminate|]. intros [= <-]. eauto.
Qed.

Lemma server_bsite_raise (P : parsers) (w : world) (e : exn) :
  Server.fetch_bsite_data P w = Raise e -> exists c m, e = HTTPException c m.
Proof.
  unfold Server.fetch_bsite_data.
  destruct (Server.bsite_try _ _) as [d|[c m|cls m]]; simpl; try discriminate.
  intros [= <-]. eauto.
Qed.

Lemma server_csbattle_returns (E : environ) (w : world) :
  exists d, Server.fetch_csbattle_data E w = Ok d.
Proof.
  unfold Server.fetch_csbattle_data.
  destruct (negb _); [eauto|]. destruct (csbattle_try _ _ _); simpl; eauto.
Qed.

Lemma server_skinfans_returns (P : parsers) (E : environ) (w : world) :
  exists d, Server.fetch_skinfans_data P E w = Ok d.
Proof.
  unfold Server.fetch_skinfans_data.
  destruct (negb _); [eauto|]. destruct (skinfans_try _ _ _); simpl; eauto.
Qed.

Lemma valid_sites_cases (s : pystr) :
  s ∈ valid_sites ->
  s = lit "clash" \/ s = lit "bsite" \/ s = lit "csbattle" \/ s = lit "skinfans".
Proof.
  unfold valid_sites. rewrite !elem_of_cons, elem_of_nil. tauto.
Qed.

Lemma get_cached_or_fetch_unknown_miss (P : parsers) (E : environ) (site_id : pystr)
    (w : world) (st : Server.state) :
  site_id ∉ valid_sites ->
  Server.cache_lookup site_id (t_request w) st = None ->
  Server.get_cached_or_fetch P E site_id w st
  = (Raise (HTTPException 404 (lit "Unknown site: " ++ site_id)), st).
Proof.
  intros Hn Hm. unfold Server.get_cached_or_fetch.
  now rewrite Hm, (fetch_functions_unknown P E site_id Hn).
Qed.

(** X9. [get_leaderboard] checks the id first: an unknown id gets the 404
    that lists the valid ids and the state is left alone; a known id is
    resolved by [get_cached_or_fetch].  What the endpoint raises is always an
    [HTTPException]: the 404, a 500 from Provider A, or Provider B's own; for
    Providers C and D it never raises. *)
Theorem get_leaderboard_spec (P : parsers) (E : environ) (site_id : pystr)
    (w : world) (st : Server.state) :
  let run := Server.get_leaderboard P E site_id w st in
  (site_id ∉ valid_sites -> run = (Raise invalid_site, st))
  /\ (site_id ∈ valid_sites -> run = Server.get_cached_or_fetch P E site_id w st)
  /\ (forall e, fst run = Raise e ->
        ((site_id ∉ valid_sites) /\ e = invalid_site) \/
        (site_id = lit "clash" /\ exists m, e = HTTPException 500 m) \/
        (site_id = lit "bsite" /\ exists c m, e = HTTPException c m))
  /\ (site_id = lit "csbattle" \/ site_id = lit "skinfans" ->
      exists d, fst run = Ok d).
Proof.
  intros run.
  assert (Hunk : site_id ∉ valid_sites -> run = (Raise invalid_site, st)).
  { intros Hn. unfold run, Server.get_leaderboard.
    now rewrite (bool_decide_eq_false_2 _ Hn). }
  assert (Hkn : site_id ∈ valid_sites ->
            run = Server.get_cached_or_fetch P E site_id w st).
  { intros Hin. unfold run, Server.get_leaderboard.
    now rewrite (bool_decide_eq_true_2 _ Hin). }
  assert (Hres : site_id ∈ valid_sites ->
            (exists d, fst run = Ok d) \/
            (exists e, fst run = Raise e /\
               ((site_id = lit "clash" /\ exists m, e = HTTPException 500 m) \/
                (site_id = lit "bsite" /\ exists c m, e = HTTPException c m)))).
  { intros Hin. rewrite (Hkn Hin).
    destruct (Server.cache_lookup site_id (t_request w) st) as [hit|] eqn:Hl.
    { left. unfold Server.get_cached_or_fetch. rewrite Hl. eauto. }
    destruct (valid_sites_cases site_id Hin) as [-> | [-> | [-> | ->]]].
    - rewrite (get_cached_or_fetch_miss P E _ w st Server.fetch_clash_data Hl eq_refl).
      destruct (Server.fetch_clash_data w) as [d|e] eqn:Hf; [left; eauto|].
      right. exists e. split; [reflexivity|]. left. split; [reflexivity|].
      eapply server_clash_raise; eassumption.
    - rewrite (get_cached_or_fetch_miss P E _ w st (Server.fetch_bsite_data P) Hl eq_refl).
      destruct (Server.fetch_bsite_data P w) as [d|e] eqn:Hf; [left; eauto|].
      right. exists e. split; [reflexivity|]. right. split; [reflexivity|].
      eapply server_bsite_raise; eassumption.
    - rewrite (get_cached_or_fetch_miss P E _ w st (Server.fetch_csbattle_data E) Hl eq_refl).
      destruct (server_csbattle_returns E w) as [d ->]. left; eauto.
    - rewrite (get_cached_or_fetch_miss P E _ w st (Server.fetch_skinfans_data P E) Hl eq_refl).
      destruct (server_skinfans_returns P E w) as [d ->]. left; eauto. }
  split; [exact Hunk|]. split; [exact Hkn|]. split.
  - intros e He. destruct (decide (site_id ∈ valid_sites)) as [Hin|Hn].
    + destruct (Hres Hin) as [[d Hd]|(e' & He' & Hc)]; [congruence|].
      rewrite He in He'. injection He' as <-. now right.
    + left. split; [exact Hn|]. rewrite (Hunk Hn) in He. now injection He.
  - intros Hs.
    assert (Hin : site_id ∈ valid_sites).
    { unfold valid_sites. rewrite !elem_of_cons. tauto. }
    destruct (Hres Hin) as [Hd|(e' & He' & [[-> _]|[-> _]])]; [exact Hd|..];
      destruct Hs; discriminate.
Qed.

(** An id that is not registered: 404, nothing touched. *)
Lemma get_leaderboard_spec_witness :
  Server.get_leaderboard no_parsers default_environ (lit "roobet")
    (sample_world timed_out) store_with_timeout
  = (Raise (HTTPException 404
              (lit "Invalid site. Valid sites: clash, bsite, csbattle, skinfans")),
     store_with_timeout).
Proof.
  apply (proj1 (get_leaderboard_spec no_parsers default_environ (lit "roobet")
                  (sample_world timed_out) store_with_timeout)).
  unfold valid_sites. rewrite !not_elem_of_cons.
  repeat split; try discriminate. apply not_elem_of_nil.
Defined.

(** ** What the store holds *)

Lemma server_fetch_site_id (P : parsers) (E : environ) (w : world) (d : snapshot) :
  (Server.fetch_clash_data w = Ok d -> site_id d = lit "clash")
  /\ (Server.fetch_bsite_data P w = Ok d -> site_id d = lit "bsite")
  /\ (Server.fetch_csbattle_data E w = Ok d -> site_id d = lit "csbattle")
  /\ (Server.fetch_skinfans_data P E w = Ok d -> site_id d = lit "skinfans").
Proof.
  repeat apply conj.
  - unfold Server.fetch_clash_data. intros H.
    destruct (clash_try (t_fetch w) (outbound w) None) eqn:Ht; [|discriminate].
    injection H as ->. apply clash_try_static in Ht. apply Ht.
  - unfold Server.fetch_bsite_data. intros H.
    destruct (Server.bsite_try P (outbound w)) as [d'|e] eqn:Hb; simpl in H.
    + injection H as ->. apply server_bsite_try_static in Hb. apply Hb.
    + destruct e; [discriminate|]. injection H as <-. reflexivity.
  - unfold Server.fetch_csbattle_data. intros H.
    destruct (negb _); [injection H as <-; reflexivity|].
    apply try_except_Ok in H as [H|(e & _ & ->)]; [|reflexivity].
    apply csbattle_try_static in H. apply H.
  - unfold Server.fetch_skinfans_data. intros H.
    destruct (negb _); [injection H as <-; reflexivity|].
    apply try_except_Ok in H as [H|(e & _ & ->)]; [|reflexivity].
    apply skinfans_try_static in H. apply H.
Qed.

Lemma fetch_functions_site_id (P : parsers) (E : environ) (s : pystr)
    (fetch : world -> result snapshot) (w : world) (d : snapshot) :
  Server.fetch_functions P E s = Some fetch -> fetch w = Ok d ->
  s ∈ valid_sites /\ site_id d = s.
Proof.
  intros Hf Hd.
  destruct (decide (s ∈ valid_sites)) as [Hin|Hn];
    [|rewrite (fetch_functions_unknown P E s Hn) in Hf; discriminate].
  split; [exact Hin|].
  destruct (server_fetch_site_id P E w d) as (Ha & Hb & Hc & Hd').
  destruct (valid_sites_cases s Hin) as [-> | [-> | [-> | ->]]];
    injection Hf as <-; auto.
Qed.

Lemma doc_of_cache_update (s s' : pystr) (d : snapshot) (now : datetime)
    (st : Server.state) (rec : Server.cache_record) :
  doc_of (Server.cache_update s d now st) s' = Some rec ->
  (s' = s /\ rec = {| Server.doc_data := d; Server.doc_last_updated := now |}) \/
  (s' <> s /\ doc_of st s' = Some rec).
Proof.
  unfold doc_of, Server.cache_update. simpl.
  destruct (Server.db st) as [coll|]; simpl; [|discriminate].
  destruct (decide (s' = s)) as [->|Hne].
  - rewrite lookup_insert_eq. intros [= <-]. now left.
  - rewrite lookup_insert_ne by congruence. now right.
Qed.

Lemma doc_of_cache_delete (s s' : pystr) (st : Server.state) :
  doc_of (Server.cache_delete s st) s'
  = if decide (s' = s) then None else doc_of st s'.
Proof.
  unfold doc_of, Server.cache_delete. simpl.
  destruct (Server.db st) as [coll|]; simpl; [|now destruct (decide _)].
  destruct (decide (s' = s)) as [->|Hne].
  - apply lookup_delete_eq.
  - apply lookup_delete_ne. congruence.
Qed.

Lemma consistent_get_cached_or_fetch (P : parsers) (E : environ) (s : pystr)
    (w : world) (st : Server.state) :
  store_consistent st ->
  store_consistent (snd (Server.get_cached_or_fetch P E s w st)).
Proof.
  intros Hc. unfold Server.get_cached_or_fetch.
  destruct (Server.cache_lookup s (t_request w) st); [exact Hc|].
  destruct (Server.fetch_functions P E s) as [fetch|] eqn:Hf; [|exact Hc].
  destruct (fetch w) as [d|e] eqn:Hd; [|exact Hc].
  cbn [snd]. intros s' rec Hdoc.
  apply doc_of_cache_update in Hdoc as [[-> ->]|[_ Hdoc]].
  - destruct (fetch_functions_site_id P E s fetch w d Hf Hd) as [Hin Hid].
    repeat split; [exact Hin|exact Hid].
  - exact (Hc s' rec Hdoc).
Qed.

Lemma consistent_cache_delete (s : pystr) (st : Server.state) :
  store_consistent st -> store_consistent (Server.cache_delete s st).
Proof.
  intros Hc s' rec. rewrite doc_of_cache_delete.
  destruct (decide (s' = s)); [discriminate|apply Hc].
Qed.

Lemma consistent_resolve_each (P : parsers) (E : environ) (ws : pystr -> world)
    (sites : list pystr) (st : Server.state) :
  store_consistent st ->
  store_consistent (snd (Server.resolve_each P E sites ws st)).
Proof.
  revert st. induction sites as [|s sites IH]; intros st Hc; [exact Hc|].
  cbn [Server.resolve_each].
  pose proof (consistent_get_cached_or_fetch P E s (ws s) st Hc) as H1.
  destruct (Server.get_cached_or_fetch P E s (ws s) st) as [r st1].
  specialize (IH st1 H1).
  destruct (Server.resolve_each P E sites ws st1) as [rest st2]. exact IH.
Qed.

(** X10. The operations of the facade keep the store consistent: every
    document sits under a known site id, holds a snapshot of that site and
    carries the snapshot's own [last_updated].  On a consistent store a hit
    returns the stored snapshot exactly as it was written, and an id that is
    not registered always gets the 404 ["Unknown site: <id>"] with nothing
    called and nothing written. *)
Theorem store_stays_consistent (P : parsers) (E : environ) (site_id : pystr)
    (w : world) (ws : pystr -> world) (st : Server.state) :
  store_consistent st ->
  store_consistent (snd (Server.get_cached_or_fetch P E site_id w st))
  /\ store_consistent (snd (Server.get_leaderboard P E site_id w st))
  /\ store_consistent (snd (Server.refresh_leaderboard P E site_id w st))
  /\ store_consistent (snd (Server.get_all_leaderboards P E ws st))
  /\ (forall rec, fresh_record st site_id (t_request w) rec ->
        Server.get_cached_or_fetch P E site_id w st = (Ok (Server.doc_data rec), st))
  /\ (site_id ∉ valid_sites ->
      Server.get_cached_or_fetch P E site_id w st
      = (Raise (HTTPException 404 (lit "Unknown site: " ++ site_id)), st)).
Proof.
  intros Hc. repeat apply conj.
  - now apply consistent_get_cached_or_fetch.
  - unfold Server.get_leaderboard. destruct (negb _); [exact Hc|].
    now apply consistent_get_cached_or_fetch.
  - unfold Server.refresh_leaderboard. destruct (negb _); [exact Hc|].
    pose proof (consistent_get_cached_or_fetch P E site_id w _
                  (consistent_cache_delete site_id st Hc)) as H.
    destruct (Server.get_cached_or_fetch P E site_id w (Server.cache_delete site_id st))
      as [[d|e] st']; exact H.
  - unfold Server.get_all_leaderboards.
    pose proof (consistent_resolve_each P E ws valid_sites st Hc) as H.
    destruct (Server.resolve_each P E valid_sites ws st) as [rs st']. exact H.
  - intros rec Hfr. unfold Server.get_cached_or_fetch.
    rewrite (cache_lookup_fresh _ _ _ _ Hfr).
    destruct Hfr as (coll & Hdb & Hrec & _).
    destruct (Hc site_id rec) as (_ & _ & Hlu).
    { unfold doc_of. rewrite Hdb. exact Hrec. }
    destruct rec as [data lu]. destruct data. simpl in *. now rewrite Hlu.
  - intros Hn. apply get_cached_or_fetch_unknown_miss; [exact Hn|].
    unfold Server.cache_lookup.
    destruct (Server.db st) as [coll|] eqn:Hdb; simpl; [|reflexivity].
    destruct (coll !! site_id) as [rec|] eqn:Hrec; simpl; [|reflexivity].
    destruct (Hc site_id rec) as (Hin & _); [|contradiction].
    unfold doc_of. rewrite Hdb. exact Hrec.
Qed.

Lemma empty_store_consistent : store_consistent empty_store.
Proof. intros s rec H. unfold doc_of in H. simpl in H. now rewrite lookup_empty in H. Qed.

(** From the empty store: after one request for Provider C the store is
    consistent, and a request under an unregistered id is a 404. *)
Lemma store_stays_consistent_witness :
  store_consistent
    (snd (Server.get_cached_or_fetch no_parsers default_environ (lit "csbattle")
            (sample_world timed_out) empty_store))
  /\ Server.get_cached_or_fetch no_parsers default_environ (lit "roobet")
       (sample_world timed_out) empty_store
     = (Raise (HTTPException 404 (lit "Unknown site: roobet")), empty_store).
Proof.
  destruct (store_stays_consistent no_parsers default_environ (lit "csbattle")
              (sample_world timed_out) one_failing empty_store empty_store_consistent)
    as (H1 & _).
  destruct (store_stays_consistent no_parsers default_environ (lit "roobet")
              (sample_world timed_out) one_failing empty_store empty_store_consistent)
    as (_ & _ & _ & _ & _ & H6).
  split; [exact H1|]. apply H6.
  unfold valid_sites. rewrite !not_elem_of_cons.
  repeat split; try discriminate. apply not_elem_of_nil.
Defined.

(** X11. A refresh of a known site touches that site's document only.
    Afterwards the site holds the freshly stamped snapshot when the adapter
    returned one and a store is configured, and no document at all when the
    adapter raised: the old document is gone either way. *)
Theorem refresh_leaderboard_store (P : parsers) (E : environ) (site_id : pystr)
    (w : world) (st : Server.state) :
  site_id ∈ valid_sites ->
  let now := t_request w in
  let st' := snd (Server.refresh_leaderboard P E site_id w st) in
  (forall other, other <> site_id -> doc_of st' other = doc_of st other)
  /\ exists fetch, Server.fetch_functions P E site_id = Some fetch /\
       doc_of st' site_id
       = match Server.db st, fetch w with
         | Some _, Ok data =>
             Some {| Server.doc_data := set_last_updated data now;
                     Server.doc_last_updated := now |}
         | _, _ => None
         end.
Proof.
  intros Hin now st'.
  destruct (fetch_functions_known P E site_id Hin) as [fetch Hf].
  assert (Hrun : st' = match fetch w with
                       | Ok data => after_fetch (Server.cache_delete site_id st)
                                      site_id data now
                       | Raise _ => Server.log_call site_id
                                      (Server.cache_delete site_id st)
                       end).
  { unfold st', Server.refresh_leaderboard.
    rewrite (bool_decide_eq_true_2 _ Hin). cbn [negb].
    rewrite (get_cached_or_fetch_miss P E site_id w _ fetch
               (cache_lookup_deleted site_id (t_request w) st) Hf).
    destruct (fetch w); reflexivity. }
  rewrite Hrun. split.
  - intros other Hne.
    destruct (fetch w); unfold doc_of, after_fetch, Server.log_call, Server.cache_delete;
      simpl; destruct (Server.db st) as [coll|]; simpl; try reflexivity.
    + rewrite lookup_insert_ne by congruence. apply lookup_delete_ne. congruence.
    + apply lookup_delete_ne. congruence.
  - exists fetch. split; [exact Hf|].
    destruct (fetch w); unfold doc_of, after_fetch, Server.log_call, Server.cache_delete;
      simpl; destruct (Server.db st) as [coll|]; simpl; try reflexivity.
    + apply lookup_insert_eq.
    + apply lookup_delete_eq.
Qed.

(** Provider B answers 503 on a refresh: its document is dropped, the one
    of Provider C stays. *)
Lemma refresh_leaderboard_store_witness :
  let st' := snd (Server.refresh_leaderboard no_parsers default_environ (lit "bsite")
                    (sample_world (Replied {| status_code := 503;
                                              body := Some (JDict []) |}))
                    store_with_timeout) in
  doc_of st' (lit "bsite") = None
  /\ doc_of st' (lit "csbattle") = doc_of store_with_timeout (lit "csbattle").
Proof.
  intros st'.
  destruct (refresh_leaderboard_store no_parsers default_environ (lit "bsite")
              (sample_world (Replied {| status_code := 503; body := Some (JDict []) |}))
              store_with_timeout) as (Hframe & fetch & Hf & Hdoc).
  - unfold valid_sites. rewrite !elem_of_cons. auto.
  - split.
    + fold st' in Hdoc. rewrite Hdoc. injection Hf as <-. reflexivity.
    + apply Hframe. discriminate.
Defined.

Lemma calls_get_cached_or_fetch (P : parsers) (E : environ) (s : pystr)
    (w : world) (st : Server.state) :
  s ∈ valid_sites ->
  Server.adapter_calls (snd (Server.get_cached_or_fetch P E s w st))
  = Server.adapter_calls st
    ++ match Server.cache_lookup s (t_request w) st with
       | None => [s]
       | Some _ => []
       end.
Proof.
  intros Hin. destruct (fetch_functions_known P E s Hin) as [fetch Hf].
  unfold Server.get_cached_or_fetch.
  destruct (Server.cache_lookup s (t_request w) st); [now rewrite app_nil_r|].
  rewrite Hf. destruct (fetch w); reflexivity.
Qed.

Lemma calls_resolve_each (P : parsers) (E : environ) (ws : pystr -> world)
    (sites : list pystr) (st st0 : Server.state) :
  NoDup sites ->
  (forall s, s ∈ sites -> s ∈ valid_sites) ->
  (forall s, s ∈ sites -> doc_of st s = doc_of st0 s) ->
  Server.adapter_calls (snd (Server.resolve_each P E sites ws st))
  = Server.adapter_calls st ++ List.filter (misses ws st0) sites.
Proof.
  intros Hnd. revert st. induction Hnd as [|s sites Hs Hnd IH]; intros st Hval Hdoc.
  - simpl. now rewrite app_nil_r.
  - cbn [Server.resolve_each List.filter].
    pose proof (calls_get_cached_or_fetch P E s (ws s) st (Hval s (list_elem_of_here _ _)))
      as Hcalls.
    pose proof (fun s' (Hne : s' <> s) =>
                  get_cached_or_fetch_frame P E s s' (ws s) st Hne) as Hframe.
    destruct (Server.get_cached_or_fetch P E s (ws s) st) as [r st1].
    cbn [snd] in Hcalls, Hframe.
    specialize (IH st1).
    destruct (Server.resolve_each P E sites ws st1) as [rest st2].
    cbn [snd] in *. rewrite IH.
    + rewrite Hcalls. unfold misses at 2.
      rewrite <- (cache_lookup_local s (t_request (ws s)) st st0
                    (Hdoc s (list_elem_of_here _ _))).
      destruct (Server.cache_lookup s (t_request (ws s)) st);
        [now rewrite app_nil_r|now rewrite <- app_assoc].
    + intros s' Hs'. apply Hval. now right.
    + intros s' Hs'. rewrite Hframe by (intros ->; contradiction).
      apply Hdoc. now right.
Qed.

(** X12. [get_all_leaderboards] calls the adapters of exactly the sites
    whose cache lookup misses in the initial state, once each, in the order
    clash, bsite, csbattle, skinfans.  Without a store all four are called
    on every request. *)
Theorem get_all_leaderboards_calls (P : parsers) (E : environ)
    (ws : pystr -> world) (st : Server.state) :
  Server.adapter_calls (snd (Server.get_all_leaderboards P E ws st))
  = Server.adapter_calls st ++ List.filter (misses ws st) valid_sites
  /\ (Server.db st = None ->
      Server.adapter_calls (snd (Server.get_all_leaderboards P E ws st))
      = Server.adapter_calls st ++ valid_sites).
Proof.
  assert (Hc : Server.adapter_calls (snd (Server.get_all_leaderboards P E ws st))
               = Server.adapter_calls st ++ List.filter (misses ws st) valid_sites).
  { unfold Server.get_all_leaderboards.
    pose proof (calls_resolve_each P E ws valid_sites st st valid_sites_NoDup
                  (fun s H => H) (fun s _ => eq_refl)) as H.
    destruct (Server.resolve_each P E valid_sites ws st) as [rs st']. exact H. }
  split; [exact Hc|].
  intros Hdb. rewrite Hc. f_equal.
  assert (Hall : forall s, misses ws st s = true).
  { intros s. unfold misses, Server.cache_lookup. now rewrite Hdb. }
  unfold valid_sites. cbn [List.filter]. now rewrite !Hall.
Qed.

(** With Provider C cached and still fresh, the other three are called. *)
Lemma get_all_leaderboards_calls_witness :
  Server.adapter_calls
    (snd (Server.get_all_leaderboards no_parsers default_environ
            (fun _ => later_world) store_with_timeout))
  = [lit "csbattle"; lit "clash"; lit "bsite"; lit "skinfans"]
  /\ Server.adapter_calls
       (snd (Server.get_all_leaderboards no_parsers default_environ
               (fun _ => later_world) no_store))
     = valid_sites.
Proof.
  destruct (get_all_leaderboards_calls no_parsers default_environ
              (fun _ => later_world) store_with_timeout) as [H1 _].
  destruct (get_all_leaderboards_calls no_parsers default_environ
              (fun _ => later_world) no_store) as [_ H2].
  split; [rewrite H1; vm_compute; reflexivity|].
  exact (H2 eq_refl).
Defined.

(** ** The stateless variant *)

Lemma index_fetch_shape (P : parsers) (E : environ) (w : world) :
  (exists d, ApiIndex.fetch_clash_data w = Ok d /\ site_id d = lit "clash" /\
             last_updated d <> None)
  /\ (exists d, ApiIndex.fetch_bsite_data P w = Ok d /\ site_id d = lit "bsite" /\
                last_updated d <> None)
  /\ (exists d, ApiIndex.fetch_csbattle_data E w = Ok d /\ site_id d = lit "csbattle" /\
                last_updated d <> None)
  /\ (exists d, ApiIndex.fetch_skinfans_data P w = Ok d /\ site_id d = lit "skinfans" /\
                last_updated d <> None).
Proof.
  repeat apply conj.
  - unfold ApiIndex.fetch_clash_data.
    destruct (clash_try _ _ _) as [d|e] eqn:Ht; cbn [try_except].
    + apply clash_try_static in Ht as ((Hid & _) & _ & Hlu).
      exists d. rewrite Hlu. repeat split; [exact Hid|discriminate].
    + eexists. repeat split. discriminate.
  - unfold ApiIndex.fetch_bsite_data.
    destruct (ApiIndex.bsite_try P w) as [d|e] eqn:Ht; cbn [try_except].
    + apply index_bsite_try_static in Ht as ((Hid & _) & Hlu).
      exists d. rewrite Hlu. repeat split; [exact Hid|discriminate].
    + eexists. repeat split. discriminate.
  - unfold ApiIndex.fetch_csbattle_data.
    destruct (csbattle_try _ _ _) as [d|e] eqn:Ht; cbn [try_except].
    + apply csbattle_try_static in Ht as ((Hid & _) & _ & Hlu & _).
      exists d. rewrite Hlu. repeat split; [exact Hid|discriminate].
    + eexists. repeat split. discriminate.
  - unfold ApiIndex.fetch_skinfans_data.
    destruct (skinfans_try _ _ _) as [d|e] eqn:Ht; cbn [try_except].
    + apply skinfans_try_static in Ht as ((Hid & _) & Hlu & _).
      exists d. rewrite Hlu. repeat split; [exact Hid|discriminate].
    + eexists. repeat split. discriminate.
Qed.

Lemma index_call_failed (P : parsers) (E : environ) (w : world) :
  call_failed (outbound w) ->
  returns_error clash_config (ApiIndex.fetch_clash_data w)
  /\ returns_error bsite_config (ApiIndex.fetch_bsite_data P w)
  /\ returns_error csbattle_config (ApiIndex.fetch_csbattle_data E w)
  /\ returns_error skinfans_config (ApiIndex.fetch_skinfans_data P w).
Proof.
  intros Hf. repeat apply conj.
  - destruct (clash_try_failed (t_fetch w) (outbound w) (Some (t_fetch w)) Hf) as [e He].
    unfold ApiIndex.fetch_clash_data. rewrite He. cbn [try_except].
    eexists. split; [reflexivity|]. apply error_shaped_stamped, error_shaped_empty.
  - destruct (index_bsite_try_failed P w Hf) as [e He].
    unfold ApiIndex.fetch_bsite_data. rewrite He. cbn [try_except].
    eexists. split; [reflexivity|]. apply error_shaped_stamped, error_shaped_empty.
  - destruct (csbattle_try_failed E (outbound w) (Some (t_done w)) Hf) as [e He].
    unfold ApiIndex.fetch_csbattle_data. rewrite He. cbn [try_except].
    eexists. split; [reflexivity|]. apply error_shaped_stamped, error_shaped_empty.
  - destruct (skinfans_try_failed P (outbound w) (Some (t_done w)) Hf) as [e He].
    unfold ApiIndex.fetch_skinfans_data. rewrite He. cbn [try_except].
    eexists. split; [reflexivity|]. apply error_shaped_stamped, error_shaped_empty.
Qed.

Lemma returns_error_of (config : site_config) (r : result snapshot) (d : snapshot) :
  returns_error config r -> r = Ok d -> error_shaped config d.
Proof. intros (d' & -> & H) [= <-]. exact H. Qed.

(** X13. In the stateless variant the single-site endpoint answers a known
    id with what that site's own adapter returns: a snapshot of the site
    that carries a [last_updated], and of status ["error"] with no users
    when the call to the provider failed.  It answers an unknown id with
    the 404 that lists the valid ids.  The aggregate always holds four
    snapshots, in the order of the sites, each the one its site's adapter
    returned for that site's request, and never an error record: a failing
    provider shows as a snapshot with status ["error"]. *)
Theorem index_facade_total (P : parsers) (E : environ) (s : pystr)
    (w : world) (ws : pystr -> world) :
  (s ∈ valid_sites ->
   exists d, ApiIndex.get_leaderboard P E s w = Ok d /\
             site_id d = s /\ last_updated d <> None /\
             (call_failed (outbound w) ->
              status d = JStr (lit "error") /\ users d = [] /\
              exists m, message d = Some (JStr m)))
  /\ (ApiIndex.get_leaderboard P E (lit "clash") w = ApiIndex.fetch_clash_data w /\
      ApiIndex.get_leaderboard P E (lit "bsite") w = ApiIndex.fetch_bsite_data P w /\
      ApiIndex.get_leaderboard P E (lit "csbattle") w = ApiIndex.fetch_csbattle_data E w /\
      ApiIndex.get_leaderboard P E (lit "skinfans") w = ApiIndex.fetch_skinfans_data P w)
  /\ (s ∉ valid_sites ->
      ApiIndex.get_leaderboard P E s w = Raise invalid_site)
  /\ (exists d1 d2 d3 d4,
        ApiIndex.fetch_clash_data (ws (lit "clash")) = Ok d1 /\
        ApiIndex.fetch_bsite_data P (ws (lit "bsite")) = Ok d2 /\
        ApiIndex.fetch_csbattle_data E (ws (lit "csbattle")) = Ok d3 /\
        ApiIndex.fetch_skinfans_data P (ws (lit "skinfans")) = Ok d4 /\
        ApiIndex.get_all_leaderboards P E ws
        = Ok [(lit "clash", Snapshot d1); (lit "bsite", Snapshot d2);
              (lit "csbattle", Snapshot d3); (lit "skinfans", Snapshot d4)] /\
        (call_failed (outbound (ws (lit "clash"))) -> error_shaped clash_config d1) /\
        (call_failed (outbound (ws (lit "bsite"))) -> error_shaped bsite_config d2) /\
        (call_failed (outbound (ws (lit "csbattle"))) ->
         error_shaped csbattle_config d3) /\
        (call_failed (outbound (ws (lit "skinfans"))) ->
         error_shaped skinfans_config d4)).
Proof.
  assert (Hreg : ApiIndex.get_leaderboard P E (lit "clash") w = ApiIndex.fetch_clash_data w /\
      ApiIndex.get_leaderboard P E (lit "bsite") w = ApiIndex.fetch_bsite_data P w /\
      ApiIndex.get_leaderboard P E (lit "csbattle") w = ApiIndex.fetch_csbattle_data E w /\
      ApiIndex.get_leaderboard P E (lit "skinfans") w = ApiIndex.fetch_skinfans_data P w).
  { repeat split; reflexivity. }
  split; [|split; [exact Hreg|split]].
  - intros Hin. destruct Hreg as (Ra & Rb & Rc & Rd).
    destruct (index_fetch_shape P E w)
      as ((da & Ha & Hia & Hla) & (db & Hb & Hib & Hlb) & (dc & Hc & Hic & Hlc)
          & (dd & Hd & Hid & Hld)).
    destruct (valid_sites_cases s Hin) as [-> | [-> | [-> | ->]]].
    + exists da. rewrite Ra.
      split; [exact Ha|]. split; [exact Hia|]. split; [exact Hla|]. intros Hf.
      destruct (index_call_failed P E w Hf) as (He & _).
      destruct (returns_error_of _ _ _ He Ha) as (Hst & Hm & Hu & _). auto.
    + exists db. rewrite Rb.
      split; [exact Hb|]. split; [exact Hib|]. split; [exact Hlb|]. intros Hf.
      destruct (index_call_failed P E w Hf) as (_ & He & _).
      destruct (returns_error_of _ _ _ He Hb) as (Hst & Hm & Hu & _). auto.
    + exists dc. rewrite Rc.
      split; [exact Hc|]. split; [exact Hic|]. split; [exact Hlc|]. intros Hf.
      destruct (index_call_failed P E w Hf) as (_ & _ & He & _).
      destruct (returns_error_of _ _ _ He Hc) as (Hst & Hm & Hu & _). auto.
    + exists dd. rewrite Rd.
      split; [exact Hd|]. split; [exact Hid|]. split; [exact Hld|]. intros Hf.
      destruct (index_call_failed P E w Hf) as (_ & _ & _ & He).
      destruct (returns_error_of _ _ _ He Hd) as (Hst & Hm & Hu & _). auto.
  - intros Hn. unfold ApiIndex.get_leaderboard.
    now rewrite (bool_decide_eq_false_2 _ Hn).
  - destruct (index_fetch_shape P E (ws (lit "clash"))) as ((d1 & H1 & _) & _).
    destruct (index_fetch_shape P E (ws (lit "bsite"))) as (_ & (d2 & H2 & _) & _).
    destruct (index_fetch_shape P E (ws (lit "csbattle"))) as (_ & _ & (d3 & H3 & _) & _).
    destruct (index_fetch_shape P E (ws (lit "skinfans"))) as (_ & _ & _ & (d4 & H4 & _)).
    exists d1, d2, d3, d4.
    split; [exact H1|]. split; [exact H2|]. split; [exact H3|]. split; [exact H4|].
    split.
    { unfold ApiIndex.get_all_leaderboards, ApiIndex.fetch_table.
      cbn [List.map ApiIndex.fetch_or_record]. now rewrite H1, H2, H3, H4. }
    split; [|split; [|split]]; intros Hf.
    + destruct (index_call_failed P E _ Hf) as (He & _).
      exact (returns_error_of _ _ _ He H1).
    + destruct (index_call_failed P E _ Hf) as (_ & He & _).
      exact (returns_error_of _ _ _ He H2).
    + destruct (index_call_failed P E _ Hf) as (_ & _ & He & _).
      exact (returns_error_of _ _ _ He H3).
    + destruct (index_call_failed P E _ Hf) as (_ & _ & _ & He).
      exact (returns_error_of _ _ _ He H4).
Qed.

(** Provider A timing out: the single-site endpoint still answers, with a
    snapshot of status ["error"] and no users. *)
Lemma index_facade_total_witness :
  exists d, ApiIndex.get_leaderboard no_parsers default_environ (lit "clash")
              (sample_world timed_out) = Ok d
            /\ last_updated d <> None
            /\ status d = JStr (lit "error") /\ users d = [].
Proof.
  destruct (index_facade_total no_parsers default_environ (lit "clash")
              (sample_world timed_out) one_failing) as (H & _).
  destruct H as (d & Hd & _ & Hlu & Herr).
  - unfold valid_sites. rewrite !elem_of_cons. auto.
  - exists d. split; [exact Hd|]. split; [exact Hlu|].
    destruct Herr as (Hst & Hus & _); [left; eexists; reflexivity|].
    split; assumption.
Defined.

(** ** Provider A: where the countdown lands *)

Lemma replace_date_Ok (d d' : datetime) (y m dd : Z) :
  replace_date d y m dd = Ok d' ->
  valid_datetime d' = true /\
  d' = {| year := y; month := m; day := dd; hour := hour d; minute := minute d;
          second := second d; microsecond := microsecond d |}.
Proof.
  unfold replace_date.
  match goal with |- context [valid_datetime ?x] =>
    destruct (valid_datetime x) eqn:Hv end; [|discriminate].
  intros [= <-]. split; [exact Hv|reflexivity].
Qed.

Lemma clash_end_of_month_micros (now d : datetime) :
  valid_datetime now = true -> clash_end_of_month now = Ok d ->
  micros d = micros now
             + (days_in_month (year now) (month now) - day now + 1) * 86400000000
             - 1000000.
Proof.
  intros Hv H. unfold clash_end_of_month in H.
  pose proof Hv as Hv'. split_valid Hv'.
  destruct (Z.eqb_spec (month now) 12) as [Hm|Hm].
  - apply bind_Ok in H as (d' & Hr & Hs).
    apply replace_date_Ok in Hr as [Hvd ->].
    rewrite (minus_one_second_micros _ _ Hvd Hs).
    unfold micros, toordinal; cbn [year month day hour minute second microsecond].
    pose proof (days_before_year_succ (year now)) as Hy.
    change (days_before_month (year now + 1) 1) with 0.
    rewrite Hy, Hm. change (days_in_month (year now) 12) with 31. lia.
  - apply bind_Ok in H as (d' & Hr & Hs).
    apply replace_date_Ok in Hr as [Hvd ->].
    rewrite (minus_one_second_micros _ _ Hvd Hs).
    unfold micros, toordinal; cbn [year month day hour minute second microsecond].
    rewrite (days_before_month_succ (year now) (month now + 1)) by lia.
    replace (month now + 1 - 1) with (month now) by lia. lia.
Qed.

(** X14. On a successful fetch of Provider A the countdown lies in the
    future of the adapter's clock: exactly as many whole days ahead as
    remain in the month, the current day counted, less one second.  So it
    is at least 23:59:59 and less than 31 days ahead. *)
Theorem clash_countdown_ahead (w : world) (snap : snapshot) :
  valid_datetime (t_fetch w) = true ->
  Server.fetch_clash_data w = Ok snap \/
  (ApiIndex.fetch_clash_data w = Ok snap /\ status snap = active) ->
  let now := t_fetch w in
  exists d,
    countdown_end snap = Some (AtDatetime d) /\
    micros d = micros now
               + (days_in_month (year now) (month now) - day now + 1) * 86400000000
               - 1000000 /\
    86399000000 <= micros d - micros now < 31 * 86400000000.
Proof.
  intros Hv H now.
  assert (Htry : exists lu, clash_try now (outbound w) lu = Ok snap).
  { destruct H as [H|[H Hst]].
    - unfold Server.fetch_clash_data in H.
      destruct (clash_try (t_fetch w) (outbound w) None) eqn:Ht; [|discriminate].
      injection H as ->. eauto.
    - apply try_except_Ok in H as [H|(e & _ & ->)]; [eauto|discriminate]. }
  destruct Htry as [lu Htry].
  destruct (clash_try_inv _ _ _ _ Htry)
    as (r & data & su & eom & _ & _ & _ & _ & _ & Heom & Hc & _).
  exists eom. split; [exact Hc|].
  pose proof (clash_end_of_month_micros now eom Hv Heom) as Hm.
  split; [exact Hm|].
  pose proof Hv as Hv'. split_valid Hv'. subst now.
  pose proof (days_in_month_pos (year (t_fetch w)) (month (t_fetch w))). lia.
Qed.

(** On 15 February 2026 the countdown is 14 days less a second ahead. *)
Lemma clash_countdown_ahead_witness :
  exists snap d,
    Server.fetch_clash_data (sample_world (ok_reply (JList []))) = Ok snap
    /\ countdown_end snap = Some (AtDatetime d)
    /\ micros d - micros (at_time 2026 2 15 13 45 10) = 14 * 86400000000 - 1000000.
Proof.
  eexists.
  edestruct (clash_countdown_ahead (sample_world (ok_reply (JList []))))
    as (d & Hc & Hm & _).
  - reflexivity.
  - left. vm_compute. reflexivity.
  - exists d. split; [reflexivity|]. split; [exact Hc|].
    cbn [t_fetch sample_world] in Hm. rewrite Hm. vm_compute. reflexivity.
Defined.

(** ** Provider D: payouts *)

Lemma skinfans_place_payout (P : parsers) (ip : nat * json) (o : option user_entry) :
  skinfans_place P ip = Ok o ->
  exists p, place_payout P (snd ip) = Ok p /\
    match o with
    | Some u => has_user (snd ip) = true /\ prize u = JFloat p
    | None => has_user (snd ip) = false
    end.
Proof.
  unfold skinfans_place, place_payout, has_user. intros H.
  apply bind_Ok in H as (payout & Hpay & H).
  apply bind_Ok in H as (p & Hp & H).
  apply bind_Ok in H as (ud & Hud & H).
  exists p. rewrite Hpay. cbn [mbind result_bind]. split; [exact Hp|].
  rewrite Hud. destruct (py_truthy ud).
  - inv_bind H. inversion H; subst. now split.
  - inversion H; subst. reflexivity.
Qed.

Lemma skinfans_loop_payouts (P : parsers) (l : list (nat * json))
    (emitted : list (option user_entry)) :
  for_each (skinfans_place P) l = Ok emitted ->
  Forall (fun ip => exists p, place_payout P (snd ip) = Ok p) l /\
  Forall2 (fun ip u => exists p, place_payout P (snd ip) = Ok p /\ prize u = JFloat p)
    (List.filter (fun ip => has_user (snd ip)) l) (appended emitted).
Proof.
  revert emitted. induction l as [|ip l IH]; intros emitted H; simpl in H.
  - inversion H; subst. split; constructor.
  - apply bind_Ok in H as (o & Ho & H). apply bind_Ok in H as (em & Hem & H).
    inversion H; subst. destruct (IH _ Hem) as [IHa IHb].
    apply skinfans_place_payout in Ho as (p & Hp & Ho).
    split; [constructor; eauto|].
    cbn [List.filter]. destruct o as [u|].
    + destruct Ho as [-> Hu]. cbn [appended]. constructor; eauto.
    + rewrite Ho. exact IHb.
Qed.

Lemma skinfans_try_payouts (P : parsers) (o : outcome) (lu : option datetime)
    (d : snapshot) :
  skinfans_try P o lu = Ok d ->
  exists r data race places ps q act,
    o = Replied r /\ body r = Some data /\
    skinfans_race data = Ok race /\
    py_get race "places" (JList []) = Ok places /\
    py_slice_iter places 10 = Ok ps /\
    Forall (fun ip => exists p, place_payout P (snd ip) = Ok p) (enumerate ps) /\
    Forall2 (fun ip u => exists p, place_payout P (snd ip) = Ok p /\ prize u = JFloat p)
      (List.filter (fun ip => has_user (snd ip)) (enumerate ps)) (users d) /\
    (py_get race "payout" (JInt (cfg_prize_pool skinfans_config)) ≫= py_float P) = Ok q /\
    prize_pool d = JFloat q /\
    py_get race "active" JNull = Ok act /\
    status d = if py_truthy act then active else ended.
Proof.
  unfold skinfans_try. intros H.
  apply bind_Ok in H as (r & Hr & H). apply bind_Ok in H as ([] & Hs & H).
  apply bind_Ok in H as (data & Hdata & H). apply bind_Ok in H as (race & Hrace & H).
  apply bind_Ok in H as (places & Hpl & H). apply bind_Ok in H as (ps & Hps & H).
  apply bind_Ok in H as (em & Hem & H). apply bind_Ok in H as (ends & Hends & H).
  apply bind_Ok in H as (payout & Hpay & H). apply bind_Ok in H as (q & Hq & H).
  apply bind_Ok in H as (act & Hact & H). inversion H; subst; clear H.
  destruct o as [r'|m|m]; simpl in Hr; try discriminate. injection Hr as ->.
  unfold response_json in Hdata. destruct (body r) as [j|] eqn:Hb; [|discriminate].
  injection Hdata as ->.
  destruct (skinfans_loop_payouts P _ _ Hem) as [Hall Hkept].
  exists r, data, race, places, ps, q, act. cbn [users prize_pool status].
  repeat split; auto.
  - rewrite Hpay. exact Hq.
  - unfold active, ended. now destruct (py_truthy act).
Qed.

(** X15. On a successful fetch of Provider D (status ["active"] or
    ["ended"]) every one of the first 10 places had a payout that [float]
    accepts, the places without a user included; the prize of each user is
    the payout of its own place, the prize pool is the race's [payout], or
    the configured 500 when the race has none, and the status is ["active"]
    exactly when the race's [active] is truthy. *)
Theorem skinfans_payouts (P : parsers) (E : environ) (w : world) (d : snapshot) :
  Server.fetch_skinfans_data P E w = Ok d \/ ApiIndex.fetch_skinfans_data P w = Ok d ->
  status d = active \/ status d = ended ->
  exists r data race places ps q act,
    outbound w = Replied r /\ body r = Some data /\
    skinfans_race data = Ok race /\
    py_get race "places" (JList []) = Ok places /\
    py_slice_iter places 10 = Ok ps /\
    Forall (fun ip => exists p, place_payout P (snd ip) = Ok p) (enumerate ps) /\
    Forall2 (fun ip u => exists p, place_payout P (snd ip) = Ok p /\ prize u = JFloat p)
      (List.filter (fun ip => has_user (snd ip)) (enumerate ps)) (users d) /\
    (py_get race "payout" (JInt (cfg_prize_pool skinfans_config)) ≫= py_float P) = Ok q /\
    prize_pool d = JFloat q /\
    py_get race "active" JNull = Ok act /\
    status d = if py_truthy act then active else ended.
Proof.
  intros [H|H] Hst.
  - eapply skinfans_try_payouts, server_skinfans_success; eassumption.
  - eapply skinfans_try_payouts, index_skinfans_success; eassumption.
Qed.

(** String payouts are read as numbers; the race is not active. *)
Lemma skinfans_payouts_witness :
  exists d,
    Server.fetch_skinfans_data sample_parsers default_environ
      (sample_world (ok_reply skinfans_string_payouts)) = Ok d
    /\ status d = ended
    /\ prize_pool d = JFloat (1000 # 1)
    /\ List.map prize (users d) = [JFloat (241 # 2)].
Proof.
  eexists. split; [vm_compute; reflexivity|].
  edestruct (skinfans_payouts sample_parsers default_environ
               (sample_world (ok_reply skinfans_string_payouts)))
    as (r & data & race & places & ps & q & act & _ & _ & _ & _ & _ & _ & _ & _ & _ & _ & _).
  - left. vm_compute. reflexivity.
  - right. reflexivity.
  - repeat split; reflexivity.
Defined.

(** ** Sorting: ties and entries that do not sort *)

Lemma insert_desc_filter (q : Q) (x : Q * json) (l : list (Q * json)) :
  List.filter (fun p => Qeq_bool (fst p) q) (insert_desc x l)
  = List.filter (fun p => Qeq_bool (fst p) q) (x :: l).
Proof.
  induction l as [|y l IH]; [reflexivity|].
  cbn [insert_desc]. destruct (Qle_bool (fst y) (fst x)) eqn:Hle; [reflexivity|].
  cbn [List.filter]. rewrite IH. cbn [List.filter].
  destruct (Qeq_bool (fst x) q) eqn:Hx, (Qeq_bool (fst y) q) eqn:Hy; try reflexivity.
  exfalso. apply Qeq_bool_iff in Hx, Hy.
  assert (Hyx : (fst y <= fst x)%Q) by (rewrite Hx, Hy; apply Qle_refl).
  apply Qle_bool_iff in Hyx. congruence.
Qed.

Lemma sort_desc_filter (q : Q) (l : list (Q * json)) :
  List.filter (fun p => Qeq_bool (fst p) q) (sort_desc l)
  = List.filter (fun p => Qeq_bool (fst p) q) l.
Proof.
  induction l as [|x l IH]; [reflexivity|].
  cbn [sort_desc foldr]. fold (sort_desc l). rewrite insert_desc_filter.
  cbn [List.filter]. now rewrite IH.
Qed.

Lemma filter_map_snd (key : string) (q : Q) (ps : list (Q * json)) :
  Forall (fun p => wager_key key (snd p) = Some (fst p)) ps ->
  with_wager key q (List.map snd ps)
  = List.map snd (List.filter (fun p => Qeq_bool (fst p) q) ps).
Proof.
  unfold with_wager. induction 1 as [|p ps Hp _ IH]; [reflexivity|].
  cbn [List.map List.filter]. unfold wager_of at 1. rewrite Hp. cbn [default].
  unfold id. destruct (Qeq_bool (fst p) q); cbn [List.map]; now rewrite IH.
Qed.

(** X16. The sort of Providers A and C is stable: among the raw entries,
    those with the same wager come out in the order the provider sent them,
    so ties are ranked in provider order. *)
Theorem sorted_ties_keep_order (key : string) (l sorted_users : list json) (q : Q) :
  Forall (fun x => wager_key key x <> None) l ->
  py_sorted_desc (JList l) key = Ok sorted_users ->
  with_wager key q sorted_users = with_wager key q l.
Proof.
  intros Hl Hs. destruct (keys_numeric key l Hl) as (ks & qs & Hk & Hq & H2).
  destruct (snd_combine_Forall2 _ _ _ H2) as [Hsnd Hinv].
  unfold py_sorted_desc in Hs. cbn [py_iter mbind result_bind] in Hs.
  rewrite Hk in Hs. cbn [mbind result_bind] in Hs. rewrite Hq in Hs.
  injection Hs as <-.
  rewrite filter_map_snd.
  - rewrite sort_desc_filter, <- (filter_map_snd key q _ Hinv). now rewrite Hsnd.
  - eapply Permutation_Forall; [symmetry; apply sort_desc_perm|exact Hinv].
Qed.

(** Two entries tied at 50 stay in the order they came. *)
Lemma sorted_ties_keep_order_witness :
  exists sorted_users,
    py_sorted_desc (JList tied_entries) "wagered" = Ok sorted_users
    /\ with_wager "wagered" (50 # 1) sorted_users
       = [player "first" 50; player "second" 50].
Proof.
  eexists. split; [vm_compute; reflexivity|].
  rewrite (sorted_ties_keep_order "wagered" tied_entries _ (50 # 1)).
  - reflexivity.
  - unfold tied_entries. repeat constructor; vm_compute; discriminate.
  - vm_compute. reflexivity.
Defined.

Lemma py_round2_non_numeric (v : json) :
  num_val v = None -> exists e, py_round2 v = Raise e.
Proof. destruct v; simpl; try discriminate; eauto. Qed.

Lemma for_each_keys (key : string) (l : list json) :
  (exists e, for_each (fun x => py_get x key (JInt 0)) l = Raise e) \/
  (exists ks, for_each (fun x => py_get x key (JInt 0)) l = Ok ks /\
              Forall2 (fun x k => py_get x key (JInt 0) = Ok k) l ks).
Proof.
  induction l as [|x l IH]; [right; exists []; split; [reflexivity|constructor]|].
  cbn [for_each]. destruct (py_get x key (JInt 0)) as [k|e] eqn:Hk;
    cbn [mbind result_bind]; [|left; eauto].
  destruct IH as [[e ->]|(ks & -> & H2)]; cbn [mbind result_bind]; [left; eauto|].
  right. exists (k :: ks). split; [reflexivity|]. constructor; assumption.
Qed.

Lemma all_num_bad (key : string) (l ks : list json) :
  Forall2 (fun x k => py_get x key (JInt 0) = Ok k) l ks ->
  Exists (fun x => wager_key key x = None) l -> all_num ks = None.
Proof.
  induction 1 as [|x k l ks Hk _ IH]; intros Hex; [now apply Exists_nil in Hex|].
  cbn [all_num]. apply Exists_cons in Hex as [Hbad|Hex].
  - unfold wager_key in Hbad. rewrite Hk in Hbad. now rewrite Hbad.
  - rewrite (IH Hex). now destruct (num_val k).
Qed.

(** A list with an entry that has no numeric wager does not get through
    the sort and the loop of a tier-table adapter. *)
Lemma bad_wager_raises (key : string) (f : nat * json -> result user_entry)
    (l : list json) :
  (forall i x v, py_get x key (JInt 0) = Ok v -> num_val v = None ->
                 exists e, f (i, x) = Raise e) ->
  Exists (fun x => wager_key key x = None) l ->
  exists e, (sorted_users ← py_sorted_desc (JList l) key;
             for_each f (enumerate (take 10 sorted_users))) = Raise e.
Proof.
  intros Hf Hex. unfold py_sorted_desc. cbn [py_iter mbind result_bind].
  destruct (for_each_keys key l) as [[e ->]|(ks & Hks & H2)]; [eauto|].
  rewrite Hks. cbn [mbind result_bind]. rewrite (all_num_bad key l ks H2 Hex).
  destruct l as [|x [|y l]]; [now apply Exists_nil in Hex| |cbn; eauto].
  cbn [length Nat.leb mbind result_bind take enumerate seq combine for_each].
  apply Exists_cons in Hex as [Hbad|Hex]; [|now apply Exists_nil in Hex].
  inversion H2; subst. unfold wager_key in Hbad.
  match goal with Hk : py_get x key (JInt 0) = Ok ?k |- _ =>
    rewrite Hk in Hbad; destruct (Hf 0%nat x k Hk Hbad) as [e ->] end.
  cbn. eauto.
Qed.

Lemma clash_entry_bad (i : nat) (x v : json) :
  py_get x "wagered" (JInt 0) = Ok v -> num_val v = None ->
  exists e, clash_entry (i, x) = Raise e.
Proof.
  intros Hv Hn. unfold clash_entry. cbn [fst snd].
  destruct x as [| | | | | |kv]; try discriminate.
  cbn [py_get mbind result_bind] in *. injection Hv as Hv. rewrite Hv.
  destruct (py_round2_non_numeric v Hn) as [e ->]. cbn. eauto.
Qed.

Lemma csbattle_entry_bad (i : nat) (x v : json) :
  py_get x "wager" (JInt 0) = Ok v -> num_val v = None ->
  exists e, csbattle_entry (i, x) = Raise e.
Proof.
  intros Hv Hn. unfold csbattle_entry. cbn [fst snd].
  destruct x as [| | | | | |kv]; try discriminate.
  cbn [py_get mbind result_bind] in *. injection Hv as Hv. rewrite Hv.
  destruct (py_round2_non_numeric v Hn) as [e ->]. cbn. eauto.
Qed.

(** X17. One raw entry without a numeric wager (not an object, or with a
    wager that is null, text, a list or an object) fails the whole fetch of
    Providers A and C, however many good entries come with it: the caching
    variant of Provider A raises its 500, the other adapters return the
    error snapshot with no users. *)
Theorem one_bad_wager_fails (E : environ) (w : world) (r : response) (l : list json) :
  outbound w = Replied r -> body r = Some (JList l) ->
  (Exists (fun x => wager_key "wagered" x = None) l ->
   (exists m, Server.fetch_clash_data w = Raise (HTTPException 500 m)) /\
   returns_error clash_config (ApiIndex.fetch_clash_data w))
  /\ (Exists (fun x => wager_key "wager" x = None) l ->
      returns_error csbattle_config (ApiIndex.fetch_csbattle_data E w) /\
      (csbattle_affiliate_id E <> [] ->
       returns_error csbattle_config (Server.fetch_csbattle_data E w))).
Proof.
  intros Ho Hb. split.
  - intros Hex.
    assert (Hraise : forall lu, exists e, clash_try (t_fetch w) (outbound w) lu = Raise e).
    { intros lu. unfold clash_try. rewrite Ho. cbn [http_request mbind result_bind].
      destruct (raise_for_status r) as [[]|e]; cbn [mbind result_bind]; [|eauto].
      unfold response_json. rewrite Hb. cbn [mbind result_bind].
      destruct (bad_wager_raises "wagered" clash_entry l clash_entry_bad Hex) as [e He].
      destruct (py_sorted_desc (JList l) "wagered") as [su|e']; cbn [mbind result_bind] in *;
        [|eauto].
      rewrite He. cbn. eauto. }
    split.
    + destruct (Hraise None) as [e He]. unfold Server.fetch_clash_data.
      rewrite He. cbn. eauto.
    + destruct (Hraise (Some (t_fetch w))) as [e He]. unfold ApiIndex.fetch_clash_data.
      rewrite He. cbn. eexists. split; [reflexivity|].
      apply error_shaped_stamped, error_shaped_empty.
  - intros Hex.
    assert (Hraise : forall lu, exists e, csbattle_try E (outbound w) lu = Raise e).
    { intros lu. unfold csbattle_try. rewrite Ho. cbn [http_request mbind result_bind].
      destruct (raise_for_status r) as [[]|e]; cbn [mbind result_bind]; [|eauto].
      unfold response_json. rewrite Hb. cbn [mbind result_bind].
      destruct (bad_wager_raises "wager" csbattle_entry l csbattle_entry_bad Hex)
        as [e He].
      destruct (py_sorted_desc (JList l) "wager") as [su|e']; cbn [mbind result_bind] in *;
        [|eauto].
      rewrite He. cbn. eauto. }
    split.
    + destruct (Hraise (Some (t_done w))) as [e He]. unfold ApiIndex.fetch_csbattle_data.
      rewrite He. cbn. eexists. split; [reflexivity|].
      apply error_shaped_stamped, error_shaped_empty.
    + intros Hcfg. destruct (Hraise None) as [e He]. unfold Server.fetch_csbattle_data.
      destruct (csbattle_affiliate_id E); [done|]. cbn [py_truthy length Nat.eqb negb].
      rewrite He. cbn. eexists. split; [reflexivity|]. apply error_shaped_empty.
Qed.

(** A null wager in the middle of three entries fails Provider A. *)
Lemma one_bad_wager_fails_witness :
  (exists m, Server.fetch_clash_data
               (sample_world (ok_reply (JList entries_with_null_wager)))
             = Raise (HTTPException 500 m))
  /\ returns_error clash_config
       (ApiIndex.fetch_clash_data
          (sample_world (ok_reply (JList entries_with_null_wager)))).
Proof.
  destruct (one_bad_wager_fails default_environ
              (sample_world (ok_reply (JList entries_with_null_wager)))
              {| status_code := 200; body := Some (JList entries_with_null_wager) |}
              entries_with_null_wager eq_refl eq_refl) as [H _].
  apply H. unfold entries_with_null_wager.
  apply Exists_cons_tl, Exists_cons_hd. reflexivity.
Defined.
